(** * law-base: the legal argument evaluation pipeline

    A shallow embedding of the decision logic of the repository:

    - [src/utils/validators.py]                        ([DataValidator])
    - [src/backend/weakness/analysis.py]               ([WeaknessAnalysis])
    - [src/backend/strategy/suggestion_engine.py]      ([StrategySuggestionEngine])
    - [src/backend/weighting/point_weighting.py]       ([PointWeighting])
    - [src/backend/analysis/case_analysis.py]          ([CaseAnalysis])
    - [src/backend/dual_perspective.py]                ([DualPerspectiveAnalysis])
    - [src/backend/prediction/counter_argument.py]     ([CounterArgumentPredictor])

    Conventions of the embedding.

    - Python dictionaries with string keys are finite maps [gmap string pyval];
      a dictionary that is returned and whose order matters (the weight
      vector) is an association list in insertion order.
    - A Python [int] is an integer [Z] ([PInt]) and a [bool] used as a
      number is the [int] 0 or 1. A [float] is an exact rational [Q]
      ([PNum]): rounding, infinities and NaN are not modelled, and the
      comparisons against literals are the exact ones. An [int] too large
      for a [float] raises [OverflowError] where Python converts it or
      divides it into a [float].
    - A Python exception is a value [Raise e] of the [result] type; a
      [try ... except Exception] is a match on it.
    - [datetime.now().year] is an explicit argument [now].
    - The spaCy pipeline ([self.nlp]) is not part of the repository: its
      sentence splitter and its similarity are parameters of the sections
      that use them.
    - Strings are ASCII. *)

From Stdlib Require Import QArith Qabs Qminmax Qpower Lqa.
From Stdlib Require Import ZArith Lia String Ascii List Bool Sorted.
From stdpp Require Import gmap strings list fin_maps.

Import ListNotations.
Set Warnings "-register-all".
Local Open Scope string_scope.
Local Open Scope list_scope.

(** ** Python values, exceptions *)

Module Py.

Inductive exn : Type :=
  | TypeError
  | ValueError
  | KeyError
  | ZeroDivisionError
  | AttributeError
  | OverflowError.

Inductive result (A : Type) : Type :=
  | Ok (a : A)
  | Raise (e : exn).
Arguments Ok {A} a.
Arguments Raise {A} e.

Definition bind {A B : Type} (m : result A) (k : A -> result B) : result B :=
  match m with
  | Ok a => k a
  | Raise e => Raise e
  end.

Definition is_ok {A : Type} (m : result A) : bool :=
  match m with Ok _ => true | Raise _ => false end.

(** [PInt] is an [int], [PNum] a [float]. *)
Inductive pyval : Type :=
  | PNone
  | PBool (b : bool)
  | PInt (n : Z)
  | PNum (q : Q)
  | PStr (s : string)
  | PList (l : list pyval)
  | PDict (d : gmap string pyval).


(** Truth value of an object, as [if x:] and [not x] take it. *)
Definition truthy (v : pyval) : bool :=
  match v with
  | PNone => false
  | PBool b => b
  | PInt n => negb (n =? 0)%Z
  | PNum q => negb (Qeq_bool q 0)
  | PStr s => negb (String.eqb s "")
  | PList l => match l with [] => false | _ :: _ => true end
  | PDict d => negb (Nat.eqb (size d) 0)
  end.

(** The value of the operand of an ordering comparison with a [float]:
    numbers, and booleans as 0 and 1; the comparison of an [int] with a
    [float] is exact. Everything else makes the comparison raise
    [TypeError]. *)
Definition as_num (v : pyval) : result Q :=
  match v with
  | PInt n => Ok (inject_Z n)
  | PNum q => Ok q
  | PBool b => Ok (if b then 1%Q else 0%Q)
  | _ => Raise TypeError
  end.

(** The operand of an arithmetic operation: an [int] (a [bool] is one) or
    a [float]. *)
Inductive num : Type :=
  | NInt (n : Z)
  | NFloat (q : Q).

Definition to_num (v : pyval) : result num :=
  match v with
  | PInt n => Ok (NInt n)
  | PBool b => Ok (NInt (if b then 1 else 0))
  | PNum q => Ok (NFloat q)
  | _ => Raise TypeError
  end.

Definition num_value (x : num) : Q :=
  match x with
  | NInt n => inject_Z n
  | NFloat q => q
  end.

(** The least magnitude that rounds to no [float]: 2^1024 - 2^970, halfway
    between the largest [float] and 2^1024. *)
Definition float_overflow : Z := (2 ^ 1024 - 2 ^ 970)%Z.
Arguments float_overflow : simpl never.

(** The largest [float]: 2^1024 - 2^971. *)
Definition float_max : Z := (2 ^ 1024 - 2 ^ 971)%Z.
Arguments float_max : simpl never.

(** The conversion of an operand to [float], as an operation with a
    [float] makes it. *)
Definition num_float (x : num) : result Q :=
  match x with
  | NInt n =>
      if (Z.abs n <? float_overflow)%Z then Ok (inject_Z n)
      else Raise OverflowError
  | NFloat q => Ok q
  end.

(** [x + y]: exact on two [int]s, on [float]s otherwise. *)
Definition num_add (x y : num) : result num :=
  match x, y with
  | NInt a, NInt b => Ok (NInt (a + b)%Z)
  | _, _ =>
      match num_float x with
      | Ok a =>
          match num_float y with
          | Ok b => Ok (NFloat (a + b)%Q)
          | Raise e => Raise e
          end
      | Raise e => Raise e
      end
  end.

(** [x / y], a [float]: the quotient of two [int]s is rounded once, and is
    too large when it rounds to no [float]. *)
Definition num_truediv (x y : num) : result Q :=
  match x, y with
  | NInt a, NInt b =>
      if (b =? 0)%Z then Raise ZeroDivisionError
      else if Qle_bool (inject_Z float_overflow)
                (Qabs (inject_Z a / inject_Z b))
      then Raise OverflowError
      else Ok (inject_Z a / inject_Z b)%Q
  | _, _ =>
      match num_float x with
      | Ok a =>
          match num_float y with
          | Ok b =>
              if Qeq_bool b 0 then Raise ZeroDivisionError else Ok (a / b)%Q
          | Raise e => Raise e
          end
      | Raise e => Raise e
      end
  end.

(** [x * y] for a [float] [y]. *)
Definition num_mul_float (x : num) (y : Q) : result Q :=
  match num_float x with
  | Ok a => Ok (a * y)%Q
  | Raise e => Raise e
  end.

(** [len(v)] *)
Definition len (v : pyval) : result nat :=
  match v with
  | PStr s => Ok (String.length s)
  | PList l => Ok (List.length l)
  | PDict d => Ok (size d)
  | _ => Raise TypeError
  end.

(** Lists and dictionaries cannot be dictionary keys. *)
Definition hashable (v : pyval) : bool :=
  match v with
  | PList _ | PDict _ => false
  | _ => true
  end.

Definition is_str (k : string) (v : pyval) : bool :=
  match v with
  | PStr s => String.eqb s k
  | _ => false
  end.

(** [needle in hay] on strings. *)
Fixpoint contains (needle hay : string) : bool :=
  String.prefix needle hay ||
  match hay with
  | EmptyString => false
  | String _ rest => contains needle rest
  end.

(** [k in v] for a string [k]: key of a dictionary, element of a list,
    substring of a string. *)
Definition str_in (k : string) (v : pyval) : result bool :=
  match v with
  | PDict d => Ok (bool_decide (is_Some (d !! k)))
  | PList l => Ok (existsb (is_str k) l)
  | PStr s => Ok (contains k s)
  | _ => Raise TypeError
  end.

(** [v[k]] for a string [k]. *)
Definition getitem (v : pyval) (k : string) : result pyval :=
  match v with
  | PDict d => match d !! k with Some x => Ok x | None => Raise KeyError end
  | _ => Raise TypeError
  end.

(** The one-character strings of a string, as iterating it gives them. *)
Fixpoint chars (s : string) : list string :=
  match s with
  | EmptyString => []
  | String c rest => String c EmptyString :: chars rest
  end.

(** [for x in v]: the elements of a list, the characters of a string, the
    keys of a dictionary. *)
Definition iter (v : pyval) : result (list pyval) :=
  match v with
  | PList l => Ok l
  | PStr s => Ok (PStr <$> chars s)
  | PDict d => Ok ((fun kv => PStr (fst kv)) <$> map_to_list d)
  | _ => Raise TypeError
  end.

(** [a, b = s] for a string [s]. *)
Definition unpack2 (s : string) : result (string * string) :=
  match s with
  | String a (String b EmptyString) =>
      Ok (String a EmptyString, String b EmptyString)
  | _ => Raise ValueError
  end.

(** A [for] loop whose body may raise: the state is threaded through the
    elements in order, and the first exception leaves the loop. *)
Fixpoint for_each {A S : Type} (l : list A) (body : S -> A -> result S)
    (s : S) : result S :=
  match l with
  | [] => Ok s
  | x :: rest =>
      match body s x with
      | Ok s' => for_each rest body s'
      | Raise e => Raise e
      end
  end.

(** [sorted(l, key=..., reverse=True)]: descending and stable. [gt x y]
    says that the key of [x] is strictly greater than the key of [y]. *)
Section Sorted.
Context {A : Type} (gt : A -> A -> bool).

Fixpoint insert_desc (x : A) (l : list A) : list A :=
  match l with
  | [] => [x]
  | y :: ys => if gt y x then y :: insert_desc x ys else x :: y :: ys
  end.

Definition sorted_desc (l : list A) : list A :=
  fold_right insert_desc [] l.
End Sorted.

(** The comparison that [sorted] makes of integer keys, and the order of
    the result. *)
Definition key_gt {A : Type} (key : A -> Z) (x y : A) : bool :=
  (key y <? key x)%Z.

Definition key_ge {A : Type} (key : A -> Z) (x y : A) : Prop :=
  (key y <= key x)%Z.

(** [str.lower()] *)
Definition lower_ascii (c : ascii) : ascii :=
  let n := nat_of_ascii c in
  if (65 <=? n)%nat && (n <=? 90)%nat then ascii_of_nat (n + 32) else c.

Fixpoint lower (s : string) : string :=
  match s with
  | EmptyString => EmptyString
  | String c rest => String (lower_ascii c) (lower rest)
  end.

End Py.

Import Py.

(** [result] is a monad; the notation [x ← m; k] is stdpp's. *)
#[global] Instance result_ret : MRet result := fun _ a => Ok a.
#[global] Instance result_bind : MBind result := fun _ _ k m => bind m k.

(** ** [datetime.strptime(s, "%Y-%m-%d")]

    The standard library compiles the format to the regular expression
    [(\d\d\d\d)-(1[0-2]|0[1-9]|[1-9])-(3[0-1]|[1-2]\d|0[1-9]|[1-9]| [1-9])],
    matches it at the start of the string, refuses a string with text left
    after the match, and builds a date, which refuses year 0 and a day the
    month does not have. All of these raise [ValueError]: [None] here. *)

Module Strptime.

Definition digit (c : ascii) : option Z :=
  let n := nat_of_ascii c in
  if (48 <=? n)%nat && (n <=? 57)%nat then Some (Z.of_nat (n - 48)) else None.

Definition digit_in (lo hi : Z) (c : ascii) : option Z :=
  match digit c with
  | Some d => if (lo <=? d)%Z && (d <=? hi)%Z then Some d else None
  | None => None
  end.

(** One alternative of a group: a first character, and an optional second
    one, each in a range of digits ([' '] is the fifth alternative of %d). *)
Definition two (lo1 hi1 lo2 hi2 : Z) (s : string) : option (Z * string) :=
  match s with
  | String a (String b rest) =>
      match digit_in lo1 hi1 a, digit_in lo2 hi2 b with
      | Some x, Some y => Some (10 * x + y, rest)%Z
      | _, _ => None
      end
  | _ => None
  end.

Definition one (lo hi : Z) (s : string) : option (Z * string) :=
  match s with
  | String a rest =>
      match digit_in lo hi a with
      | Some x => Some (x, rest)
      | None => None
      end
  | _ => None
  end.

Definition space_one (s : string) : option (Z * string) :=
  match s with
  | String a rest => if Ascii.eqb a " "%char then one 1 9 rest else None
  | _ => None
  end.

Definition dash (s : string) : option string :=
  match s with
  | String a rest => if Ascii.eqb a "-"%char then Some rest else None
  | _ => None
  end.

(** %Y *)
Definition group_Y (s : string) : option (Z * string) :=
  match two 0 9 0 9 s with
  | Some (hi, rest) =>
      match two 0 9 0 9 rest with
      | Some (lo, rest') => Some (100 * hi + lo, rest')%Z
      | None => None
      end
  | None => None
  end.

(** The alternatives of %m and of %d, in the order the matcher tries them. *)
Definition group_m : list (string -> option (Z * string)) :=
  [two 1 1 0 2; two 0 0 1 9; one 1 9].

Definition group_d : list (string -> option (Z * string)) :=
  [two 3 3 0 1; two 1 2 0 9; two 0 0 1 9; one 1 9; space_one].

(** The first alternative whose continuation matches (backtracking). *)
Fixpoint first_match {A : Type} (alts : list (string -> option (Z * string)))
    (k : Z -> string -> option A) (s : string) : option A :=
  match alts with
  | [] => None
  | alt :: alts' =>
      match alt s with
      | Some (v, rest) =>
          match k v rest with
          | Some r => Some r
          | None => first_match alts' k s
          end
      | None => first_match alts' k s
      end
  end.

(** The match of the whole expression: year, month, day, and the text
    left after the match. *)
Definition regex_match (s : string) : option (Z * Z * Z * string) :=
  match group_Y s with
  | Some (y, s1) =>
      match dash s1 with
      | Some s2 =>
          first_match group_m (fun m s3 =>
            match dash s3 with
            | Some s4 =>
                first_match group_d (fun d s5 => Some (y, m, d, s5)) s4
            | None => None
            end) s2
      | None => None
      end
  | None => None
  end.

Definition is_leap (y : Z) : bool :=
  ((y mod 4 =? 0) && (negb (y mod 100 =? 0) || (y mod 400 =? 0)))%Z.

Definition days_in_month (y m : Z) : Z :=
  if (m =? 2)%Z then (if is_leap y then 29 else 28)%Z
  else if ((m =? 4) || (m =? 6) || (m =? 9) || (m =? 11))%Z then 30%Z
  else 31%Z.

Definition strptime (s : string) : option (Z * Z * Z) :=
  match regex_match s with
  | Some (y, m, d, rest) =>
      if String.eqb rest "" && (1 <=? y)%Z && (d <=? days_in_month y m)%Z
      then Some (y, m, d)
      else None
  | None => None
  end.

(** [datetime.strptime(s, "%Y-%m-%d").year] *)
Definition strptime_year (s : string) : option Z :=
  match strptime s with
  | Some (y, _, _) => Some y
  | None => None
  end.

End Strptime.

(** ** [src/backend/weighting/point_weighting.py] *)

Module PointWeighting.

Local Open Scope Q_scope.

(** [self.court_hierarchy_weights] *)
Definition court_hierarchy_weights : gmap string Q :=
  <["Supreme Court" := 1]>
  (<["Circuit Court" := 8 # 10]>
  (<["District Court" := 6 # 10]>
  (<["State Supreme Court" := 7 # 10]>
  (<["State Appellate Court" := 5 # 10]>
  (<["State Trial Court" := 4 # 10]> ∅))))).

(** [self.time_decay_factor], [self.citation_threshold] *)
Definition time_decay_factor : Q := 98 # 100.
Definition citation_threshold : Z := 50.

Definition _calculate_relevance_weight (case : gmap string pyval) : result Q :=
  let relevance_score := 0 in
  relevance_score ←
    match case !! "keywords" with
    | Some kw => n ← len kw; Ok (relevance_score + inject_Z (Z.of_nat n) * (1 # 10))
    | None => Ok relevance_score
    end;
  relevance_score ←
    match case !! "context_similarity" with
    | Some cs =>
        x ← to_num cs;
        y ← num_mul_float x (5 # 10);
        Ok (relevance_score + y)
    | None => Ok relevance_score
    end;
  Ok (Qmin relevance_score 1).

Definition _calculate_citation_weight (case : gmap string pyval) : result Q :=
  citations ← to_num (default (PInt 0) (case !! "citation_count"));
  quotient ← num_truediv citations (NInt citation_threshold);
  Ok (Qmin quotient 1).

Definition _calculate_hierarchy_weight (case : gmap string pyval) : result Q :=
  let court_type := default (PStr "District Court") (case !! "court_type") in
  if hashable court_type then
    match court_type with
    | PStr s => Ok (default (4 # 10) (court_hierarchy_weights !! s))
    | _ => Ok (4 # 10)
    end
  else Raise TypeError.

Definition impact_factors : list (string * Q) :=
  [("precedent_setting", 3 # 10); ("overturned_previous", 2 # 10);
   ("widely_cited", 2 # 10); ("current_relevance", 3 # 10)].

Definition _calculate_outcome_impact (case : gmap string pyval) : Q :=
  fold_left
    (fun impact_score '(factor, weight) =>
       if truthy (default (PBool false) (case !! factor))
       then impact_score + weight else impact_score)
    impact_factors 0.

Definition _calculate_temporal_weight (now : Z) (case : gmap string pyval)
    : result Q :=
  match case !! "date" with
  | None => Ok (5 # 10)
  | Some (PStr date) =>
      match Strptime.strptime_year date with
      | Some case_year =>
          let current_year := now in
          let years_diff := (current_year - case_year)%Z in
          Ok (time_decay_factor ^ years_diff)
      | None => Raise ValueError
      end
  | Some _ => Raise TypeError
  end.

(** The five raw scores, in the order the dictionary literal evaluates
    them. *)
Definition raw_weights (now : Z) (case : gmap string pyval)
    : result (list (string * Q)) :=
  relevance ← _calculate_relevance_weight case;
  citation_frequency ← _calculate_citation_weight case;
  court_hierarchy ← _calculate_hierarchy_weight case;
  let case_outcome_impact := _calculate_outcome_impact case in
  temporal_relevance ← _calculate_temporal_weight now case;
  Ok [("relevance", relevance);
      ("citation_frequency", citation_frequency);
      ("court_hierarchy", court_hierarchy);
      ("case_outcome_impact", case_outcome_impact);
      ("temporal_relevance", temporal_relevance)].

(** [sum(weights.values())] *)
Definition sum_values (weights : list (string * Q)) : Q :=
  fold_left (fun acc kv => acc + snd kv) weights 0.

(** [v / total_weight] *)
Definition truediv (v total : Q) : result Q :=
  if Qeq_bool total 0 then Raise ZeroDivisionError else Ok (v / total).

(** [{k: v / total_weight for k, v in weights.items()}] *)
Fixpoint normalize (total_weight : Q) (weights : list (string * Q))
    : result (list (string * Q)) :=
  match weights with
  | [] => Ok []
  | (k, v) :: rest =>
      v' ← truediv v total_weight;
      rest' ← normalize total_weight rest;
      Ok ((k, v') :: rest')
  end.

Definition weight_points (now : Z) (case : gmap string pyval)
    : result (list (string * Q)) :=
  weights ← raw_weights now case;
  let total_weight := sum_values weights in
  normalize total_weight weights.

End PointWeighting.

(** ** [src/backend/analysis/case_analysis.py] *)

Module CaseAnalysis.

Local Open Scope Q_scope.

(** [self.precedent_weight] *)
Definition precedent_weight : gmap string Q :=
  <["Supreme Court" := 1]>
  (<["Circuit Court" := 8 # 10]>
  (<["District Court" := 6 # 10]> ∅)).

(** [except ValueError] only: a date that is not a string raises
    [TypeError] through. *)
Definition _extract_year (now : Z) (date_str : pyval) : result Z :=
  match date_str with
  | PStr s =>
      match Strptime.strptime_year s with
      | Some y => Ok y
      | None => Ok now
      end
  | _ => Raise TypeError
  end.

Definition _calculate_time_weight (now : Z) (year : Z) : Q :=
  let current_year := now in
  let years_diff := (current_year - year)%Z in
  Qmax (1 # 10) (1 - inject_Z years_diff * (5 # 100)).

(** [self.precedent_weight.get(court, 0.4)] *)
Definition court_weight (court : pyval) : result Q :=
  if hashable court then
    match court with
    | PStr s => Ok (default (4 # 10) (precedent_weight !! s))
    | _ => Ok (4 # 10)
    end
  else Raise TypeError.

Definition _calculate_relevance (now : Z) (case_data : gmap string pyval)
    : result Q :=
  let relevance_score := 0 in
  metadata ← match case_data !! "metadata" with
             | Some m => Ok m
             | None => Raise KeyError
             end;
  has_date ← str_in "date" metadata;
  relevance_score ←
    (if has_date : bool then
       date ← getitem metadata "date";
       year ← _extract_year now date;
       Ok (relevance_score + _calculate_time_weight now year)
     else Ok relevance_score);
  has_court ← str_in "court" metadata;
  relevance_score ←
    (if has_court : bool then
       court ← getitem metadata "court";
       w ← court_weight court;
       Ok (relevance_score + w)
     else Ok relevance_score);
  n ← len (default (PList []) (case_data !! "citations"));
  let citation_score := inject_Z (Z.of_nat n) * (1 # 10) in
  let relevance_score := relevance_score + Qmin citation_score 1 in
  Ok (Qmin (relevance_score / 3) 1).

(** The regular expressions of [_find_holdings] and [_extract_reasoning]
    are a literal, [.*?] and the lookahead [(?=\.)], with [re.IGNORECASE]:
    the literal in any case, then the shortest run of characters other
    than a newline that ends before a full stop. *)
Fixpoint prefix_ignorecase (literal s : string) : bool :=
  match literal with
  | EmptyString => true
  | String a literal' =>
      match s with
      | EmptyString => false
      | String b s' =>
          Ascii.eqb (lower_ascii a) (lower_ascii b)
          && prefix_ignorecase literal' s'
      end
  end.

(** [.*?(?=\.)] at the start of [s]: the text matched, if any. *)
Fixpoint lazy_to_stop (s : string) : option string :=
  match s with
  | EmptyString => None
  | String c rest =>
      if Ascii.eqb c "."%char then Some EmptyString
      else if Ascii.eqb c "010"%char then None
      else match lazy_to_stop rest with
           | Some m => Some (String c m)
           | None => None
           end
  end.

Fixpoint str_take (n : nat) (s : string) : string :=
  match n, s with
  | S k, String c rest => String c (str_take k rest)
  | _, _ => EmptyString
  end.

Fixpoint str_drop (n : nat) (s : string) : string :=
  match n, s with
  | S k, String _ rest => str_drop k rest
  | _, _ => s
  end.

(** The match of the expression at the start of [s]: [match.group(0)]. *)
Definition match_at (literal s : string) : option string :=
  if prefix_ignorecase literal s then
    match lazy_to_stop (str_drop (String.length literal) s) with
    | Some m => Some (String.append (str_take (String.length literal) s) m)
    | None => None
    end
  else None.

(** [re.finditer]: the matches from left to right, the search going on
    where the last match ended; [skip] characters are still inside it. *)
Fixpoint finditer (literal : string) (skip : nat) (s : string) : list string :=
  match s with
  | EmptyString => []
  | String _ rest =>
      match skip with
      | S k => finditer literal k rest
      | O =>
          match match_at literal s with
          | Some m => m :: finditer literal (String.length m - 1) rest
          | None => finditer literal 0 rest
          end
      end
  end.

Definition holding_patterns : list string :=
  ["The Court holds that"; "We hold that"; "It is hereby held that"].

Definition reasoning_patterns : list string :=
  ["because"; "therefore"; "consequently"].

Definition _find_holdings (content : string) : list string :=
  flat_map (fun literal => finditer literal 0 content) holding_patterns.

Definition _extract_reasoning (content : string) : list string :=
  flat_map (fun literal => finditer literal 0 content) reasoning_patterns.

(** [case_data["content"]] raises [KeyError] when the key is missing, and
    [re.finditer] raises [TypeError] on what is not a string. *)
Definition _extract_key_points (case_data : gmap string pyval)
    : result (list string) :=
  match case_data !! "content" with
  | None => Raise KeyError
  | Some (PStr content) =>
      let key_points := [] in
      let holdings := _find_holdings content in
      let key_points := key_points ++ holdings in
      let reasoning := _extract_reasoning content in
      let key_points := key_points ++ reasoning in
      Ok key_points
  | Some _ => Raise TypeError
  end.

(** [court in self.precedent_weight] for [court] out of
    [case_data.get("metadata", {}).get("court", "")]: [get] is a method of
    dictionaries only. *)
Definition _determine_court_level (case_data : gmap string pyval)
    : result string :=
  match default (PDict ∅) (case_data !! "metadata") with
  | PDict metadata =>
      let court := default (PStr "") (metadata !! "court") in
      if hashable court then
        match court with
        | PStr s =>
            match precedent_weight !! s with
            | Some _ => Ok s
            | None => Ok "Other"
            end
        | _ => Ok "Other"
        end
      else Raise TypeError
  | _ => Raise AttributeError
  end.

Record SubsequentHistory : Type := {
  overruled : bool;
  questioned : bool;
  followed : Z;
  cited : Z
}.

Definition _check_subsequent_history (case_data : gmap string pyval)
    : SubsequentHistory :=
  {| overruled := false; questioned := false; followed := 0; cited := 0 |}.

(** The keys "court_level", "citation_count", "subsequent_history". *)
Record PrecedentialValue : Type := {
  court_level : string;
  n_citations : nat;
  subsequent_history : SubsequentHistory
}.

Definition _analyze_precedential_value (case_data : gmap string pyval)
    : result PrecedentialValue :=
  level ← _determine_court_level case_data;
  n ← len (default (PList []) (case_data !! "citations"));
  Ok {| court_level := level;
        n_citations := n;
        subsequent_history := _check_subsequent_history case_data |}.

(** The dictionary of [_predict_outcome]: the keys [error], or
    [factors] (strength, precedent), and the two numbers. *)
Record Prediction : Type := {
  error : option exn;
  probability : Q;
  confidence : Q;
  factors : option (Q * Q)
}.

Definition _predict_outcome (now : Z) (case_data : gmap string pyval)
    : Prediction :=
  let attempt :=
    strength_score ← _calculate_relevance now case_data;
    value ← _analyze_precedential_value case_data;
    let precedent_score := inject_Z (Z.of_nat (n_citations value)) / 100 in
    let prediction_score := (strength_score + precedent_score) / 2 in
    Ok {| error := None;
          probability := prediction_score;
          confidence := Qmin (prediction_score * (12 # 10)) 1;
          factors := Some (strength_score, precedent_score) |} in
  match attempt with
  | Ok prediction => prediction
  | Raise e =>
      {| error := Some e;
         probability := 5 # 10;
         confidence := 0;
         factors := None |}
  end.

(** The dictionary of [_analyze_citations]. *)
Record CitationAnalysis : Type := {
  total_citations : nat;
  citation_frequency : list pyval;
  citation_patterns : list string
}.

(** [self._identify_citation_patterns]: the class defines no method of
    this name, nor does any other file, so looking it up raises
    [AttributeError]. *)
Definition _identify_citation_patterns (citations : pyval)
    : result (list string) :=
  Raise AttributeError.

(** [Counter(citations)] hashes the elements of the list. *)
Definition _analyze_citations (case_data : gmap string pyval)
    : result CitationAnalysis :=
  let citations := default (PList []) (case_data !! "citations") in
  n ← len citations;
  elements ← iter citations;
  counted ← (if forallb hashable elements then Ok elements
             else Raise TypeError);
  patterns ← _identify_citation_patterns citations;
  Ok {| total_citations := n;
        citation_frequency := counted;
        citation_patterns := patterns |}.

(** The dictionary of [analyze]. *)
Record Analysis : Type := {
  relevance_score : Q;
  precedential_value : PrecedentialValue;
  key_points : list string;
  citation_analysis : CitationAnalysis;
  outcome_prediction : Prediction
}.

(** The [except] clause logs and raises again. *)
Definition analyze (now : Z) (case_data : gmap string pyval) : result Analysis :=
  score ← _calculate_relevance now case_data;
  value ← _analyze_precedential_value case_data;
  points ← _extract_key_points case_data;
  citations ← _analyze_citations case_data;
  let prediction := _predict_outcome now case_data in
  Ok {| relevance_score := score;
        precedential_value := value;
        key_points := points;
        citation_analysis := citations;
        outcome_prediction := prediction |}.

End CaseAnalysis.

(** ** [src/utils/validators.py] *)

Module DataValidator.

Fixpoint first_missing (required_fields : list string)
    (d : gmap string pyval) : option string :=
  match required_fields with
  | [] => None
  | field :: rest =>
      match d !! field with
      | None => Some ("Missing required field: " +:+ field)
      | Some _ => first_missing rest d
      end
  end.

(** [isinstance(v, dict)] *)
Definition is_dict (v : pyval) : bool :=
  match v with
  | PDict _ => true
  | _ => false
  end.

Definition validate_case_data (case_data : gmap string pyval) : option string :=
  let required_fields := ["metadata"; "content"; "citations"] in
  match first_missing required_fields case_data with
  | Some error => Some error
  | None =>
      match case_data !! "metadata" with
      | Some metadata =>
          if negb (is_dict metadata) then Some "Invalid metadata format"
          else None
      | None => None
      end
  end.

Definition validate_argument (argument : gmap string pyval) : option string :=
  let required_fields := ["text"; "type"; "evidence"] in
  first_missing required_fields argument.

End DataValidator.

(** ** [src/backend/weakness/analysis.py] *)

Module WeaknessAnalysis.

Local Open Scope Q_scope.

Record Weakness : Type := {
  description : string;
  severity : Q;
  type : string;
  potential_remedies : list string
}.

(** [self.weakness_patterns] *)
Definition weakness_patterns : gmap string (list string) :=
  <["evidence_gaps" :=
      ["lack of evidence"; "insufficient proof"; "no direct evidence"]]>
  (<["logical_flaws" :=
      ["circular reasoning"; "false equivalence"; "hasty generalization"]]>
  (<["precedent_issues" :=
      ["distinguishable cases"; "outdated precedent"; "conflicting authorities"]]>
   ∅)).

Definition evidence_gap : Weakness :=
  {| description := "Lack of supporting evidence";
     severity := 8 # 10;
     type := "evidence_gap";
     potential_remedies :=
       ["Gather additional documentary evidence";
        "Identify potential witnesses";
        "Consider expert testimony"] |}.

Definition evidence_quality : Weakness :=
  {| description := "Low quality or unreliable evidence";
     severity := 7 # 10;
     type := "evidence_quality";
     potential_remedies :=
       ["Strengthen chain of custody";
        "Obtain corroborating evidence";
        "Address authentication issues"] |}.

Definition logical_flaw (fallacy_type : string) : Weakness :=
  {| description := "Potential logical fallacy: " +:+ fallacy_type;
     severity := 6 # 10;
     type := "logical_flaw";
     potential_remedies :=
       ["Restructure argument logic";
        "Address causal relationships";
        "Strengthen logical connections"] |}.

Definition precedent_weakness : Weakness :=
  {| description := "Distinguishable precedent";
     severity := 5 # 10;
     type := "precedent_weakness";
     potential_remedies :=
       ["Find more analogous cases";
        "Address distinguishing factors";
        "Emphasize policy considerations"] |}.

Definition _analyze_evidence (argument : gmap string pyval)
    : result (list Weakness) :=
  let weaknesses := [] in
  let weaknesses :=
    match argument !! "evidence" with
    | None => weaknesses ++ [evidence_gap]
    | Some ev =>
        if negb (truthy ev) then weaknesses ++ [evidence_gap] else weaknesses
    end in
  match argument !! "evidence_quality" with
  | Some q =>
      x ← as_num q;
      if Qlt_le_dec x (6 # 10)
      then Ok (weaknesses ++ [evidence_quality])
      else Ok weaknesses
  | None => Ok weaknesses
  end.

Definition _analyze_precedents (argument : gmap string pyval)
    : result (list Weakness) :=
  match argument !! "precedents" with
  | Some precedents =>
      l ← iter precedents;
      for_each l
        (fun weaknesses precedent =>
           match precedent with
           | PDict d =>
               if truthy (default (PBool false) (d !! "distinguishable"))
               then Ok (weaknesses ++ [precedent_weakness])
               else Ok weaknesses
           | _ => Raise AttributeError
           end)
        []
  | None => Ok []
  end.

Definition _prioritize_weaknesses (weaknesses : list Weakness) : list Weakness :=
  sorted_desc (fun x y => negb (Qle_bool (severity x) (severity y))) weaknesses.

Section Nlp.
(** [doc.sents] of [self.nlp(text)], each as its [.text]. *)
Variable sents : string -> list string.

Definition _analyze_logic (argument : gmap string pyval)
    : result (list Weakness) :=
  match default (PStr "") (argument !! "text") with
  | PStr text =>
      for_each (sents text)
        (fun weaknesses sent =>
           logical_flaws ←
             match weakness_patterns !! "logical_flaws" with
             | Some l => Ok l
             | None => Raise KeyError
             end;
           for_each logical_flaws
             (fun weaknesses item =>
                '(fallacy_type, patterns) ← unpack2 item;
                if existsb (fun pattern => contains pattern (lower sent))
                     (chars patterns)
                then Ok (weaknesses ++ [logical_flaw fallacy_type])
                else Ok weaknesses)
             weaknesses)
        []
  | _ => Raise TypeError
  end.

(** The body of the loop of [analyze] over the arguments. *)
Definition step (weaknesses : list Weakness) (argument : gmap string pyval)
    : result (list Weakness) :=
  match DataValidator.validate_argument argument with
  | Some error => Ok weaknesses
  | None =>
      evidence_weaknesses ← _analyze_evidence argument;
      let weaknesses := weaknesses ++ evidence_weaknesses in
      logical_weaknesses ← _analyze_logic argument;
      let weaknesses := weaknesses ++ logical_weaknesses in
      precedent_weaknesses ← _analyze_precedents argument;
      let weaknesses := weaknesses ++ precedent_weaknesses in
      Ok weaknesses
  end.

(** The body of the [try] of [analyze], up to the sort. *)
Definition collect (arguments : list (gmap string pyval))
    : result (list Weakness) :=
  let weaknesses := [] in
  for_each arguments step weaknesses.

Definition analyze (arguments : list (gmap string pyval)) : list Weakness :=
  match collect arguments with
  | Ok weaknesses => _prioritize_weaknesses weaknesses
  | Raise e => []
  end.
End Nlp.

(** [_group_by_type]: a [defaultdict(list)], each weakness appended to the
    list of its type. *)
Definition _group_by_type (weaknesses : list Weakness)
    : gmap string (list Weakness) :=
  fold_left
    (fun grouped weakness =>
       <[type weakness := default [] (grouped !! type weakness) ++ [weakness]]>
         grouped)
    weaknesses ∅.

(** An entry of the remediation list. *)
Record Remediation : Type := {
  weakness : string;
  remedies : list string;
  priority : Q
}.

Definition _get_remediation_priority (weaknesses : list Weakness)
    : list Remediation :=
  map (fun w => {| weakness := description w;
                   remedies := potential_remedies w;
                   priority := severity w |})
    (sorted_desc (fun x y => negb (Qle_bool (severity x) (severity y)))
       weaknesses).

(** The dictionary that [get_summary] returns. *)
Record Summary : Type := {
  total_weaknesses : nat;
  critical_weaknesses : nat;
  by_type : gmap string (list Weakness);
  remediation_priority : list Remediation
}.

Definition get_summary (weaknesses : list Weakness) : Summary :=
  {| total_weaknesses := List.length weaknesses;
     critical_weaknesses :=
       List.length
         (List.filter (fun w => negb (Qle_bool (severity w) (7 # 10)))
            weaknesses);
     by_type := _group_by_type weaknesses;
     remediation_priority := _get_remediation_priority weaknesses |}.

End WeaknessAnalysis.

(** ** [src/backend/strategy/suggestion_engine.py] *)

Module StrategySuggestionEngine.

Local Open Scope Q_scope.

Inductive StrategyType : Type :=
  | AGGRESSIVE
  | DEFENSIVE
  | BALANCED
  | PRECEDENT_FOCUSED
  | POLICY_BASED.

Record Strategy : Type := {
  type : StrategyType;
  description : string;
  recommended_actions : list string;
  priority : Z;
  success_probability : Q
}.

(** [self.strategy_templates]: description and actions, for the three
    types that have a template. *)
Definition strategy_templates (t : StrategyType)
    : option (string * list string) :=
  match t with
  | AGGRESSIVE =>
      Some ("Focus on strong offensive arguments and direct challenges",
            ["Challenge opposing evidence validity";
             "Present strongest arguments first";
             "Emphasize favorable precedents"])
  | DEFENSIVE =>
      Some ("Build strong defensive position and counter-arguments",
            ["Strengthen procedural compliance";
             "Prepare detailed counter-arguments";
             "Focus on evidence reliability"])
  | BALANCED =>
      Some ("Maintain balanced approach",
            ["Alternate between offensive and defensive points";
             "Address key issues systematically";
             "Maintain credibility through balanced presentation"])
  | PRECEDENT_FOCUSED | POLICY_BASED => None
  end.

(** [self.strategy_templates[t]] *)
Definition template (t : StrategyType) : result (string * list string) :=
  match strategy_templates t with
  | Some d => Ok d
  | None => Raise KeyError
  end.

(** [sum(factors.values()) / len(factors)] *)
Definition mean (factors : list pyval) : result Q :=
  total ← for_each factors (fun acc v => x ← to_num v; num_add acc x) (NInt 0);
  num_truediv total (NInt (Z.of_nat (List.length factors))).

Definition _evaluate_case_strength (analysis : gmap string pyval) : result Q :=
  mean [default (PNum (5 # 10)) (analysis !! "evidence_score");
        default (PNum (5 # 10)) (analysis !! "precedent_score");
        default (PNum (5 # 10)) (analysis !! "coherence_score")].

Definition _evaluate_opposition_strength (analysis : gmap string pyval)
    : result Q :=
  mean [default (PNum (5 # 10)) (analysis !! "counter_argument_strength");
        default (PNum (5 # 10)) (analysis !! "opposing_evidence_strength")].

Definition gtb (x y : Q) : bool := negb (Qle_bool x y).
Definition ltb (x y : Q) : bool := negb (Qle_bool y x).

Definition _generate_primary_strategy (case_strength opposition_strength : Q)
    : result Strategy :=
  if gtb case_strength (7 # 10) && ltb opposition_strength (5 # 10) then
    t ← template AGGRESSIVE;
    Ok {| type := AGGRESSIVE;
          description := fst t;
          recommended_actions := snd t;
          priority := 1;
          success_probability := case_strength |}
  else if gtb opposition_strength (7 # 10) then
    t ← template DEFENSIVE;
    Ok {| type := DEFENSIVE;
          description := fst t;
          recommended_actions := snd t;
          priority := 1;
          success_probability := 1 - opposition_strength |}
  else
    t ← template BALANCED;
    Ok {| type := BALANCED;
          description := fst t;
          recommended_actions := snd t;
          priority := 1;
          success_probability :=
            (case_strength + (1 - opposition_strength)) / 2 |}.

Definition _generate_supplementary_strategies (analysis : gmap string pyval)
    : result (list Strategy) :=
  let supplementary := [] in
  precedent_score ← as_num (default (PInt 0) (analysis !! "precedent_score"));
  if gtb precedent_score (7 # 10) then
    Ok (supplementary ++
        [{| type := PRECEDENT_FOCUSED;
            description := "Leverage strong precedential support";
            recommended_actions :=
              ["Focus on precedent application"; "Distinguish opposing cases"];
            priority := 2;
            success_probability := precedent_score |}])
  else Ok supplementary.

Definition suggest (analysis_results : gmap string pyval)
    : result (list Strategy) :=
  let strategies := [] in
  case_strength ← _evaluate_case_strength analysis_results;
  opposition_strength ← _evaluate_opposition_strength analysis_results;
  primary_strategy ←
    _generate_primary_strategy case_strength opposition_strength;
  let strategies := strategies ++ [primary_strategy] in
  supplementary ← _generate_supplementary_strategies analysis_results;
  let strategies := strategies ++ supplementary in
  Ok (sorted_desc (fun x y => (priority y <? priority x)%Z) strategies).

End StrategySuggestionEngine.

(** ** [src/backend/dual_perspective.py]

    The [counter_arguments] and [supporting_citations] of an [Argument] are
    list objects, and [_analyze_argument_conflicts] appends in place: they
    are locations of a store of lists, so that two arguments (or the two
    fields of one) may share a list. No method assigns a field of an
    [Argument], so an argument is the value of its fields. *)

Module DualPerspectiveAnalysis.

Local Open Scope Q_scope.

Inductive ArgumentType : Type :=
  | FACTUAL
  | LEGAL
  | PROCEDURAL
  | POLICY.

#[global] Instance ArgumentType_eq_dec : EqDecision ArgumentType.
Proof. solve_decision. Defined.

Definition loc : Type := positive.

Record Argument : Type := {
  text : string;
  type : ArgumentType;
  strength : Q;
  supporting_citations : loc;
  counter_arguments : loc
}.

Record state : Type := {
  prosecution_track : list Argument;
  defense_track : list Argument;
  shared_facts : list string;
  disputed_facts : gmap string (string * string);
  lists : gmap loc (list string)
}.

Definition opposing_pairs : list (string * string) :=
  [("supports", "opposes"); ("proves", "disproves"); ("confirms", "contradicts")].

Section Nlp.
(** [self.nlp(a).similarity(self.nlp(b))]; [None] when it raises. *)
Variable similarity : string -> string -> option Q.

Definition _arguments_conflict (arg1 arg2 : Argument) : bool :=
  if negb (bool_decide (type arg1 = type arg2)) then false
  else
    match similarity (text arg1) (text arg2) with
    | Some sim =>
        if negb (Qle_bool sim (7 # 10)) then
          existsb
            (fun '(pos, neg) =>
               (contains pos (lower (text arg1)) && contains neg (lower (text arg2)))
               || (contains neg (lower (text arg1)) && contains pos (lower (text arg2))))
            opposing_pairs
        else false
    | None => false
    end.

(** [argument.counter_arguments.append(t)] *)
Definition append (l : loc) (t : string) (h : gmap loc (list string))
    : result (gmap loc (list string)) :=
  match h !! l with
  | Some xs => Ok (<[l := xs ++ [t]]> h)
  | None => Raise AttributeError
  end.

(** The loop of [_analyze_argument_conflicts] over the opposing track: the
    store after it, and the exception that ended it, if any. *)
Fixpoint record_conflicts (argument : Argument) (opposing_track : list Argument)
    (h : gmap loc (list string)) : gmap loc (list string) * option exn :=
  match opposing_track with
  | [] => (h, None)
  | opposing_arg :: rest =>
      if _arguments_conflict argument opposing_arg then
        match append (counter_arguments argument) (text opposing_arg) h with
        | Ok h' => record_conflicts argument rest h'
        | Raise e => (h, Some e)
        end
      else record_conflicts argument rest h
  end.

Definition _analyze_argument_conflicts (st : state) (argument : Argument)
    (side : string) : state * option exn :=
  let opposing_track :=
    if String.eqb side "prosecution" then defense_track st
    else prosecution_track st in
  let '(h, e) := record_conflicts argument opposing_track (lists st) in
  ({| prosecution_track := prosecution_track st;
      defense_track := defense_track st;
      shared_facts := shared_facts st;
      disputed_facts := disputed_facts st;
      lists := h |}, e).

(** The [except] clause logs and raises again: the exception, if any,
    goes on to the caller with the state as it is then. *)
Definition add_prosecution_argument (st : state) (argument : Argument)
    : state * option exn :=
  let st :=
    {| prosecution_track := prosecution_track st ++ [argument];
       defense_track := defense_track st;
       shared_facts := shared_facts st;
       disputed_facts := disputed_facts st;
       lists := lists st |} in
  _analyze_argument_conflicts st argument "prosecution".

Definition add_defense_argument (st : state) (argument : Argument)
    : state * option exn :=
  let st :=
    {| prosecution_track := prosecution_track st;
       defense_track := defense_track st ++ [argument];
       shared_facts := shared_facts st;
       disputed_facts := disputed_facts st;
       lists := lists st |} in
  _analyze_argument_conflicts st argument "defense".
End Nlp.

Definition add_shared_fact (st : state) (fact : string) : state :=
  {| prosecution_track := prosecution_track st;
     defense_track := defense_track st;
     shared_facts := shared_facts st ++ [fact];
     disputed_facts := disputed_facts st;
     lists := lists st |}.

(** The two views are the values of the keys "prosecution" and "defense". *)
Definition add_disputed_fact (st : state) (fact prosecution_view defense_view : string)
    : state :=
  {| prosecution_track := prosecution_track st;
     defense_track := defense_track st;
     shared_facts := shared_facts st;
     disputed_facts :=
       <[fact := (prosecution_view, defense_view)]> (disputed_facts st);
     lists := lists st |}.

Definition _calculate_track_strength (arguments : list Argument) : Q :=
  match arguments with
  | [] => 0
  | _ :: _ =>
      let total_strength :=
        fold_left (fun acc arg => acc + strength arg) arguments 0 in
      total_strength / inject_Z (Z.of_nat (List.length arguments))
  end.

(** The values of the keys "prosecution" and "defense". *)
Definition get_argument_strength_analysis (st : state) : Q * Q :=
  (_calculate_track_strength (prosecution_track st),
   _calculate_track_strength (defense_track st)).

Record TrackSummary : Type := {
  prosecution_arguments : nat;
  defense_arguments : nat;
  n_shared_facts : nat;
  n_disputed_facts : nat;
  strength_analysis : Q * Q
}.

Definition get_summary (st : state) : TrackSummary :=
  {| prosecution_arguments := List.length (prosecution_track st);
     defense_arguments := List.length (defense_track st);
     n_shared_facts := List.length (shared_facts st);
     n_disputed_facts := size (disputed_facts st);
     strength_analysis := get_argument_strength_analysis st |}.

(** What a caller reads off an argument: its fields, the two lists through
    the store. *)
Definition observe (h : gmap loc (list string)) (a : Argument)
    : string * ArgumentType * Q * option (list string) * option (list string) :=
  (text a, type a, strength a,
   h !! supporting_citations a, h !! counter_arguments a).

End DualPerspectiveAnalysis.

(** ** [src/backend/prediction/counter_argument.py] *)

Module CounterArgumentPredictor.

Local Open Scope Q_scope.

(** [self.argument_patterns], in the order of the dictionary. *)
Definition argument_patterns : list (string * list string) :=
  [("statutory", ["statute requires"; "law states"; "according to section"]);
   ("precedential", ["court held"; "precedent establishes"; "as decided in"]);
   ("factual", ["evidence shows"; "facts demonstrate"; "record indicates"]);
   ("policy", ["public policy"; "legislative intent"; "purpose of the law"])].

(** [type_scores[arg_type] += 1] on a [defaultdict(int)]: a new key goes
    to the end. *)
Fixpoint increment (arg_type : string) (type_scores : list (string * nat))
    : list (string * nat) :=
  match type_scores with
  | [] => [(arg_type, 1%nat)]
  | (k, n) :: rest =>
      if String.eqb k arg_type then (k, S n) :: rest
      else (k, n) :: increment arg_type rest
  end.

(** [max(items, key=lambda x: x[1])]: the first of the items with the
    greatest count. *)
Fixpoint max_item (best : string * nat) (items : list (string * nat))
    : string * nat :=
  match items with
  | [] => best
  | item :: rest =>
      if (snd best <? snd item)%nat then max_item item rest
      else max_item best rest
  end.

(** [doc] is the list of the [token.text] of the tokens. *)
Definition _identify_argument_type (doc : list string) : string :=
  let type_scores :=
    fold_left
      (fun type_scores token =>
         fold_left
           (fun type_scores '(arg_type, patterns) =>
              if existsb (fun pattern => contains pattern (lower token)) patterns
              then increment arg_type type_scores
              else type_scores)
           argument_patterns type_scores)
      doc [] in
  match type_scores with
  | [] => "general"
  | first :: rest => fst (max_item first rest)
  end.

Definition _generate_statutory_counter : list string :=
  ["The statute should be interpreted differently considering...";
   "Legislative history suggests a different interpretation...";
   "The plain meaning rule leads to a different conclusion..."].

Definition _generate_precedent_counter : list string :=
  ["This case is distinguishable from the cited precedent...";
   "Subsequent cases have limited this precedent's scope...";
   "The precedent's reasoning doesn't apply here because..."].

Definition _generate_factual_counter : list string :=
  ["The evidence is insufficient to support this conclusion...";
   "Alternative interpretations of these facts suggest...";
   "Key contextual factors have been overlooked..."].

Definition _generate_policy_counter : list string :=
  ["This policy interpretation leads to unintended consequences...";
   "Competing policy considerations suggest...";
   "The proposed interpretation undermines the law's purpose..."].

Definition _generate_general_counter : list string :=
  ["The argument fails to consider important factors...";
   "Alternative approaches would better serve the interests of justice...";
   "The reasoning is flawed because..."].

(** [self.counter_strategies] *)
Definition counter_strategies : list (string * list string) :=
  [("statutory", _generate_statutory_counter);
   ("precedential", _generate_precedent_counter);
   ("factual", _generate_factual_counter);
   ("policy", _generate_policy_counter)].

Fixpoint lookup_strategy (arg_type : string)
    (strategies : list (string * list string)) : option (list string) :=
  match strategies with
  | [] => None
  | (k, v) :: rest =>
      if String.eqb k arg_type then Some v else lookup_strategy arg_type rest
  end.

Definition _generate_counter_arguments (arg_type : string) : list string :=
  match lookup_strategy arg_type counter_strategies with
  | Some counters => counters
  | None => _generate_general_counter
  end.

Definition _calculate_counter_strength (counter original : string) : Q :=
  7 # 10.

Record ScoredCounter : Type := {
  text : string;
  strength : Q;
  type : string
}.

Section Nlp.
(** The texts of the tokens of [self.nlp(s)]. *)
Variable tokens : string -> list string.

Definition _score_counter_arguments (counters : list string)
    (original_argument : string) : list ScoredCounter :=
  map (fun counter =>
         {| text := counter;
            strength := _calculate_counter_strength counter original_argument;
            type := _identify_argument_type (tokens counter) |})
    counters.

Definition predict (argument : string) : list ScoredCounter :=
  let doc := tokens argument in
  let arg_type := _identify_argument_type doc in
  let counter_arguments := _generate_counter_arguments arg_type in
  let scored_counters := _score_counter_arguments counter_arguments argument in
  sorted_desc (fun x y => negb (Qle_bool (strength x) (strength y)))
    scored_counters.
End Nlp.

End CounterArgumentPredictor.

(** * Vocabulary of the properties

    The domains on which the properties are stated, the quantities the
    specification names, and the inputs of the examples. *)

Section PointWeightingVocabulary.
Import PointWeighting.
Local Open Scope Q_scope.

(** The inputs the five factors are defined on with scores that are not
    negative: [keywords] has a length, [context_similarity] and
    [citation_count] are numbers that are not negative and not over the
    largest [float], [court_type] can be a dictionary key, [date] is a date
    in the format. *)
Definition num_nonneg (o : option pyval) : bool :=
  match o with
  | None => true
  | Some v =>
      match as_num v with
      | Ok q => Qle_bool 0 q && Qle_bool q (inject_Z float_max)
      | Raise _ => false
      end
  end.

Definition in_domain (case : gmap string pyval) : bool :=
  match case !! "keywords" with None => true | Some v => is_ok (len v) end
  && num_nonneg (case !! "context_similarity")
  && num_nonneg (case !! "citation_count")
  && match case !! "court_type" with None => true | Some v => hashable v end
  && match case !! "date" with
     | None => true
     | Some (PStr d) => bool_decide (is_Some (Strptime.strptime_year d))
     | Some _ => false
     end.

(** The case of the division by zero: relevance -1, hierarchy 0.5,
    temporal relevance 0.5, the other two 0. *)
Definition zero_sum_case : gmap string pyval :=
  <["context_similarity" := PNum (-2)]>
  (<["court_type" := PStr "State Appellate Court"]> ∅).

Definition malformed_date_case : gmap string pyval :=
  <["date" := PStr "2023/01/01"]> ∅.

Definition negative_similarity_case : gmap string pyval :=
  <["context_similarity" := PNum (-1)]> ∅.

Definition sample_case : gmap string pyval :=
  <["keywords" := PList [PStr "contract"; PStr "breach"]]>
  (<["context_similarity" := PNum (5 # 10)]>
  (<["citation_count" := PInt 25]>
  (<["court_type" := PStr "Supreme Court"]>
  (<["precedent_setting" := PBool true]>
  (<["date" := PStr "2020-01-01"]> ∅))))).

End PointWeightingVocabulary.

Section CaseAnalysisVocabulary.
Import CaseAnalysis.
Local Open Scope Q_scope.

(** A case record: [metadata] is a dictionary whose [date], if any, is a
    string and whose [court], if any, can be a dictionary key; [citations],
    if any, is a list. *)
Definition case_record (case_data : gmap string pyval) : bool :=
  match case_data !! "metadata" with
  | Some (PDict md) =>
      match md !! "date" with None | Some (PStr _) => true | Some _ => false end
      && match md !! "court" with None => true | Some v => hashable v end
  | _ => false
  end
  && match case_data !! "citations" with
     | None | Some (PList _) => true
     | Some _ => false
     end.

(** The three sub-scores, in the words of the specification: the time
    weight is max(0.1, 1 - 0.05 * (current year - year)), with the current
    year for a date that does not parse; the court weight is 1.0, 0.8 and
    0.6 for the Supreme, Circuit and District Court and 0.4 for another
    court; a sub-score whose field is absent counts 0. *)
Definition time_weight (now : Z) (md : gmap string pyval) : Q :=
  match md !! "date" with
  | Some (PStr d) =>
      let year := default now (Strptime.strptime_year d) in
      Qmax (1 # 10) (1 - inject_Z (now - year) * (5 # 100))
  | _ => 0
  end.

Definition court_weight_of (md : gmap string pyval) : Q :=
  match md !! "court" with
  | Some (PStr s) =>
      if String.eqb s "Supreme Court" then 1
      else if String.eqb s "Circuit Court" then 8 # 10
      else if String.eqb s "District Court" then 6 # 10
      else 4 # 10
  | Some _ => 4 # 10
  | None => 0
  end.

Definition citation_count (case_data : gmap string pyval) : nat :=
  match case_data !! "citations" with
  | Some (PList l) => List.length l
  | _ => 0%nat
  end.

Definition citation_weight (case_data : gmap string pyval) : Q :=
  Qmin (inject_Z (Z.of_nat (citation_count case_data)) * (1 # 10)) 1.

(** The case record of the repository's test, in 2026. *)
Definition test_case_data : gmap string pyval :=
  <["id" := PStr "case123"]>
  (<["metadata" :=
       PDict (<["date" := PStr "2023-01-01"]>
              (<["court" := PStr "Supreme Court"]>
              (<["case_number" := PStr "123-456"]> ∅)))]>
  (<["content" := PStr "The Court holds that..."]>
  (<["citations" := PList [PStr "410 U.S. 113"; PStr "347 U.S. 483"]]> ∅))).

(** A record as the scraper returns it for a page on which it found no
    date: the fields of the metadata that it did not find are [None]. *)
Definition scraped_case_data : gmap string pyval :=
  <["metadata" :=
       PDict (<["title" := PStr "Roe v. Wade"]>
              (<["date" := PNone]>
              (<["court" := PStr "Supreme Court"]>
              (<["case_number" := PNone]> ∅))))]>
  (<["content" := PStr "The Court holds that..."]>
  (<["citations" := PList [PStr "410 U.S. 113"]]>
  (<["sections" := PDict ∅]> ∅))).

End CaseAnalysisVocabulary.

Section WeaknessAnalysisVocabulary.
Import WeaknessAnalysis.
Local Open Scope Q_scope.

(** The [evidence] field is missing or empty. *)
Definition no_evidence (a : gmap string pyval) : bool :=
  match a !! "evidence" with
  | None => true
  | Some ev => negb (truthy ev)
  end.

Definition numeric_or_absent (o : option pyval) : bool :=
  match o with
  | None => true
  | Some v => is_ok (as_num v)
  end.

(** Some check raises on the argument. *)
Definition check_raises (sents : string -> list string)
    (a : gmap string pyval) : bool :=
  negb (is_ok (_analyze_evidence a))
  || negb (is_ok (_analyze_logic sents a))
  || negb (is_ok (_analyze_precedents a)).

Definition reported_type (w : Weakness) : Prop :=
  type w = "evidence_gap" \/ type w = "evidence_quality"
  \/ type w = "precedent_weakness".

(** A sentence splitter for the examples: a text that is not empty is one
    sentence. *)
Definition whole_text (s : string) : list string :=
  match s with
  | EmptyString => []
  | _ => [s]
  end.

(** A valid argument with a fallacy marker in its only sentence. *)
Definition circular_argument : gmap string pyval :=
  <["text" := PStr "This is circular reasoning."]>
  (<["type" := PStr "factual"]>
  (<["evidence" := PList [PStr "Document A"]]> ∅)).

(** A valid argument with an empty evidence list and no sentence. *)
Definition unsupported_argument : gmap string pyval :=
  <["text" := PStr ""]>
  (<["type" := PStr "factual"]>
  (<["evidence" := PList []]> ∅)).

(** An argument without the [evidence] field. *)
Definition no_evidence_argument : gmap string pyval :=
  <["text" := PStr ""]> (<["type" := PStr "factual"]> ∅).

End WeaknessAnalysisVocabulary.

Section StrategySuggestionEngineVocabulary.
Import StrategySuggestionEngine.
Local Open Scope Q_scope.

(** A bound on the magnitude of a score, 2^1022: a sum of three numbers
    within it is within the range of a [float]. *)
Definition score_bound : Z := (2 ^ 1022)%Z.
Arguments score_bound : simpl never.

(** The field is absent or a number whose magnitude is within the bound. *)
Definition bounded_or_absent (o : option pyval) : bool :=
  match o with
  | None => true
  | Some v =>
      match as_num v with
      | Ok q => Qle_bool (Qabs q) (inject_Z score_bound)
      | Raise _ => false
      end
  end.

(** The score fields that [suggest] reads are absent or numbers within the
    bound. *)
Definition scores_numeric (analysis : gmap string pyval) : bool :=
  bounded_or_absent (analysis !! "evidence_score")
  && bounded_or_absent (analysis !! "precedent_score")
  && bounded_or_absent (analysis !! "coherence_score")
  && bounded_or_absent (analysis !! "counter_argument_strength")
  && bounded_or_absent (analysis !! "opposing_evidence_strength").

(** The sum of the values of a list of numbers. *)
Definition total_of (qs : list Q) : Q := fold_right Qplus 0 qs.

Definition strong_precedent_analysis : gmap string pyval :=
  <["precedent_score" := PNum (8 # 10)]> ∅.

(** The analysis of the repository's test. *)
Definition sample_analysis : gmap string pyval :=
  <["evidence_score" := PNum (8 # 10)]>
  (<["precedent_score" := PNum (7 # 10)]>
  (<["coherence_score" := PNum (9 # 10)]>
  (<["counter_argument_strength" := PNum (4 # 10)]>
  (<["opposing_evidence_strength" := PNum (3 # 10)]> ∅)))).

End StrategySuggestionEngineVocabulary.

Section DualPerspectiveAnalysisVocabulary.
Import DualPerspectiveAnalysis.
Local Open Scope Q_scope.

(** The term occurs in the text. *)
Definition occurs_in (term text : string) : Prop :=
  exists before after, text = before +:+ term +:+ after.

(** One text has the positive term and the other the negative term of one
    of the three opposing pairs: supports and opposes, proves and
    disproves, confirms and contradicts. *)
Definition opposed (t1 t2 : string) : Prop :=
  (occurs_in "supports" t1 /\ occurs_in "opposes" t2) \/
  (occurs_in "opposes" t1 /\ occurs_in "supports" t2) \/
  (occurs_in "proves" t1 /\ occurs_in "disproves" t2) \/
  (occurs_in "disproves" t1 /\ occurs_in "proves" t2) \/
  (occurs_in "confirms" t1 /\ occurs_in "contradicts" t2) \/
  (occurs_in "contradicts" t1 /\ occurs_in "confirms" t2).

(** The conditions of a conflict link between two arguments: the types are
    equal, the similarity of the texts is over 0.7, and the texts, in lower
    case, have opposed terms. A similarity that raises is no similarity. *)
Definition in_conflict (similarity : string -> string -> option Q)
    (a b : Argument) : Prop :=
  type a = type b /\
  (exists sim, similarity (text a) (text b) = Some sim /\ 7 # 10 < sim) /\
  opposed (lower (text a)) (lower (text b)).

(** [kept] is the list of the elements of [l] of which [P] holds, in the
    order of [l]. *)
Inductive selected {A : Type} (P : A -> Prop) : list A -> list A -> Prop :=
  | selected_nil : selected P [] []
  | selected_keep (x : A) (l kept : list A) :
      P x -> selected P l kept -> selected P (x :: l) (x :: kept)
  | selected_skip (x : A) (l kept : list A) :
      ~ P x -> selected P l kept -> selected P (x :: l) kept.

(** A call of one of the two methods that add an argument, and the state
    after it (an exception goes to the caller; the state stays). *)
Inductive addition : Type :=
  | Prosecution (argument : Argument)
  | Defense (argument : Argument).

Definition added (o : addition) : Argument :=
  match o with
  | Prosecution argument | Defense argument => argument
  end.

Definition add (similarity : string -> string -> option Q) (st : state)
    (o : addition) : state :=
  match o with
  | Prosecution argument => (add_prosecution_argument similarity st argument).1
  | Defense argument => (add_defense_argument similarity st argument).1
  end.

(** A sequence of additions, and the arguments it puts on each track. *)
Definition add_all (similarity : string -> string -> option Q) (st : state)
    (os : list addition) : state :=
  fold_left (add similarity) os st.

Definition on_prosecution (os : list addition) : list Argument :=
  flat_map (fun o => match o with Prosecution a => [a] | Defense _ => [] end) os.

Definition on_defense (os : list addition) : list Argument :=
  flat_map (fun o => match o with Defense a => [a] | Prosecution _ => [] end) os.

(** The argument [a] shares neither of its lists with the
    [counter_arguments] of the argument that is added. *)
Definition apart (a : Argument) (o : addition) : Prop :=
  counter_arguments a <> counter_arguments (added o) /\
  supporting_citations a <> counter_arguments (added o).

(** A similarity for the examples: 1 on equal texts, 0.9 on others. *)
Definition sample_similarity (t1 t2 : string) : option Q :=
  if String.eqb t1 t2 then Some 1%Q else Some (9 # 10)%Q.

Definition defense_claim : DualPerspectiveAnalysis.Argument :=
  {| DualPerspectiveAnalysis.text := "The record opposes the finding";
     DualPerspectiveAnalysis.type := DualPerspectiveAnalysis.FACTUAL;
     DualPerspectiveAnalysis.strength := 6 # 10;
     DualPerspectiveAnalysis.supporting_citations := 1%positive;
     DualPerspectiveAnalysis.counter_arguments := 2%positive |}.

Definition prosecution_claim : DualPerspectiveAnalysis.Argument :=
  {| DualPerspectiveAnalysis.text := "The record SUPPORTS the finding";
     DualPerspectiveAnalysis.type := DualPerspectiveAnalysis.FACTUAL;
     DualPerspectiveAnalysis.strength := 7 # 10;
     DualPerspectiveAnalysis.supporting_citations := 3%positive;
     DualPerspectiveAnalysis.counter_arguments := 4%positive |}.

(** An argument whose text has both terms of a pair. *)
Definition mixed_claim : DualPerspectiveAnalysis.Argument :=
  {| DualPerspectiveAnalysis.text := "The memo supports one count and opposes another";
     DualPerspectiveAnalysis.type := DualPerspectiveAnalysis.LEGAL;
     DualPerspectiveAnalysis.strength := 5 # 10;
     DualPerspectiveAnalysis.supporting_citations := 5%positive;
     DualPerspectiveAnalysis.counter_arguments := 6%positive |}.

(** No argument yet; the list objects of the three arguments are empty. *)
Definition initial_state : DualPerspectiveAnalysis.state :=
  {| DualPerspectiveAnalysis.prosecution_track := [];
     DualPerspectiveAnalysis.defense_track := [];
     DualPerspectiveAnalysis.shared_facts := [];
     DualPerspectiveAnalysis.disputed_facts := ∅;
     DualPerspectiveAnalysis.lists :=
       list_to_map (map (fun l => (l, [])) [1; 2; 3; 4; 5; 6]%positive) |}.

Definition after_defense_claim : DualPerspectiveAnalysis.state :=
  (DualPerspectiveAnalysis.add_defense_argument sample_similarity
     initial_state defense_claim).1.

End DualPerspectiveAnalysisVocabulary.

Section FurtherVocabulary.
Local Open Scope Q_scope.

(** A precedent that is a dictionary whose "distinguishable" is true. *)
Definition distinguishable (precedent : pyval) : bool :=
  match precedent with
  | PDict d => truthy (default (PBool false) (d !! "distinguishable"))
  | _ => false
  end.

(** The three weaknesses that the checks can report. *)
Definition reported (w : WeaknessAnalysis.Weakness) : Prop :=
  w = WeaknessAnalysis.evidence_gap \/
  w = WeaknessAnalysis.evidence_quality \/
  w = WeaknessAnalysis.precedent_weakness.

(** Descending order of severity. *)
Definition severity_ge (x y : WeaknessAnalysis.Weakness) : Prop :=
  WeaknessAnalysis.severity y <= WeaknessAnalysis.severity x.

Definition has_severity (q : Q) (w : WeaknessAnalysis.Weakness) : bool :=
  Qeq_bool (WeaknessAnalysis.severity w) q.

Definition has_type (t : string) (w : WeaknessAnalysis.Weakness) : bool :=
  String.eqb (WeaknessAnalysis.type w) t.

(** The string has no full stop and no newline. *)
Fixpoint one_line (s : string) : bool :=
  match s with
  | EmptyString => true
  | String c rest =>
      negb (Ascii.eqb c "."%char) && negb (Ascii.eqb c "010"%char)
      && one_line rest
  end.

(** Inputs of the examples. *)
Definition reported_sample : list WeaknessAnalysis.Weakness :=
  [WeaknessAnalysis.evidence_gap; WeaknessAnalysis.evidence_quality;
   WeaknessAnalysis.precedent_weakness; WeaknessAnalysis.evidence_gap].

Definition sample_precedents : list pyval :=
  [PDict (<["distinguishable" := PBool true]> ∅);
   PDict ∅;
   PDict (<["distinguishable" := PBool false]> ∅);
   PDict (<["distinguishable" := PStr "yes"]> ∅)].

Definition precedents_argument : gmap string pyval :=
  <["precedents" := PList sample_precedents]> ∅.

Definition malformed_date_metadata : gmap string pyval :=
  <["date" := PStr "01/02/2023"]> (<["court" := PStr "Circuit Court"]> ∅).

Definition malformed_date_record : gmap string pyval :=
  <["metadata" := PDict malformed_date_metadata]>
  (<["citations" := PList [PStr "410 U.S. 113"]]> ∅).

Definition many_citations_record : gmap string pyval :=
  <["metadata" := PDict ∅]>
  (<["citations" := PList (repeat (PStr "410 U.S. 113") 200)]> ∅).

Definition three_citations : list pyval :=
  [PStr "410 U.S. 113"; PStr "347 U.S. 483"; PStr "5 U.S. 137"].

Definition old_case : gmap string pyval := <["date" := PStr "2010-05-05"]> ∅.

Definition recent_case : gmap string pyval := <["date" := PStr "2020-01-01"]> ∅.

(** An analysis with the keys of a case analysis and the weaknesses. *)
Definition integrator_analysis : gmap string pyval :=
  <["relevance_score" := PNum (68 # 100)]>
  (<["key_points" := PList []]>
  (<["weaknesses" := PList []]> ∅)).

(** A tokenizer for the examples: the words between the spaces. *)
Fixpoint words_from (current s : string) : list string :=
  match s with
  | EmptyString =>
      match current with EmptyString => [] | _ => [current] end
  | String c rest =>
      if Ascii.eqb c " "%char then
        match current with
        | EmptyString => words_from EmptyString rest
        | _ => current :: words_from EmptyString rest
        end
      else words_from (String.append current (String c EmptyString)) rest
  end.

Definition split_words (s : string) : list string := words_from EmptyString s.

(** The character occurs in the string. *)
Fixpoint has_char (c : ascii) (s : string) : bool :=
  match s with
  | EmptyString => false
  | String b rest => Ascii.eqb b c || has_char c rest
  end.

(** No token has a space in it. *)
Definition spaceless (doc : list string) : bool :=
  forallb (fun token => negb (has_char " "%char token)) doc.

(** The keys of the analysis that [suggest] reads. *)
Definition score_keys : list string :=
  ["evidence_score"; "precedent_score"; "coherence_score";
   "counter_argument_strength"; "opposing_evidence_strength"].

(** The field is absent or a number in [0, 1]. *)
Definition unit_or_absent (o : option pyval) : bool :=
  match o with
  | None => true
  | Some v =>
      match as_num v with
      | Ok q => Qle_bool 0 q && Qle_bool q 1
      | Raise _ => false
      end
  end.

(** The argument passes [validate_argument]. *)
Definition valid_argument (a : gmap string pyval) : bool :=
  match DataValidator.validate_argument a with
  | None => true
  | Some _ => false
  end.

End FurtherVocabulary.

(** * Properties *)

(** ** The date parser on sample inputs *)

Example strptime_iso : Strptime.strptime "2023-01-01" = Some (2023, 1, 1)%Z.
Proof. reflexivity. Qed.

Example strptime_one_digit : Strptime.strptime "2023-1-5" = Some (2023, 1, 5)%Z.
Proof. reflexivity. Qed.

Example strptime_no_such_day : Strptime.strptime "2023-02-30" = None.
Proof. reflexivity. Qed.

Example strptime_leap_day : Strptime.strptime "2024-02-29" = Some (2024, 2, 29)%Z.
Proof. reflexivity. Qed.

Example strptime_text_left : Strptime.strptime "2023-12-315" = None.
Proof. reflexivity. Qed.

Example strptime_slashes : Strptime.strptime "2023/01/01" = None.
Proof. reflexivity. Qed.

(** ** Helpers on [result] and on rationals *)

Lemma bind_Ok {A B : Type} (m : result A) (k : A -> result B) (b : B) :
  (x ← m; k x) = Ok b -> exists a, m = Ok a /\ k a = Ok b.
Proof. destruct m as [a|e]; simpl; [eauto | discriminate]. Qed.

Lemma Qeq_bool_false (x y : Q) : Qeq_bool x y = false <-> ~ (x == y)%Q.
Proof.
  split.
  - intros H E. apply Qeq_bool_iff in E. congruence.
  - intros H. destruct (Qeq_bool x y) eqn:E; [|reflexivity].
    apply Qeq_bool_iff in E. contradiction.
Qed.

Lemma Qle_bool_false (x y : Q) : Qle_bool x y = false <-> (y < x)%Q.
Proof.
  split.
  - intros H. apply Qnot_le_lt. intros E. apply Qle_bool_iff in E. congruence.
  - intros H. destruct (Qle_bool x y) eqn:E; [|reflexivity].
    apply Qle_bool_iff in E. apply Qle_not_lt in E. contradiction.
Qed.

(** ** Numbers within the range of a [float] *)

Section Numbers.
Local Open Scope Q_scope.

Lemma float_max_lt_overflow : (float_max < float_overflow)%Z.
Proof. reflexivity. Qed.

Lemma float_max_pos : (0 < float_max)%Z.
Proof. reflexivity. Qed.

Lemma as_num_to_num (v : pyval) (q : Q) :
  as_num v = Ok q -> exists x, to_num v = Ok x /\ num_value x = q.
Proof.
  destruct v as [|[|]| | | | |]; simpl; try discriminate;
    intros [= <-]; eexists; split; reflexivity.
Qed.

Lemma to_num_as_num (v : pyval) (x : num) :
  to_num v = Ok x -> as_num v = Ok (num_value x).
Proof.
  destruct v as [|[|]| | | | |]; simpl; try discriminate;
    intros [= <-]; reflexivity.
Qed.

Lemma Qabs_inject_Z (n : Z) : Qabs (inject_Z n) = inject_Z (Z.abs n).
Proof. reflexivity. Qed.

(** An operand whose magnitude is under the threshold converts. *)
Lemma num_float_Ok (x : num) :
  Qabs (num_value x) < inject_Z float_overflow ->
  num_float x = Ok (num_value x).
Proof.
  destruct x as [n|q]; cbn [num_value num_float]; [|reflexivity].
  rewrite Qabs_inject_Z, <- Zlt_Qlt. intros H. apply Z.ltb_lt in H. rewrite H. reflexivity.
Qed.

Lemma num_mul_float_Ok (x : num) (y : Q) :
  Qabs (num_value x) < inject_Z float_overflow ->
  num_mul_float x y = Ok (num_value x * y).
Proof.
  intros H. unfold num_mul_float. rewrite (num_float_Ok x H). reflexivity.
Qed.

(** The sum of two operands whose magnitudes are under the threshold. *)
Lemma num_add_Ok (x y : num) :
  Qabs (num_value x) < inject_Z float_overflow ->
  Qabs (num_value y) < inject_Z float_overflow ->
  exists z, num_add x y = Ok z /\ num_value z == num_value x + num_value y.
Proof.
  intros Hx Hy. unfold num_add.
  destruct x as [a|a], y as [b|b].
  - eexists. split; [reflexivity|]. cbn [num_value].
    rewrite inject_Z_plus. reflexivity.
  - rewrite (num_float_Ok _ Hx). eexists. split; reflexivity.
  - rewrite (num_float_Ok _ Hy). eexists. split; reflexivity.
  - eexists. split; reflexivity.
Qed.

(** The quotient by a positive [int] of an operand whose magnitude is
    under the threshold. *)
Lemma num_truediv_Ok (x : num) (d : Z) :
  (0 < d)%Z -> (d < float_overflow)%Z ->
  Qabs (num_value x) < inject_Z float_overflow ->
  num_truediv x (NInt d) = Ok (num_value x / inject_Z d).
Proof.
  intros Hd Hd' Hx.
  assert (Hdq : 0 < inject_Z d).
  { change 0 with (inject_Z 0). rewrite <- Zlt_Qlt. exact Hd. }
  destruct x as [a|a]; cbn [num_truediv num_value num_float] in *.
  - destruct (Z.eqb_spec d 0) as [->|_]; [lia|].
    assert (Hq : Qabs (inject_Z a / inject_Z d) < inject_Z float_overflow).
    { eapply Qle_lt_trans; [|exact Hx].
      unfold Qdiv. rewrite Qabs_Qmult.
      rewrite <- (Qmult_1_r (Qabs (inject_Z a))) at 2.
      apply Qmult_le_compat_nonneg.
      - split; [apply Qabs_nonneg | apply Qle_refl].
      - split; [apply Qabs_nonneg|].
        rewrite Qabs_pos by (apply Qlt_le_weak, Qinv_lt_0_compat, Hdq).
        apply Qle_shift_inv_r; [exact Hdq|].
        rewrite Qmult_1_l. change 1 with (inject_Z 1).
        rewrite <- Zle_Qle. lia. }
    apply Qle_bool_false in Hq. rewrite Hq. reflexivity.
  - assert (Hz : (Z.abs d <? float_overflow)%Z = true) by (apply Z.ltb_lt; lia).
    rewrite Hz.
    assert (Hnz : Qeq_bool (inject_Z d) 0 = false).
    { apply Qeq_bool_false. intros E. rewrite E in Hdq.
      exact (Qlt_irrefl _ Hdq). }
    rewrite Hnz. reflexivity.
Qed.

(** The loop of [sum]: with every operand within the bound [B] and no more
    operands than the threshold allows, no conversion overflows, and the
    total has the sum of the values. *)
Lemma sum_loop_Ok (B : Z) (factors : list pyval) (qs : list Q) (acc : num)
    (k : nat) :
  (0 <= B)%Z ->
  Forall2 (fun v q => as_num v = Ok q /\ Qabs q <= inject_Z B) factors qs ->
  Qabs (num_value acc) <= inject_Z (Z.of_nat k * B) ->
  (Z.of_nat (k + List.length factors) * B < float_overflow)%Z ->
  exists total,
    for_each factors (fun acc v => x ← to_num v; num_add acc x) acc = Ok total /\
    num_value total == num_value acc + total_of qs /\
    Qabs (num_value total)
    <= inject_Z (Z.of_nat (k + List.length factors) * B).
Proof.
  intros HB HF. revert acc k.
  induction HF as [|v q factors qs [Hv Hq] HF IH]; intros acc k Hacc Hlt.
  - exists acc. split; [reflexivity|].
    split; [unfold total_of; simpl; lra|].
    rewrite Nat.add_0_r. exact Hacc.
  - cbn [List.length] in Hlt.
    destruct (as_num_to_num v q Hv) as (x & Hx & Hxv).
    assert (HaccT : Qabs (num_value acc) < inject_Z float_overflow).
    { eapply Qle_lt_trans; [exact Hacc|]. rewrite <- Zlt_Qlt. nia. }
    assert (HxT : Qabs (num_value x) < inject_Z float_overflow).
    { rewrite Hxv. eapply Qle_lt_trans; [exact Hq|]. rewrite <- Zlt_Qlt. nia. }
    destruct (num_add_Ok acc x HaccT HxT) as (z & Hz & Hzv).
    destruct (IH z (S k)) as (total & Ht & Htv & Htb).
    + rewrite Hzv. eapply Qle_trans; [apply Qabs_triangle|].
      replace (Z.of_nat (S k) * B)%Z with (Z.of_nat k * B + B)%Z by lia.
      rewrite inject_Z_plus. rewrite Hxv.
      apply Qplus_le_compat; assumption.
    + replace (S k + List.length factors)%nat
        with (k + S (List.length factors))%nat by lia.
      exact Hlt.
    + exists total. cbn [for_each]. rewrite Hx. cbn [mbind result_bind bind].
      rewrite Hz. split; [exact Ht|]. split.
      * rewrite Htv, Hzv, Hxv. unfold total_of. simpl. lra.
      * cbn [List.length].
        replace (k + S (List.length factors))%nat
          with (S k + List.length factors)%nat by lia.
        exact Htb.
Qed.

End Numbers.

(** ** PointWeighting *)

Section PointWeightingProperties.
Import PointWeighting.
Local Open Scope Q_scope.

Lemma court_hierarchy_floor (s : string) :
  4 # 10 <= default (4 # 10) (court_hierarchy_weights !! s).
Proof.
  unfold court_hierarchy_weights.
  repeat (rewrite lookup_insert; case_decide; [simpl; lra|]).
  rewrite lookup_empty. simpl. lra.
Qed.

Lemma hierarchy_weight_floor (case : gmap string pyval) (h : Q) :
  _calculate_hierarchy_weight case = Ok h -> 4 # 10 <= h.
Proof.
  unfold _calculate_hierarchy_weight.
  destruct (default (PStr "District Court") (case !! "court_type"));
    simpl; intros [= <-]; try lra.
  apply court_hierarchy_floor.
Qed.

Lemma outcome_impact_nonneg (case : gmap string pyval) :
  0 <= _calculate_outcome_impact case.
Proof.
  unfold _calculate_outcome_impact, impact_factors. simpl.
  repeat match goal with
         | |- context [truthy ?v] => destruct (truthy v)
         end; lra.
Qed.

Lemma temporal_weight_pos (now : Z) (case : gmap string pyval) (t : Q) :
  _calculate_temporal_weight now case = Ok t -> 0 < t.
Proof.
  unfold _calculate_temporal_weight.
  destruct (case !! "date") as [[| | | |d| |]|]; try discriminate.
  - destruct (Strptime.strptime_year d); [|discriminate].
    intros [= <-]. apply Qpower_0_lt. unfold time_decay_factor. lra.
  - intros [= <-]. lra.
Qed.

(** The raw scores are five, under the five factor names. *)
Lemma raw_weights_Ok (now : Z) (case : gmap string pyval)
    (ws : list (string * Q)) :
  raw_weights now case = Ok ws ->
  exists r c h t,
    _calculate_relevance_weight case = Ok r /\
    _calculate_citation_weight case = Ok c /\
    _calculate_hierarchy_weight case = Ok h /\
    _calculate_temporal_weight now case = Ok t /\
    ws = [("relevance", r); ("citation_frequency", c); ("court_hierarchy", h);
          ("case_outcome_impact", _calculate_outcome_impact case);
          ("temporal_relevance", t)].
Proof.
  unfold raw_weights. intros H.
  apply bind_Ok in H as (r & Hr & H).
  apply bind_Ok in H as (c & Hc & H).
  apply bind_Ok in H as (h & Hh & H).
  apply bind_Ok in H as (t & Ht & H).
  injection H as <-. exists r, c, h, t. auto.
Qed.

Lemma normalize_zero (ws : list (string * Q)) (total : Q) :
  total == 0 -> ws <> [] -> normalize total ws = Raise ZeroDivisionError.
Proof.
  intros Hz Hne. destruct ws as [|[k v] rest]; [contradiction|].
  simpl. unfold truediv. apply Qeq_bool_iff in Hz. rewrite Hz. reflexivity.
Qed.

Lemma normalize_nonzero (ws : list (string * Q)) (total : Q) :
  ~ total == 0 ->
  normalize total ws = Ok (map (fun kv => (fst kv, snd kv / total)) ws).
Proof.
  intros Hnz. induction ws as [|[k v] rest IH]; [reflexivity|].
  simpl. unfold truediv. apply Qeq_bool_false in Hnz. rewrite Hnz. simpl.
  rewrite IH. reflexivity.
Qed.

Lemma sum_values_from (ws : list (string * Q)) (a : Q) :
  fold_left (fun acc kv => acc + snd kv) ws a == a + sum_values ws.
Proof.
  unfold sum_values. revert a.
  induction ws as [|kv rest IH]; intros a; simpl; [lra|].
  rewrite IH. rewrite (IH (0 + snd kv)). lra.
Qed.

Lemma sum_values_cons (kv : string * Q) (ws : list (string * Q)) :
  sum_values (kv :: ws) == snd kv + sum_values ws.
Proof.
  unfold sum_values at 1. simpl. rewrite sum_values_from. lra.
Qed.

(** Dividing every value by [total] divides the sum by [total]. *)
Lemma sum_values_scaled (ws : list (string * Q)) (total : Q) :
  sum_values (map (fun kv => (fst kv, snd kv / total)) ws)
  == sum_values ws / total.
Proof.
  induction ws as [|kv rest IH].
  - unfold sum_values. simpl. unfold Qdiv. lra.
  - simpl map. rewrite !sum_values_cons, IH. simpl. unfold Qdiv. lra.
Qed.

(** Whenever [weight_points] returns, the values sum to 1. *)
Lemma weight_points_sum (now : Z) (case : gmap string pyval)
    (w : list (string * Q)) :
  weight_points now case = Ok w -> sum_values w == 1.
Proof.
  unfold weight_points. intros H.
  apply bind_Ok in H as (ws & Hws & H).
  destruct (Qeq_dec (sum_values ws) 0) as [Hz|Hnz].
  - apply raw_weights_Ok in Hws as (r & c & h & t & _ & _ & _ & _ & ->).
    rewrite normalize_zero in H; [discriminate | exact Hz | discriminate].
  - rewrite (normalize_nonzero _ _ Hnz) in H. injection H as <-.
    rewrite sum_values_scaled. field. exact Hnz.
Qed.

(** With a sum of the raw scores that is 0 the division raises. *)
Lemma weight_points_zero_sum (now : Z) (case : gmap string pyval)
    (ws : list (string * Q)) :
  raw_weights now case = Ok ws -> sum_values ws == 0 ->
  weight_points now case = Raise ZeroDivisionError.
Proof.
  intros Hws Hz. unfold weight_points. rewrite Hws. simpl.
  apply raw_weights_Ok in Hws as (r & c & h & t & _ & _ & _ & _ & ->).
  apply normalize_zero; [exact Hz | discriminate].
Qed.

(** A number of the domain is an operand that converts to [float]. *)
Lemma num_nonneg_Some (v : pyval) :
  num_nonneg (Some v) = true ->
  exists x,
    to_num v = Ok x /\ 0 <= num_value x /\
    Qabs (num_value x) < inject_Z float_overflow.
Proof.
  unfold num_nonneg. destruct (as_num v) as [q|] eqn:Hq; [|discriminate].
  rewrite andb_true_iff, !Qle_bool_iff. intros [H0 Hmax].
  apply as_num_to_num in Hq as (x & Hx & <-).
  exists x. split; [exact Hx|]. split; [exact H0|].
  rewrite (Qabs_pos _ H0). eapply Qle_lt_trans; [exact Hmax|].
  rewrite <- Zlt_Qlt. exact float_max_lt_overflow.
Qed.

Lemma relevance_weight_nonneg (case : gmap string pyval) :
  match case !! "keywords" with None => true | Some v => is_ok (len v) end = true ->
  num_nonneg (case !! "context_similarity") = true ->
  exists r, _calculate_relevance_weight case = Ok r /\ 0 <= r.
Proof.
  unfold _calculate_relevance_weight. intros Hk Hc.
  assert (Hn : forall n : nat, 0 <= inject_Z (Z.of_nat n) * (1 # 10)).
  { intros n. apply Qmult_le_0_compat; [|lra].
    replace 0 with (inject_Z 0) by reflexivity. rewrite <- Zle_Qle. lia. }
  destruct (case !! "keywords") as [kw|];
    [destruct (len kw) as [n|] eqn:Hl; [|discriminate]|];
    (destruct (case !! "context_similarity") as [cs|];
     [apply num_nonneg_Some in Hc as (x & Hx & Hx0 & Hxr);
      rewrite Hx; cbn [mbind result_bind bind];
      rewrite (num_mul_float_Ok _ _ Hxr)|]);
    simpl; eexists; (split; [reflexivity|]);
    apply Q.min_glb; try lra; try specialize (Hn n); nra.
Qed.

Lemma citation_weight_nonneg (case : gmap string pyval) :
  num_nonneg (case !! "citation_count") = true ->
  exists c, _calculate_citation_weight case = Ok c /\ 0 <= c.
Proof.
  unfold _calculate_citation_weight. intros Hc.
  destruct (case !! "citation_count") as [cc|].
  - apply num_nonneg_Some in Hc as (x & Hx & Hx0 & Hxr).
    change (default (PInt 0) (Some cc)) with cc. rewrite Hx. cbn [mbind result_bind bind].
    rewrite (num_truediv_Ok x citation_threshold); [|reflexivity..|exact Hxr].
    eexists; split; [reflexivity|].
    apply Q.min_glb; [|lra]. unfold Qdiv.
    apply Qmult_le_0_compat; [exact Hx0 | apply Qinv_le_0_compat].
    vm_compute. discriminate.
  - eexists; split; [vm_compute; reflexivity|]. vm_compute. discriminate.
Qed.

Lemma hierarchy_weight_Ok (case : gmap string pyval) :
  match case !! "court_type" with None => true | Some v => hashable v end = true ->
  exists h, _calculate_hierarchy_weight case = Ok h.
Proof.
  unfold _calculate_hierarchy_weight. intros H.
  destruct (case !! "court_type") as [[| | | | | |]|]; simpl in *;
    try discriminate; eauto.
Qed.

Lemma temporal_weight_Ok (now : Z) (case : gmap string pyval) :
  match case !! "date" with
  | None => true
  | Some (PStr d) => bool_decide (is_Some (Strptime.strptime_year d))
  | Some _ => false
  end = true ->
  exists t, _calculate_temporal_weight now case = Ok t.
Proof.
  unfold _calculate_temporal_weight. intros H.
  destruct (case !! "date") as [[| | | |d| |]|]; try discriminate; eauto.
  apply bool_decide_eq_true in H as [y ->]. eauto.
Qed.

(** A date that the format refuses makes [weight_points] raise. *)
Lemma weight_points_bad_date (now : Z) (case : gmap string pyval) (d : string) :
  case !! "date" = Some (PStr d) -> Strptime.strptime_year d = None ->
  exists e, weight_points now case = Raise e.
Proof.
  intros Hd Hy. unfold weight_points, raw_weights.
  assert (Ht : _calculate_temporal_weight now case = Raise ValueError).
  { unfold _calculate_temporal_weight. rewrite Hd, Hy. reflexivity. }
  rewrite Ht.
  destruct (_calculate_relevance_weight case); simpl; eauto.
  destruct (_calculate_citation_weight case); simpl; eauto.
  destruct (_calculate_hierarchy_weight case); simpl; eauto.
Qed.

(** C4 (on the code): for a case whose five raw scores sum to 0,
    [weight_points] does not return equal weights of 0.2: the
    normalisation divides by the sum and raises ZeroDivisionError. *)
Theorem weight_points_zero_sum_raises (now : Z) :
  (exists ws, raw_weights now zero_sum_case = Ok ws /\ sum_values ws == 0) /\
  weight_points now zero_sum_case = Raise ZeroDivisionError.
Proof.
  split.
  - eexists. split; [vm_compute; reflexivity | reflexivity].
  - vm_compute. reflexivity.
Qed.

(** C5 (on the code): with a date that is present and is not in the format
    %Y-%m-%d, [weight_points] does not fall back to the temporal relevance
    0.5 of an absent date: the ValueError of the parser goes through to the
    caller. *)
Theorem weight_points_malformed_date_raises (now : Z) :
  Strptime.strptime "2023/01/01" = None /\
  weight_points now malformed_date_case = Raise ValueError.
Proof. split; vm_compute; reflexivity. Qed.

(** C6 as stated fails: a negative [context_similarity] gives a negative
    relevance weight. *)
Lemma weight_points_negative_factor :
  exists w r,
    weight_points 2026 negative_similarity_case = Ok w /\
    In ("relevance", r) w /\ r < 0.
Proof.
  eexists. eexists. split; [vm_compute; reflexivity|].
  split; [left; reflexivity|]. reflexivity.
Qed.

(** C6 (amended): on every case of the domain [in_domain], [weight_points]
    returns a weight vector whose values sum to 1 and none of whose values
    is negative. *)
Theorem weight_points_normalized (now : Z) (case : gmap string pyval) :
  in_domain case = true ->
  exists w,
    weight_points now case = Ok w /\
    sum_values w == 1 /\
    Forall (fun kv => 0 <= snd kv) w.
Proof.
  unfold in_domain. rewrite !andb_true_iff.
  intros [[[[Hk Hcs] Hcc] Hct] Hd].
  destruct (relevance_weight_nonneg case Hk Hcs) as (r & Hr & Hr0).
  destruct (citation_weight_nonneg case Hcc) as (c & Hc & Hc0).
  destruct (hierarchy_weight_Ok case Hct) as (h & Hh).
  destruct (temporal_weight_Ok now case Hd) as (t & Ht).
  pose proof (hierarchy_weight_floor case h Hh) as Hh0.
  pose proof (temporal_weight_pos now case t Ht) as Ht0.
  pose proof (outcome_impact_nonneg case) as Ho0.
  set (o := _calculate_outcome_impact case) in *.
  set (ws := [("relevance", r); ("citation_frequency", c); ("court_hierarchy", h);
              ("case_outcome_impact", o); ("temporal_relevance", t)]).
  assert (Hraw : raw_weights now case = Ok ws).
  { unfold raw_weights. rewrite Hr, Hc, Hh, Ht. reflexivity. }
  assert (Hsum : sum_values ws == r + c + h + o + t).
  { unfold ws, sum_values. simpl. lra. }
  assert (Hpos : 0 < sum_values ws) by (rewrite Hsum; lra).
  assert (Hnz : ~ sum_values ws == 0) by lra.
  assert (Hw : weight_points now case
               = Ok (map (fun kv => (fst kv, snd kv / sum_values ws)) ws)).
  { unfold weight_points. rewrite Hraw. exact (normalize_nonzero ws _ Hnz). }
  eexists. split; [exact Hw|]. split; [exact (weight_points_sum _ _ _ Hw)|].
  assert (Hdiv : forall v, 0 <= v -> 0 <= v / sum_values ws).
  { intros v Hv. unfold Qdiv. apply Qmult_le_0_compat; [exact Hv|].
    apply Qinv_le_0_compat. lra. }
  unfold ws. simpl. repeat constructor; simpl; apply Hdiv; lra.
Qed.

(** An [int] too large for a [float] makes the quotient and the product
    raise; one that the quotient brings back into the range does not. *)
Example citation_weight_overflow :
  _calculate_citation_weight (<["citation_count" := PInt (10 ^ 400)]> ∅)
  = Raise OverflowError.
Proof. vm_compute. reflexivity. Qed.

Example citation_weight_large_int :
  _calculate_citation_weight (<["citation_count" := PInt (10 ^ 309)]> ∅)
  = Ok 1.
Proof. vm_compute. reflexivity. Qed.

Example relevance_weight_overflow :
  _calculate_relevance_weight (<["context_similarity" := PInt (10 ^ 400)]> ∅)
  = Raise OverflowError.
Proof. vm_compute. reflexivity. Qed.

Lemma weight_points_normalized_witness :
  exists w,
    weight_points 2026 sample_case = Ok w /\
    sum_values w == 1 /\
    Forall (fun kv => 0 <= snd kv) w.
Proof. apply (weight_points_normalized 2026 sample_case). vm_compute. reflexivity. Defined.

End PointWeightingProperties.

(** ** CaseAnalysis *)

Section CaseAnalysisProperties.
Import CaseAnalysis.
Local Open Scope Q_scope.

Lemma precedent_weight_floor (s : string) :
  4 # 10 <= default (4 # 10) (precedent_weight !! s).
Proof.
  unfold precedent_weight.
  repeat (rewrite lookup_insert; case_decide; [simpl; lra|]).
  rewrite lookup_empty. simpl. lra.
Qed.

Lemma time_weight_nonneg (now : Z) (md : gmap string pyval) :
  0 <= time_weight now md.
Proof.
  unfold time_weight, _calculate_time_weight.
  destruct (md !! "date") as [[| | | |d| |]|]; try lra.
  eapply Qle_trans; [|apply Q.le_max_l]. lra.
Qed.

(** The court weight of the specification is the one of the table
    [precedent_weight], with its default 0.4. *)
Lemma court_weight_of_table (md : gmap string pyval) :
  court_weight_of md
  = match md !! "court" with
    | Some (PStr s) => default (4 # 10) (precedent_weight !! s)
    | Some _ => 4 # 10
    | None => 0
    end.
Proof.
  unfold court_weight_of.
  destruct (md !! "court") as [[| | | |s| |]|]; try reflexivity.
  unfold precedent_weight.
  destruct (String.eqb_spec s "Supreme Court") as [->|H1]; [reflexivity|].
  rewrite lookup_insert_ne by congruence.
  destruct (String.eqb_spec s "Circuit Court") as [->|H2]; [reflexivity|].
  rewrite lookup_insert_ne by congruence.
  destruct (String.eqb_spec s "District Court") as [->|H3]; [reflexivity|].
  rewrite lookup_insert_ne by congruence.
  rewrite lookup_empty. reflexivity.
Qed.

Lemma court_weight_of_nonneg (md : gmap string pyval) : 0 <= court_weight_of md.
Proof.
  rewrite court_weight_of_table.
  destruct (md !! "court") as [[| | | |s| |]|]; try lra.
  pose proof (precedent_weight_floor s). lra.
Qed.

Lemma citation_weight_nonneg' (case_data : gmap string pyval) :
  0 <= citation_weight case_data.
Proof.
  unfold citation_weight.
  apply Q.min_glb; [|lra]. apply Qmult_le_0_compat; [|lra].
  replace 0 with (inject_Z 0) by reflexivity. rewrite <- Zle_Qle. lia.
Qed.

Lemma Qmin_1_compat (x y : Q) : x == y -> Qmin x 1 == Qmin y 1.
Proof. intros H. rewrite H. reflexivity. Qed.

(** When the date of the metadata is absent or a string (the court can be
    a dictionary key and the citations are a list), [_calculate_relevance]
    returns min((time_weight + court_weight + citation_weight) / 3, 1.0),
    where a sub-score whose field is absent counts 0, and the score is in
    [0, 1]. *)
Theorem calculate_relevance_formula (now : Z) (case_data : gmap string pyval) :
  case_record case_data = true ->
  exists md score,
    case_data !! "metadata" = Some (PDict md) /\
    _calculate_relevance now case_data = Ok score /\
    score == Qmin ((time_weight now md + court_weight_of md
                    + citation_weight case_data) / 3) 1 /\
    0 <= score <= 1.
Proof.
  unfold case_record. intros H.
  destruct (case_data !! "metadata") as [[| | | | | |md]|] eqn:Hmd;
    try discriminate.
  apply andb_true_iff in H as [H Hcit].
  apply andb_true_iff in H as [Hdate Hcourt].
  pose proof (time_weight_nonneg now md) as Ht.
  pose proof (court_weight_of_nonneg md) as Hc.
  pose proof (citation_weight_nonneg' case_data) as Hn.
  assert (Hscore : exists score,
             _calculate_relevance now case_data = Ok score /\
             score == Qmin ((time_weight now md + court_weight_of md
                             + citation_weight case_data) / 3) 1).
  { rewrite court_weight_of_table.
    unfold _calculate_relevance, _calculate_time_weight, time_weight,
      citation_weight, citation_count.
    rewrite Hmd. simpl.
    destruct (md !! "date") as [[| | | |d| |]|]; try discriminate; simpl;
      (destruct (md !! "court") as [[| | | |s| |]|]; try discriminate; simpl);
      (destruct (case_data !! "citations") as [[| | | | |l|]|];
       try discriminate; simpl);
      try destruct (Strptime.strptime_year d); simpl;
      eexists; (split; [reflexivity|]);
      apply Qmin_1_compat; unfold Qdiv; lra. }
  destruct Hscore as (score & Hok & Heq).
  exists md, score. repeat split; try assumption.
  - rewrite Heq. apply Q.min_glb; [|lra]. unfold Qdiv.
    apply Qmult_le_0_compat; [lra | apply Qinv_le_0_compat; lra].
  - rewrite Heq. apply Q.le_min_r.
Qed.

Lemma calculate_relevance_formula_witness :
  exists md score,
    test_case_data !! "metadata" = Some (PDict md) /\
    _calculate_relevance 2026 test_case_data = Ok score /\
    score == Qmin ((time_weight 2026 md + court_weight_of md
                    + citation_weight test_case_data) / 3) 1 /\
    0 <= score <= 1.
Proof.
  apply (calculate_relevance_formula 2026 test_case_data).
  vm_compute. reflexivity.
Defined.

Example calculate_relevance_test_case :
  exists score, _calculate_relevance 2026 test_case_data = Ok score /\
                score == 205 # 300.
Proof. eexists. split; [vm_compute; reflexivity | reflexivity]. Qed.

(** C8 (on the code): for a case record whose metadata has the date
    [None], which is how the scraper writes a date that it did not find,
    [_calculate_relevance] returns no score: the key is in the metadata,
    [strptime] raises TypeError on [None], the [except ValueError] of
    [_extract_year] does not catch it, and it goes through to the caller. *)
Theorem calculate_relevance_none_date (now : Z)
    (case_data md : gmap string pyval) :
  case_data !! "metadata" = Some (PDict md) ->
  md !! "date" = Some PNone ->
  _extract_year now PNone = Raise TypeError /\
  _calculate_relevance now case_data = Raise TypeError.
Proof.
  intros Hmd Hd. split; [reflexivity|].
  unfold _calculate_relevance. rewrite Hmd. simpl. rewrite Hd. reflexivity.
Qed.

Lemma calculate_relevance_none_date_witness :
  _extract_year 2026 PNone = Raise TypeError /\
  _calculate_relevance 2026 scraped_case_data = Raise TypeError.
Proof.
  apply (calculate_relevance_none_date 2026 scraped_case_data
           (<["title" := PStr "Roe v. Wade"]>
            (<["date" := PNone]>
            (<["court" := PStr "Supreme Court"]>
            (<["case_number" := PNone]> ∅))))).
  - vm_compute. reflexivity.
  - vm_compute. reflexivity.
Defined.

End CaseAnalysisProperties.

(** ** Loops *)

Lemma for_each_app {A S : Type} (l1 l2 : list A) (body : S -> A -> result S)
    (s : S) :
  for_each (l1 ++ l2) body s
  = match for_each l1 body s with
    | Ok s' => for_each l2 body s'
    | Raise e => Raise e
    end.
Proof.
  revert s. induction l1 as [|x l1 IH]; intros s; simpl; [reflexivity|].
  destruct (body s x); [apply IH | reflexivity].
Qed.

(** An element on which the body raises from every state makes the loop
    raise, whatever comes before and after it. *)
Lemma for_each_raises {A S : Type} (pre post : list A) (x : A)
    (body : S -> A -> result S) (s : S) :
  (forall s', is_ok (body s' x) = false) ->
  is_ok (for_each (pre ++ x :: post) body s) = false.
Proof.
  intros Hx. rewrite for_each_app.
  destruct (for_each pre body s) as [s'|e]; [|reflexivity].
  simpl. specialize (Hx s'). destruct (body s' x); [discriminate | reflexivity].
Qed.

(** An element that the body passes over can be left out. *)
Lemma for_each_skip {A S : Type} (pre post : list A) (x : A)
    (body : S -> A -> result S) (s : S) :
  (forall s', body s' x = Ok s') ->
  for_each (pre ++ x :: post) body s = for_each (pre ++ post) body s.
Proof.
  intros Hx. rewrite !for_each_app.
  destruct (for_each pre body s) as [s'|e]; [|reflexivity].
  simpl. rewrite Hx. reflexivity.
Qed.

(** A property of the state that every step keeps holds after the loop. *)
Lemma for_each_invariant {A S : Type} (P : S -> Prop) (l : list A)
    (body : S -> A -> result S) (s s' : S) :
  (forall s1 x s2, P s1 -> body s1 x = Ok s2 -> P s2) ->
  P s -> for_each l body s = Ok s' -> P s'.
Proof.
  intros Hstep. revert s. induction l as [|x l IH]; intros s Hs; simpl.
  - intros [= <-]. exact Hs.
  - destruct (body s x) as [s1|e] eqn:Hb; [|discriminate].
    apply IH. eapply Hstep; eauto.
Qed.

(** ** Sorting *)

Section SortedProperties.
Context {A : Type} (gt : A -> A -> bool).

Lemma insert_desc_In (x y : A) (l : list A) :
  In y (insert_desc gt x l) <-> y = x \/ In y l.
Proof.
  induction l as [|z l IH]; simpl.
  - intuition.
  - destruct (gt z x); simpl; rewrite ?IH; intuition.
Qed.

Lemma sorted_desc_In (y : A) (l : list A) :
  In y (sorted_desc gt l) <-> In y l.
Proof.
  induction l as [|x l IH]; simpl; [reflexivity|].
  rewrite insert_desc_In, IH. intuition.
Qed.
End SortedProperties.

(** With a strict comparison of integer keys the result is in descending
    order of the key. *)
Section SortedByKey.
Context {A : Type} (key : A -> Z).

Lemma insert_desc_sorted (x : A) (l : list A) :
  StronglySorted (key_ge key) l ->
StronglySorted (key_ge key) (insert_desc (key_gt key) x l).
Proof.
  induction 1 as [|y ys Hys IH Hy]; simpl.
  - repeat constructor.
  - unfold key_gt at 1. destruct (Z.ltb_spec (key x) (key y)) as [Hlt|Hge].
    + constructor; [exact IH|].
      apply List.Forall_forall. intros z Hz.
      apply insert_desc_In in Hz as [->|Hz].
      * unfold key_ge. lia.
      * rewrite List.Forall_forall in Hy. auto.
    + constructor; [constructor; assumption|].
      constructor; [exact Hge|].
      rewrite List.Forall_forall in Hy |- *. intros z Hz.
      specialize (Hy z Hz). unfold key_ge in *. lia.
Qed.

Lemma sorted_desc_sorted (l : list A) :
  StronglySorted (key_ge key) (sorted_desc (key_gt key) l).
Proof.
  induction l as [|x l IH]; simpl; [constructor|].
  apply insert_desc_sorted, IH.
Qed.
End SortedByKey.

(** ** WeaknessAnalysis *)

Section WeaknessAnalysisProperties.
Import WeaknessAnalysis.
Local Open Scope Q_scope.

Variable sents : string -> list string.

Lemma logical_flaws_patterns :
  weakness_patterns !! "logical_flaws"
  = Some ["circular reasoning"; "false equivalence"; "hasty generalization"].
Proof. reflexivity. Qed.

(** The first pattern is a string of eighteen characters: unpacking it
    into two names raises, at the first sentence. *)
Lemma analyze_logic_raises (a : gmap string pyval) (t : string) :
  a !! "text" = Some (PStr t) -> sents t <> [] ->
  _analyze_logic sents a = Raise ValueError.
Proof.
  intros Ht Hs. unfold _analyze_logic. rewrite Ht. simpl.
  destruct (sents t) as [|sent rest]; [contradiction|].
  simpl. rewrite logical_flaws_patterns. reflexivity.
Qed.

Lemma analyze_logic_no_sentence (a : gmap string pyval) (t : string) :
  a !! "text" = Some (PStr t) -> sents t = [] -> _analyze_logic sents a = Ok [].
Proof.
  intros Ht Hs. unfold _analyze_logic. rewrite Ht. simpl. rewrite Hs.
  reflexivity.
Qed.

(** [_analyze_logic] returns no weakness at all. *)
Lemma analyze_logic_Ok (a : gmap string pyval) (ws : list Weakness) :
  _analyze_logic sents a = Ok ws -> ws = [].
Proof.
  unfold _analyze_logic.
  destruct (default (PStr "") (a !! "text")) as [| | | |t| |]; try discriminate.
  destruct (sents t) as [|sent rest]; simpl.
  - intros [= <-]. reflexivity.
  - rewrite logical_flaws_patterns. discriminate.
Qed.

Lemma collect_step (arguments : list (gmap string pyval)) :
  collect sents arguments = for_each arguments (step sents) [].
Proof. reflexivity. Qed.

Lemma step_raises (a : gmap string pyval) (ws : list Weakness) :
  DataValidator.validate_argument a = None -> check_raises sents a = true ->
  is_ok (step sents ws a) = false.
Proof.
  unfold step, check_raises. intros -> H.
  destruct (_analyze_evidence a); simpl in *; [|reflexivity].
  destruct (_analyze_logic sents a); simpl in *; [|reflexivity].
  destruct (_analyze_precedents a); simpl in *; [discriminate | reflexivity].
Qed.

Lemma collect_raises (pre post : list (gmap string pyval))
    (a : gmap string pyval) :
  DataValidator.validate_argument a = None -> check_raises sents a = true ->
  analyze sents (pre ++ a :: post) = [].
Proof.
  intros Hv Hc. unfold analyze. rewrite collect_step.
  pose proof (for_each_raises pre post a (step sents) []
                (fun ws => step_raises a ws Hv Hc)) as H.
  destruct (for_each (pre ++ a :: post) (step sents) []); [discriminate | reflexivity].
Qed.

Lemma missing_evidence_invalid (a : gmap string pyval) :
  a !! "evidence" = None -> DataValidator.validate_argument a <> None.
Proof.
  intros He. unfold DataValidator.validate_argument. simpl.
  destruct (a !! "text"); [|discriminate].
  destruct (a !! "type"); [|discriminate].
  rewrite He. discriminate.
Qed.

Lemma missing_evidence_skipped (a : gmap string pyval) (ws : list Weakness) :
  a !! "evidence" = None -> step sents ws a = Ok ws.
Proof.
  intros He. unfold step.
  destruct (DataValidator.validate_argument a) eqn:Hv; [reflexivity|].
  apply missing_evidence_invalid in He. contradiction.
Qed.

Lemma analyze_evidence_types (a : gmap string pyval) (ws : list Weakness) :
  _analyze_evidence a = Ok ws -> Forall reported_type ws.
Proof.
  unfold _analyze_evidence, reported_type.
  destruct (a !! "evidence") as [ev|]; [destruct (truthy ev)|];
    (destruct (a !! "evidence_quality") as [q|];
     [destruct (as_num q) as [x|]; [|discriminate]; simpl;
      destruct (Qlt_le_dec x (6 # 10))|]);
    simpl; intros [= <-];
    repeat (constructor; [simpl; auto|]); constructor.
Qed.

Lemma analyze_precedents_types (a : gmap string pyval) (ws : list Weakness) :
  _analyze_precedents a = Ok ws -> Forall reported_type ws.
Proof.
  unfold _analyze_precedents.
  destruct (a !! "precedents") as [ps|]; [|intros [= <-]; constructor].
  destruct (iter ps) as [l|]; [|discriminate]. simpl. intros Hl.
  eapply (for_each_invariant (Forall reported_type)); [|constructor|exact Hl].
  intros s1 x s2 Hs1.
  destruct x as [| | | | | |d]; try discriminate.
  destruct (truthy _); intros [= <-]; [|exact Hs1].
  apply Forall_app. split; [exact Hs1|].
  constructor; [|constructor]. unfold reported_type. simpl. auto.
Qed.

(** No weakness of type "logical_flaw" is ever in the result of
    [analyze]. *)
Lemma analyze_never_logical_flaw (arguments : list (gmap string pyval))
    (w : Weakness) :
  In w (analyze sents arguments) -> type w <> "logical_flaw".
Proof.
  unfold analyze. rewrite collect_step.
  destruct (for_each arguments (step sents) []) as [ws|e] eqn:Hc; [|contradiction].
  unfold _prioritize_weaknesses. rewrite sorted_desc_In. intros Hin.
  assert (Hall : Forall reported_type ws).
  { eapply (for_each_invariant (Forall reported_type));
      [|constructor|exact Hc].
    intros s1 a s2 Hs1. unfold step.
    destruct (DataValidator.validate_argument a); [intros [= <-]; exact Hs1|].
    intros H.
    apply bind_Ok in H as (ev & Hev & H).
    apply bind_Ok in H as (lg & Hlg & H).
    apply bind_Ok in H as (pr & Hpr & H).
    injection H as <-.
    apply analyze_logic_Ok in Hlg as ->.
    rewrite !Forall_app.
    split; [split; [split; [exact Hs1|]|constructor]|];
      eauto using analyze_evidence_types, analyze_precedents_types. }
  rewrite Forall_forall in Hall. apply list_elem_of_In, Hall in Hin.
  unfold reported_type in Hin. intros E. rewrite E in Hin.
  destruct Hin as [H|[H|H]]; discriminate.
Qed.

(** C1 (on the code): a valid argument whose text has a sentence, with a
    fallacy marker or without, gets no "logical_flaw" weakness: the loop
    over the marker phrases unpacks each phrase into two names, which
    raises ValueError at the first sentence, and [analyze] returns the
    empty list. *)
Theorem analyze_logical_flaw_lost (a : gmap string pyval) (t : string) :
  DataValidator.validate_argument a = None ->
  a !! "text" = Some (PStr t) ->
  sents t <> [] ->
  _analyze_logic sents a = Raise ValueError /\ analyze sents [a] = [].
Proof.
  intros Hv Ht Hs.
  pose proof (analyze_logic_raises a t Ht Hs) as Hl.
  split; [exact Hl|].
  apply (collect_raises [] [] a Hv).
  unfold check_raises. rewrite Hl. simpl.
  rewrite orb_true_r. reflexivity.
Qed.

(** C10: [analyze] returns a list on every list of arguments, and when a
    check raises on a valid argument the list is empty, whatever the
    arguments before it had contributed. *)
Theorem analyze_exception_returns_empty (pre post : list (gmap string pyval))
    (a : gmap string pyval) :
  DataValidator.validate_argument a = None ->
  check_raises sents a = true ->
  is_ok (collect sents (pre ++ a :: post)) = false /\
  analyze sents (pre ++ a :: post) = [].
Proof.
  intros Hv Hc. split; [|exact (collect_raises pre post a Hv Hc)].
  rewrite collect_step. apply for_each_raises.
  intros ws. exact (step_raises a ws Hv Hc).
Qed.

(** C2 (amended): on an argument whose [evidence] field is missing or
    empty, and whose [evidence_quality] is absent or a number, the check
    [_analyze_evidence] returns the "evidence_gap" weakness of severity 0.8
    first. [analyze] does not reach the check when the field is missing:
    the argument does not pass the validation and is skipped, and the
    result is the one for the list without it. *)
Theorem missing_evidence_gap (a : gmap string pyval) :
  no_evidence a = true ->
  numeric_or_absent (a !! "evidence_quality") = true ->
  (exists w ws,
     _analyze_evidence a = Ok (w :: ws) /\
     type w = "evidence_gap" /\ severity w == 8 # 10) /\
  (a !! "evidence" = None ->
   forall pre post,
     analyze sents (pre ++ a :: post) = analyze sents (pre ++ post)).
Proof.
  unfold no_evidence, numeric_or_absent. intros He Hq. split.
  - unfold _analyze_evidence.
    assert (Hgap : match a !! "evidence" with
                   | Some ev => if negb (truthy ev) then [] ++ [evidence_gap] else []
                   | None => [] ++ [evidence_gap]
                   end = [evidence_gap]).
    { destruct (a !! "evidence") as [ev|]; [|reflexivity].
      rewrite He. reflexivity. }
    rewrite Hgap.
    destruct (a !! "evidence_quality") as [q|].
    + destruct (as_num q) as [x|]; [|discriminate]. simpl.
      destruct (Qlt_le_dec x (6 # 10)); eexists; eexists;
        (split; [reflexivity|]); split; reflexivity.
    + eexists; eexists; (split; [reflexivity|]); split; reflexivity.
  - intros Hnone pre post. unfold analyze, collect.
    rewrite (for_each_skip pre post a (step sents) []); [reflexivity|].
    intros ws. apply missing_evidence_skipped, Hnone.
Qed.

End WeaknessAnalysisProperties.

Example analyze_unsupported :
  WeaknessAnalysis.analyze whole_text [unsupported_argument]
  = [WeaknessAnalysis.evidence_gap].
Proof. vm_compute. reflexivity. Qed.

Lemma analyze_logical_flaw_lost_witness :
  WeaknessAnalysis._analyze_logic whole_text circular_argument = Raise ValueError
  /\ WeaknessAnalysis.analyze whole_text [circular_argument] = [].
Proof.
  apply (analyze_logical_flaw_lost whole_text circular_argument
           "This is circular reasoning.").
  - vm_compute. reflexivity.
  - vm_compute. reflexivity.
  - simpl. discriminate.
Defined.

(** The weakness collected for the first argument is discarded. *)
Lemma analyze_exception_returns_empty_witness :
  is_ok (WeaknessAnalysis.collect whole_text
           ([unsupported_argument] ++ circular_argument :: [])) = false /\
  WeaknessAnalysis.analyze whole_text
    ([unsupported_argument] ++ circular_argument :: []) = [].
Proof.
  apply (analyze_exception_returns_empty whole_text
           [unsupported_argument] [] circular_argument).
  - vm_compute. reflexivity.
  - vm_compute. reflexivity.
Defined.

(** C2 as stated fails: the argument has no [evidence] field and the
    result of [analyze] has no "evidence_gap" weakness. *)
Lemma analyze_missing_evidence_no_gap :
  no_evidence_argument !! "evidence" = None /\
  ~ exists w,
      In w (WeaknessAnalysis.analyze whole_text [no_evidence_argument]) /\
      WeaknessAnalysis.type w = "evidence_gap".
Proof.
  split; [vm_compute; reflexivity|].
  intros (w & Hin & _). vm_compute in Hin. exact Hin.
Qed.

Lemma missing_evidence_gap_witness :
  (exists w ws,
     WeaknessAnalysis._analyze_evidence no_evidence_argument = Ok (w :: ws) /\
     WeaknessAnalysis.type w = "evidence_gap" /\
     (WeaknessAnalysis.severity w == 8 # 10)%Q) /\
  (no_evidence_argument !! "evidence" = None ->
   forall pre post,
     WeaknessAnalysis.analyze whole_text (pre ++ no_evidence_argument :: post)
     = WeaknessAnalysis.analyze whole_text (pre ++ post)).
Proof.
  apply (missing_evidence_gap whole_text no_evidence_argument).
  - vm_compute. reflexivity.
  - vm_compute. reflexivity.
Defined.

(** ** StrategySuggestionEngine *)

Section StrategySuggestionEngineProperties.
Import StrategySuggestionEngine.
Local Open Scope Q_scope.

Lemma numeric_default (o : option pyval) (d : pyval) (qd : Q) :
  as_num d = Ok qd ->
  numeric_or_absent o = true -> exists x, as_num (default d o) = Ok x.
Proof.
  intros Hd. destruct o as [v|]; simpl; [|eauto].
  destruct (as_num v); [eauto | discriminate].
Qed.

Lemma bounded_numeric (o : option pyval) :
  bounded_or_absent o = true -> numeric_or_absent o = true.
Proof.
  destruct o as [v|]; simpl; [|reflexivity].
  destruct (as_num v); [reflexivity | discriminate].
Qed.

Lemma bounded_default (o : option pyval) (d : pyval) (qd : Q) :
  as_num d = Ok qd -> Qabs qd <= inject_Z score_bound ->
  bounded_or_absent o = true ->
  exists q, as_num (default d o) = Ok q /\ Qabs q <= inject_Z score_bound.
Proof.
  intros Hd Hqd. destruct o as [v|]; simpl; [|eauto].
  destruct (as_num v) as [q|]; [|discriminate].
  intros H. apply Qle_bool_iff in H. eauto.
Qed.

Lemma half_bounded : Qabs (5 # 10) <= inject_Z score_bound.
Proof. vm_compute. discriminate. Qed.

(** The mean of two or three numbers within the bound. *)
Lemma mean_Ok (factors : list pyval) (qs : list Q) :
  Forall2 (fun v q => as_num v = Ok q /\ Qabs q <= inject_Z score_bound)
    factors qs ->
  (0 < List.length factors <= 3)%nat ->
  exists m,
    mean factors = Ok m /\
    m == total_of qs / inject_Z (Z.of_nat (List.length factors)).
Proof.
  intros HF [Hn0 Hn3]. unfold mean.
  assert (HB : (0 <= score_bound)%Z) by (vm_compute; discriminate).
  assert (H3 : (3 * score_bound < float_overflow)%Z) by reflexivity.
  destruct (sum_loop_Ok score_bound factors qs (NInt 0) 0 HB HF)
    as (total & Ht & Htv & Htb).
  { vm_compute. discriminate. }
  { simpl Nat.add. nia. }
  rewrite Ht. cbn [mbind result_bind bind].
  rewrite num_truediv_Ok.
  - eexists. split; [reflexivity|]. rewrite Htv. simpl num_value.
    unfold Qdiv. change (inject_Z 0) with 0. lra.
  - lia.
  - assert (3 < float_overflow)%Z by reflexivity. lia.
  - eapply Qle_lt_trans; [exact Htb|]. rewrite <- Zlt_Qlt.
    simpl Nat.add. nia.
Qed.

Lemma primary_strategy_Ok (case_strength opposition_strength : Q) :
  exists p,
    _generate_primary_strategy case_strength opposition_strength = Ok p /\
    priority p = 1%Z.
Proof.
  unfold _generate_primary_strategy.
  destruct (gtb case_strength (7 # 10) && ltb opposition_strength (5 # 10));
    [|destruct (gtb opposition_strength (7 # 10))];
    simpl; eexists; split; reflexivity.
Qed.

Lemma supplementary_strategies_Ok (analysis : gmap string pyval) :
  numeric_or_absent (analysis !! "precedent_score") = true ->
  exists supplementary,
    _generate_supplementary_strategies analysis = Ok supplementary /\
    (supplementary = [] \/
     exists s, supplementary = [s] /\ priority s = 2%Z).
Proof.
  intros H. destruct (numeric_default _ (PInt 0) 0 eq_refl H) as (x & Hx).
  unfold _generate_supplementary_strategies. rewrite Hx. simpl.
  destruct (gtb x (7 # 10)); eexists; (split; [reflexivity|]); eauto.
Qed.

Lemma case_strength_Ok (analysis : gmap string pyval) (e p c : Q) :
  as_num (default (PNum (5 # 10)) (analysis !! "evidence_score")) = Ok e
  /\ Qabs e <= inject_Z score_bound ->
  as_num (default (PNum (5 # 10)) (analysis !! "precedent_score")) = Ok p
  /\ Qabs p <= inject_Z score_bound ->
  as_num (default (PNum (5 # 10)) (analysis !! "coherence_score")) = Ok c
  /\ Qabs c <= inject_Z score_bound ->
  exists cs,
    _evaluate_case_strength analysis = Ok cs /\ cs == (e + p + c) / 3.
Proof.
  intros He Hp Hc. unfold _evaluate_case_strength.
  match goal with
  | |- context [mean ?l] =>
      destruct (mean_Ok l [e; p; c]) as (m & Hm & Hv);
        [repeat (constructor; [assumption|]); constructor | simpl; lia |]
  end.
  exists m. split; [exact Hm|]. rewrite Hv. unfold total_of. simpl.
  change (inject_Z (Z.of_nat 3)) with 3. unfold Qdiv. lra.
Qed.

Lemma opposition_strength_Ok (analysis : gmap string pyval) (ca oe : Q) :
  as_num (default (PNum (5 # 10)) (analysis !! "counter_argument_strength"))
  = Ok ca /\ Qabs ca <= inject_Z score_bound ->
  as_num (default (PNum (5 # 10)) (analysis !! "opposing_evidence_strength"))
  = Ok oe /\ Qabs oe <= inject_Z score_bound ->
  exists os,
    _evaluate_opposition_strength analysis = Ok os /\ os == (ca + oe) / 2.
Proof.
  intros Hca Hoe. unfold _evaluate_opposition_strength.
  match goal with
  | |- context [mean ?l] =>
      destruct (mean_Ok l [ca; oe]) as (m & Hm & Hv);
        [repeat (constructor; [assumption|]); constructor | simpl; lia |]
  end.
  exists m. split; [exact Hm|]. rewrite Hv. unfold total_of. simpl.
  change (inject_Z (Z.of_nat 2)) with 2. unfold Qdiv. lra.
Qed.

(** The list that [suggest] sorts, and the sorted list. *)
Lemma suggest_Ok (analysis : gmap string pyval) :
  scores_numeric analysis = true ->
  exists case_strength opposition_strength primary supplementary,
    _evaluate_case_strength analysis = Ok case_strength /\
    _evaluate_opposition_strength analysis = Ok opposition_strength /\
    _generate_primary_strategy case_strength opposition_strength = Ok primary /\
    _generate_supplementary_strategies analysis = Ok supplementary /\
    suggest analysis
    = Ok (sorted_desc (key_gt priority) (primary :: supplementary)).
Proof.
  unfold scores_numeric. rewrite !andb_true_iff.
  intros [[[[He Hp] Hc] Hca] Hoe].
  pose proof half_bounded as Hh.
  destruct (bounded_default _ (PNum (5 # 10)) _ eq_refl Hh He) as (e & He').
  destruct (bounded_default _ (PNum (5 # 10)) _ eq_refl Hh Hp) as (p & Hp').
  destruct (bounded_default _ (PNum (5 # 10)) _ eq_refl Hh Hc) as (c & Hc').
  destruct (bounded_default _ (PNum (5 # 10)) _ eq_refl Hh Hca) as (ca & Hca').
  destruct (bounded_default _ (PNum (5 # 10)) _ eq_refl Hh Hoe) as (oe & Hoe').
  destruct (case_strength_Ok analysis e p c He' Hp' Hc') as (cs & Hcs & _).
  destruct (opposition_strength_Ok analysis ca oe Hca' Hoe') as (os & Hos & _).
  destruct (primary_strategy_Ok cs os) as (primary & Hprim & _).
  destruct (supplementary_strategies_Ok analysis (bounded_numeric _ Hp))
    as (supp & Hsupp & _).
  exists cs, os, primary, supp. repeat split; try assumption.
  unfold suggest. rewrite Hcs. simpl. rewrite Hos. simpl.
  rewrite Hprim. simpl. rewrite Hsupp. reflexivity.
Qed.

(** On every analysis whose score fields are absent or numbers within the
    bound, [suggest] returns the supplementary strategies, all of priority
    2, and then the primary strategy, of priority 1: the list is in
    descending order of priority, and the primary strategy is its first
    element when there is no supplementary strategy, and only then. *)
Lemma suggest_supplementary_first (analysis : gmap string pyval) :
  scores_numeric analysis = true ->
  exists primary supplementary,
    _generate_supplementary_strategies analysis = Ok supplementary /\
    suggest analysis = Ok (supplementary ++ [primary]) /\
    StronglySorted (key_ge priority) (supplementary ++ [primary]) /\
    priority primary = 1%Z /\
    Forall (fun s => priority s = 2%Z) supplementary /\
    (head (supplementary ++ [primary]) = Some primary <-> supplementary = []).
Proof.
  intros H.
  destruct (suggest_Ok analysis H)
    as (cs & os & primary & supp & _ & _ & Hprim & Hsupp & Hsug).
  assert (Hp1 : priority primary = 1%Z).
  { destruct (primary_strategy_Ok cs os) as (p' & Hp' & Hpr). congruence. }
  assert (Hnum : numeric_or_absent (analysis !! "precedent_score") = true).
  { unfold scores_numeric in H. rewrite !andb_true_iff in H.
    apply bounded_numeric. tauto. }
  destruct (supplementary_strategies_Ok analysis Hnum) as (supp' & Hs' & Hcases).
  assert (supp' = supp) as -> by congruence.
  assert (Hsorted : sorted_desc (key_gt priority) (primary :: supp)
                    = supp ++ [primary]).
  { destruct Hcases as [->|(s2 & -> & Hs2)]; [reflexivity|].
    simpl. unfold key_gt. rewrite Hp1, Hs2. reflexivity. }
  exists primary, supp. split; [exact Hsupp|].
  split; [rewrite Hsug, Hsorted; reflexivity|].
  split; [rewrite <- Hsorted; apply sorted_desc_sorted|].
  split; [exact Hp1|].
  destruct Hcases as [->|(s2 & -> & Hs2)].
  - split; [constructor|]. simpl. tauto.
  - split; [repeat constructor; exact Hs2|]. simpl.
    split; [intros [= ->]; lia | discriminate].
Qed.

(** C3 (on the code): with a precedent score of 0.8 and no other score,
    [suggest] returns two strategies, and the primary strategy, the
    balanced one of priority 1 that [_generate_primary_strategy] makes, is
    not the first element: the supplementary strategy, of priority 2, is
    sorted before it. *)
Theorem suggest_primary_not_first :
  exists case_strength opposition_strength supplementary primary,
    _evaluate_case_strength strong_precedent_analysis = Ok case_strength /\
    _evaluate_opposition_strength strong_precedent_analysis
    = Ok opposition_strength /\
    _generate_primary_strategy case_strength opposition_strength = Ok primary /\
    suggest strong_precedent_analysis = Ok [supplementary; primary] /\
    type supplementary = PRECEDENT_FOCUSED /\ priority supplementary = 2%Z /\
    type primary = BALANCED /\ priority primary = 1%Z /\
    head [supplementary; primary] <> Some primary.
Proof.
  do 4 eexists.
  split; [vm_compute; reflexivity|].
  split; [vm_compute; reflexivity|].
  split; [vm_compute; reflexivity|].
  split; [vm_compute; reflexivity|].
  repeat split. discriminate.
Qed.

(** The sum of the scores is exact on [int]s and converts an [int] when it
    meets a [float]. *)
Example mean_overflow :
  mean [PNum (5 # 10); PInt (10 ^ 400); PNum (5 # 10)] = Raise OverflowError.
Proof. vm_compute. reflexivity. Qed.

Example mean_int_overflow :
  mean [PInt (10 ^ 400); PInt (10 ^ 400); PInt (10 ^ 400)]
  = Raise OverflowError.
Proof. vm_compute. reflexivity. Qed.

Example mean_cancelled :
  exists m,
    mean [PInt (10 ^ 400); PInt (- 10 ^ 400); PNum (5 # 10)] = Ok m /\
    m == 1 # 6.
Proof. eexists. split; [vm_compute; reflexivity | reflexivity]. Qed.

Example suggest_sample_analysis :
  exists l, suggest sample_analysis = Ok l /\ map type l = [AGGRESSIVE].
Proof. eexists. split; [vm_compute; reflexivity | reflexivity]. Qed.

End StrategySuggestionEngineProperties.

(** ** DualPerspectiveAnalysis *)

Section DualPerspectiveAnalysisProperties.
Import DualPerspectiveAnalysis.
Local Open Scope Q_scope.

Variable similarity : string -> string -> option Q.

Lemma prefix_occurs (p s : string) :
  String.prefix p s = true <-> exists after, s = p +:+ after.
Proof.
  revert s. induction p as [|a p IH]; intros s.
  - destruct s; simpl; split; eauto.
  - destruct s as [|b s]; simpl.
    + split; [discriminate | intros [after [=]]].
    + destruct (Ascii.ascii_dec a b) as [->|Hab].
      * rewrite IH. split; intros [after H]; exists after.
        -- rewrite H. reflexivity.
        -- injection H as H. exact H.
      * split; [discriminate | intros [after [= E _]]; congruence].
Qed.

(** [needle in hay] is the occurrence of the needle in the hay. *)
Lemma contains_occurs (p s : string) : contains p s = true <-> occurs_in p s.
Proof.
  unfold occurs_in. split.
  - induction s as [|c s IH]; cbn [contains]; rewrite orb_true_iff;
      intros [H|H]; try discriminate.
    + apply prefix_occurs in H as [after ->]. exists "", after. reflexivity.
    + apply prefix_occurs in H as [after ->]. exists "", after. reflexivity.
    + destruct (IH H) as (before & after & ->).
      exists (String c before), after. reflexivity.
  - intros (before & after & ->).
    induction before as [|c before IH].
    + assert (H : String.prefix p (p +:+ after) = true)
        by (apply prefix_occurs; eauto).
      change ("" +:+ p +:+ after) with (p +:+ after).
      destruct (p +:+ after); cbn [contains]; rewrite H; reflexivity.
    + change (String c before +:+ p +:+ after)
        with (String c (before +:+ p +:+ after)).
      cbn [contains]. rewrite IH. apply orb_true_r.
Qed.

(** The test of the code is the conflict of the specification. *)
Lemma arguments_conflict_iff (arg1 arg2 : Argument) :
  _arguments_conflict similarity arg1 arg2 = true <->
  in_conflict similarity arg1 arg2.
Proof.
  unfold _arguments_conflict, in_conflict.
  destruct (bool_decide_reflect (type arg1 = type arg2)) as [Ht|Ht];
    cbn [negb]; [|split; [discriminate | tauto]].
  destruct (similarity (text arg1) (text arg2)) as [sim|];
    [|split; [discriminate | intros (_ & (s & Hs & _) & _); discriminate]].
  destruct (Qle_bool sim (7 # 10)) eqn:Hle; cbn [negb].
  - apply Qle_bool_iff in Hle.
    split; [discriminate|].
    intros (_ & (s & [= <-] & Hs) & _). apply Qle_not_lt in Hle. contradiction.
  - apply Qle_bool_false in Hle.
    unfold opposing_pairs, opposed. cbn [existsb].
    rewrite !orb_true_iff, !andb_true_iff, !contains_occurs.
    split.
    + intros H. split; [exact Ht|]. split; [eauto|].
      destruct H as [[H|H]|[[H|H]|[[H|H]|H]]]; try discriminate; tauto.
    + intros (_ & _ & H). tauto.
Qed.

Lemma selected_filter {A : Type} (P : A -> Prop) (f : A -> bool) (l : list A) :
  (forall x, f x = true <-> P x) -> selected P l (List.filter f l).
Proof.
  intros Hf. induction l as [|x l IH]; simpl; [constructor|].
  destruct (f x) eqn:E.
  - apply selected_keep; [apply Hf, E | exact IH].
  - apply selected_skip; [|exact IH].
    intros HP. apply Hf in HP. congruence.
Qed.

Lemma selected_Forall {A : Type} (P : A -> Prop) (l kept : list A) :
  selected P l kept -> Forall P kept.
Proof. induction 1; auto. Qed.

(** The loop touches one list of the store only. *)
Lemma record_conflicts_frame (argument : Argument) (opposing : list Argument)
    (h : gmap loc (list string)) (l : loc) :
  l <> counter_arguments argument ->
  (record_conflicts similarity argument opposing h).1 !! l = h !! l.
Proof.
  intros Hl. revert h. induction opposing as [|o rest IH]; intros h; simpl.
  - reflexivity.
  - destruct (_arguments_conflict similarity argument o); [|apply IH].
    unfold append.
    destruct (h !! counter_arguments argument) as [xs|]; [|reflexivity].
    rewrite IH. apply lookup_insert_ne. congruence.
Qed.

(** When the new argument has a list, the loop does not raise, and the
    list gets the texts of the opposing arguments in conflict, in the
    order of the track. *)
Lemma record_conflicts_links (argument : Argument) (opposing : list Argument)
    (h : gmap loc (list string)) (old : list string) :
  h !! counter_arguments argument = Some old ->
  (record_conflicts similarity argument opposing h).2 = None /\
  (record_conflicts similarity argument opposing h).1
    !! counter_arguments argument
  = Some (old ++ map text
                   (List.filter (_arguments_conflict similarity argument)
                      opposing)).
Proof.
  revert h old. induction opposing as [|o rest IH]; intros h old Hold; simpl.
  - rewrite app_nil_r. auto.
  - destruct (_arguments_conflict similarity argument o).
    + unfold append. rewrite Hold.
      destruct (IH (<[counter_arguments argument := old ++ [text o]]> h)
                  (old ++ [text o])) as [He Hl].
      { apply lookup_insert_eq. }
      split; [exact He|]. rewrite Hl. simpl. rewrite <- app_assoc. reflexivity.
    + apply IH, Hold.
Qed.

Lemma analyze_argument_conflicts_fst (st : state) (argument : Argument)
    (side : string) :
  let opposing :=
    if String.eqb side "prosecution" then defense_track st
    else prosecution_track st in
  let r := _analyze_argument_conflicts similarity st argument side in
  prosecution_track r.1 = prosecution_track st /\
  defense_track r.1 = defense_track st /\
  shared_facts r.1 = shared_facts st /\
  disputed_facts r.1 = disputed_facts st /\
  lists r.1 = (record_conflicts similarity argument opposing (lists st)).1 /\
  r.2 = (record_conflicts similarity argument opposing (lists st)).2.
Proof.
  unfold _analyze_argument_conflicts. simpl.
  destruct (record_conflicts similarity argument _ (lists st)) as [h e].
  simpl. auto 6.
Qed.

(** C7: when an argument is added to a track, the conflict links that are
    recorded (the texts appended to its [counter_arguments], in the order
    of the opposing track) are those to the arguments of the opposing track
    that are in conflict with it, and no other: the types are equal, the
    similarity is over 0.7, and one text has the positive term and the
    other the negative term of one of the three pairs supports and opposes,
    proves and disproves, confirms and contradicts. In particular there is
    no link between arguments of different types or of a similarity of 0.7
    or less. *)
Theorem conflict_link_iff (st : state) (argument : Argument)
    (old : list string) :
  lists st !! counter_arguments argument = Some old ->
  exists linked_p linked_d,
    selected (in_conflict similarity argument) (defense_track st) linked_p /\
    (add_prosecution_argument similarity st argument).2 = None /\
    lists (add_prosecution_argument similarity st argument).1
      !! counter_arguments argument
    = Some (old ++ map text linked_p) /\
    selected (in_conflict similarity argument) (prosecution_track st)
      linked_d /\
    (add_defense_argument similarity st argument).2 = None /\
    lists (add_defense_argument similarity st argument).1
      !! counter_arguments argument
    = Some (old ++ map text linked_d) /\
    forall opposing_arg,
      In opposing_arg (linked_p ++ linked_d) ->
      type opposing_arg = type argument /\
      exists sim,
        similarity (text argument) (text opposing_arg) = Some sim /\
        7 # 10 < sim.
Proof.
  intros Hold.
  exists (List.filter (_arguments_conflict similarity argument)
            (defense_track st)),
         (List.filter (_arguments_conflict similarity argument)
            (prosecution_track st)).
  assert (Hp : selected (in_conflict similarity argument) (defense_track st)
                 (List.filter (_arguments_conflict similarity argument)
                    (defense_track st)))
    by (apply selected_filter, arguments_conflict_iff).
  assert (Hd : selected (in_conflict similarity argument)
                 (prosecution_track st)
                 (List.filter (_arguments_conflict similarity argument)
                    (prosecution_track st)))
    by (apply selected_filter, arguments_conflict_iff).
  split; [exact Hp|].
  assert (Hlp : (add_prosecution_argument similarity st argument).2 = None /\
                lists (add_prosecution_argument similarity st argument).1
                  !! counter_arguments argument
                = Some (old ++ map text
                          (List.filter (_arguments_conflict similarity argument)
                             (defense_track st)))).
  { unfold add_prosecution_argument.
    match goal with
    | |- context [_analyze_argument_conflicts _ ?s _ ?sd] =>
        destruct (analyze_argument_conflicts_fst s argument sd)
          as (_ & _ & _ & _ & Hl & He)
    end.
    rewrite Hl, He. simpl. apply record_conflicts_links, Hold. }
  assert (Hld : (add_defense_argument similarity st argument).2 = None /\
                lists (add_defense_argument similarity st argument).1
                  !! counter_arguments argument
                = Some (old ++ map text
                          (List.filter (_arguments_conflict similarity argument)
                             (prosecution_track st)))).
  { unfold add_defense_argument.
    match goal with
    | |- context [_analyze_argument_conflicts _ ?s _ ?sd] =>
        destruct (analyze_argument_conflicts_fst s argument sd)
          as (_ & _ & _ & _ & Hl & He)
    end.
    rewrite Hl, He. simpl. apply record_conflicts_links, Hold. }
  destruct Hlp as [Hp2 Hp1]. destruct Hld as [Hd2 Hd1].
  split; [exact Hp2|]. split; [exact Hp1|].
  split; [exact Hd|]. split; [exact Hd2|]. split; [exact Hd1|].
  intros o Ho.
  assert (Hc : in_conflict similarity argument o).
  { apply in_app_or in Ho as [Ho|Ho].
    - apply selected_Forall in Hp. rewrite List.Forall_forall in Hp. auto.
    - apply selected_Forall in Hd. rewrite List.Forall_forall in Hd. auto. }
  destruct Hc as (Ht & Hs & _). split; [symmetry; exact Ht | exact Hs].
Qed.

(** One addition: the track of the side gets the argument at its end, the
    other track stays, and an argument apart from the new one reads as
    before. *)
Lemma add_frame (st : state) (o : addition) (a : Argument) :
  prosecution_track (add similarity st o)
  = prosecution_track st ++ on_prosecution [o] /\
  defense_track (add similarity st o) = defense_track st ++ on_defense [o] /\
  (apart a o ->
   observe (lists (add similarity st o)) a = observe (lists st) a).
Proof.
  destruct o as [argument|argument]; simpl.
  - unfold add_prosecution_argument.
    match goal with
    | |- context [_analyze_argument_conflicts _ ?s _ ?sd] =>
        destruct (analyze_argument_conflicts_fst s argument sd)
          as (Hp & Hd & _ & _ & Hl & _)
    end.
    rewrite Hp, Hd. simpl. rewrite app_nil_r. repeat split.
    intros [Hc Hs]. simpl in Hc, Hs.
    unfold observe. rewrite Hl, !record_conflicts_frame by assumption.
    reflexivity.
  - unfold add_defense_argument.
    match goal with
    | |- context [_analyze_argument_conflicts _ ?s _ ?sd] =>
        destruct (analyze_argument_conflicts_fst s argument sd)
          as (Hp & Hd & _ & _ & Hl & _)
    end.
    rewrite Hp, Hd. simpl. rewrite app_nil_r. repeat split.
    intros [Hc Hs]. simpl in Hc, Hs.
    unfold observe. rewrite Hl, !record_conflicts_frame by assumption.
    reflexivity.
Qed.

(** C9: a sequence of additions puts its arguments at the end of their
    tracks, in order, and changes no list of the store but the
    [counter_arguments] of the arguments it adds: every other argument,
    which has lists of its own, among them the arguments added before,
    reads after the sequence as before. *)
Theorem add_argument_frame (st : state) (os : list addition) (a : Argument) :
  Forall (apart a) os ->
  prosecution_track (add_all similarity st os)
  = prosecution_track st ++ on_prosecution os /\
  defense_track (add_all similarity st os)
  = defense_track st ++ on_defense os /\
  observe (lists (add_all similarity st os)) a = observe (lists st) a.
Proof.
  intros Hos. revert st.
  induction Hos as [|o os Ho Hos IH]; intros st.
  - simpl. rewrite !app_nil_r. auto.
  - unfold add_all. simpl fold_left.
    destruct (IH (add similarity st o)) as (Hp & Hd & Hobs).
    destruct (add_frame st o a) as (Hp1 & Hd1 & Hobs1).
    unfold add_all in Hp, Hd, Hobs.
    assert (Ep : on_prosecution (o :: os)
                 = on_prosecution [o] ++ on_prosecution os).
    { unfold on_prosecution. simpl. rewrite app_nil_r. reflexivity. }
    assert (Ed : on_defense (o :: os) = on_defense [o] ++ on_defense os).
    { unfold on_defense. simpl. rewrite app_nil_r. reflexivity. }
    rewrite Hp, Hd, Hobs, Hp1, Hd1, (Hobs1 Ho), Ep, Ed, <- !app_assoc. auto.
Qed.

End DualPerspectiveAnalysisProperties.

Example prosecution_claim_linked :
  DualPerspectiveAnalysis.lists
    (DualPerspectiveAnalysis.add_prosecution_argument sample_similarity
       after_defense_claim prosecution_claim).1 !! 4%positive
  = Some ["The record opposes the finding"].
Proof. vm_compute. reflexivity. Qed.

Lemma conflict_link_iff_witness :
  exists linked_p linked_d,
    selected (in_conflict sample_similarity prosecution_claim)
      (DualPerspectiveAnalysis.defense_track after_defense_claim) linked_p /\
    (DualPerspectiveAnalysis.add_prosecution_argument sample_similarity
       after_defense_claim prosecution_claim).2 = None /\
    DualPerspectiveAnalysis.lists
      (DualPerspectiveAnalysis.add_prosecution_argument sample_similarity
         after_defense_claim prosecution_claim).1 !! 4%positive
    = Some ([] ++ map DualPerspectiveAnalysis.text linked_p) /\
    selected (in_conflict sample_similarity prosecution_claim)
      (DualPerspectiveAnalysis.prosecution_track after_defense_claim)
      linked_d /\
    (DualPerspectiveAnalysis.add_defense_argument sample_similarity
       after_defense_claim prosecution_claim).2 = None /\
    DualPerspectiveAnalysis.lists
      (DualPerspectiveAnalysis.add_defense_argument sample_similarity
         after_defense_claim prosecution_claim).1 !! 4%positive
    = Some ([] ++ map DualPerspectiveAnalysis.text linked_d) /\
    forall opposing_arg,
      In opposing_arg (linked_p ++ linked_d) ->
      DualPerspectiveAnalysis.type opposing_arg
      = DualPerspectiveAnalysis.type prosecution_claim /\
      exists sim,
        sample_similarity (DualPerspectiveAnalysis.text prosecution_claim)
          (DualPerspectiveAnalysis.text opposing_arg) = Some sim /\
        (7 # 10 < sim)%Q.
Proof.
  apply (conflict_link_iff sample_similarity after_defense_claim
           prosecution_claim []).
  vm_compute. reflexivity.
Defined.

(** The argument of the defense reads the same after the addition of the
    argument of the prosecution that conflicts with it. *)
Lemma add_argument_frame_witness :
  DualPerspectiveAnalysis.prosecution_track
    (add_all sample_similarity after_defense_claim [Prosecution prosecution_claim])
  = DualPerspectiveAnalysis.prosecution_track after_defense_claim
    ++ on_prosecution [Prosecution prosecution_claim] /\
  DualPerspectiveAnalysis.defense_track
    (add_all sample_similarity after_defense_claim [Prosecution prosecution_claim])
  = DualPerspectiveAnalysis.defense_track after_defense_claim
    ++ on_defense [Prosecution prosecution_claim] /\
  DualPerspectiveAnalysis.observe
    (DualPerspectiveAnalysis.lists
       (add_all sample_similarity after_defense_claim
          [Prosecution prosecution_claim])) defense_claim
  = DualPerspectiveAnalysis.observe
      (DualPerspectiveAnalysis.lists after_defense_claim) defense_claim.
Proof.
  apply (add_argument_frame sample_similarity after_defense_claim
           [Prosecution prosecution_claim] defense_claim).
  repeat constructor; simpl; discriminate.
Defined.

(** * Further properties *)

(** ** Sorting: permutation, order, stability *)

Section SortedStable.
Context {A : Type} (gt : A -> A -> bool).

Lemma insert_desc_perm (x : A) (l : list A) :
  Permutation (insert_desc gt x l) (x :: l).
Proof.
  induction l as [|y l IH]; simpl; [reflexivity|].
  destruct (gt y x); [|reflexivity].
  rewrite IH. apply perm_swap.
Qed.

Lemma sorted_desc_perm (l : list A) : Permutation (sorted_desc gt l) l.
Proof.
  induction l as [|x l IH]; simpl; [reflexivity|].
  rewrite insert_desc_perm. constructor. exact IH.
Qed.

Lemma insert_desc_filter_out (p : A -> bool) (x : A) (l : list A) :
  p x = false ->
  List.filter p (insert_desc gt x l) = List.filter p l.
Proof.
  intros Hx. induction l as [|y l IH]; simpl; [rewrite Hx; reflexivity|].
  destruct (gt y x); simpl.
  - rewrite IH. reflexivity.
  - rewrite Hx. reflexivity.
Qed.

Lemma insert_desc_filter_in (p : A -> bool) (x : A) (l : list A) :
  p x = true ->
  (forall y, gt y x = true -> p y = false) ->
  List.filter p (insert_desc gt x l) = x :: List.filter p l.
Proof.
  intros Hx Hgt. induction l as [|y l IH]; simpl; [rewrite Hx; reflexivity|].
  destruct (gt y x) eqn:Hy; simpl.
  - rewrite (Hgt y Hy). exact IH.
  - rewrite Hx. reflexivity.
Qed.

(** The elements of a class that the comparison cannot tell apart keep
    their order. *)
Lemma sorted_desc_stable (p : A -> bool) (l : list A) :
  (forall x y, p x = true -> gt y x = true -> p y = false) ->
  List.filter p (sorted_desc gt l) = List.filter p l.
Proof.
  intros Hp. induction l as [|x l IH]; simpl; [reflexivity|].
  destruct (p x) eqn:Hx.
  - rewrite insert_desc_filter_in; [rewrite IH; reflexivity | exact Hx |].
    intros y. apply Hp, Hx.
  - rewrite insert_desc_filter_out by exact Hx. exact IH.
Qed.

Context (R : A -> A -> Prop).
Hypothesis gt_R : forall x y, gt x y = true -> R x y.
Hypothesis not_gt_R : forall x y, gt x y = false -> R y x.
Hypothesis R_trans : forall x y z, R x y -> R y z -> R x z.

Lemma insert_desc_ordered (x : A) (l : list A) :
  StronglySorted R l -> StronglySorted R (insert_desc gt x l).
Proof.
  induction 1 as [|y ys Hys IH Hy]; simpl.
  - repeat constructor.
  - destruct (gt y x) eqn:Hgt.
    + constructor; [exact IH|].
      apply List.Forall_forall. intros z Hz.
      apply insert_desc_In in Hz as [->|Hz]; [apply gt_R, Hgt|].
      rewrite List.Forall_forall in Hy. auto.
    + pose proof (not_gt_R y x Hgt) as Hxy.
      constructor; [constructor; assumption|].
      constructor; [exact Hxy|].
      rewrite List.Forall_forall in Hy |- *. intros z Hz. eauto.
Qed.

Lemma sorted_desc_ordered (l : list A) : StronglySorted R (sorted_desc gt l).
Proof.
  induction l as [|x l IH]; simpl; [constructor|].
  apply insert_desc_ordered, IH.
Qed.

End SortedStable.

(** ** WeaknessAnalysis: order, summary, precedents *)

Section WeaknessAnalysisFurther.
Import WeaknessAnalysis.
Local Open Scope Q_scope.

Variable sents : string -> list string.

Lemma prioritize_weaknesses_perm (ws : list Weakness) :
  Permutation (_prioritize_weaknesses ws) ws.
Proof. apply sorted_desc_perm. Qed.

Lemma prioritize_weaknesses_ordered (ws : list Weakness) :
  StronglySorted severity_ge (_prioritize_weaknesses ws).
Proof.
  apply sorted_desc_ordered; unfold severity_ge.
  - intros x y H. apply negb_true_iff, Qle_bool_false in H.
    apply Qlt_le_weak, H.
  - intros x y H. apply negb_false_iff, Qle_bool_iff in H. exact H.
  - intros x y z Hxy Hyz. eapply Qle_trans; eassumption.
Qed.

(** X1: [_prioritize_weaknesses] returns the same weaknesses (a
    permutation), in descending order of severity, and the weaknesses of
    one severity in the order they had. *)
Theorem prioritize_weaknesses_stable (ws : list Weakness) :
  Permutation (_prioritize_weaknesses ws) ws /\
  StronglySorted severity_ge (_prioritize_weaknesses ws) /\
  forall q,
    List.filter (has_severity q) (_prioritize_weaknesses ws)
    = List.filter (has_severity q) ws.
Proof.
  split; [apply prioritize_weaknesses_perm|].
  split; [apply prioritize_weaknesses_ordered|].
  unfold _prioritize_weaknesses.
  intros q. apply sorted_desc_stable. unfold has_severity.
  intros x y Hx Hy. apply Qeq_bool_iff in Hx.
  apply negb_true_iff, Qle_bool_false in Hy.
  apply Qeq_bool_false. intros E. rewrite Hx, E in Hy.
  exact (Qlt_irrefl _ Hy).
Qed.

Lemma group_by_type_from (ws : list Weakness) (t : string)
    (g : gmap string (list Weakness)) :
  fold_left
    (fun grouped weakness =>
       <[type weakness := default [] (grouped !! type weakness) ++ [weakness]]>
         grouped)
    ws g !! t
  = match List.filter (has_type t) ws with
    | [] => g !! t
    | l => Some (default [] (g !! t) ++ l)
    end.
Proof.
  revert g. induction ws as [|w ws IH]; intros g; simpl; [reflexivity|].
  rewrite IH. unfold has_type at 2.
  destruct (String.eqb_spec (type w) t) as [E|E].
  - rewrite E, lookup_insert_eq. simpl.
    destruct (List.filter (has_type t) ws); simpl;
      [reflexivity | rewrite <- app_assoc; reflexivity].
  - rewrite lookup_insert_ne by exact E. reflexivity.
Qed.

(** X2: the group of a type in [_group_by_type] is the list of the
    weaknesses of that type, in their order; a type without weakness has no
    group. *)
Theorem group_by_type_lookup (ws : list Weakness) (t : string) :
  _group_by_type ws !! t
  = match List.filter (has_type t) ws with
    | [] => None
    | l => Some l
    end.
Proof.
  unfold _group_by_type. rewrite group_by_type_from, lookup_empty.
  destruct (List.filter (has_type t) ws); reflexivity.
Qed.

Lemma analyze_evidence_reported (a : gmap string pyval) (ws : list Weakness) :
  _analyze_evidence a = Ok ws -> Forall reported ws.
Proof.
  unfold _analyze_evidence, reported.
  destruct (a !! "evidence") as [ev|]; [destruct (truthy ev)|];
    (destruct (a !! "evidence_quality") as [q|];
     [destruct (as_num q) as [x|]; [|discriminate]; simpl;
      destruct (Qlt_le_dec x (6 # 10))|]);
    simpl; intros [= <-];
    repeat (constructor; [auto|]); constructor.
Qed.

Lemma analyze_precedents_reported (a : gmap string pyval) (ws : list Weakness) :
  _analyze_precedents a = Ok ws -> Forall reported ws.
Proof.
  unfold _analyze_precedents.
  destruct (a !! "precedents") as [ps|]; [|intros [= <-]; constructor].
  destruct (iter ps) as [l|]; [|discriminate]. simpl. intros Hl.
  eapply (for_each_invariant (Forall reported)); [|constructor|exact Hl].
  intros s1 x s2 Hs1.
  destruct x as [| | | | | |d]; try discriminate.
  destruct (truthy _); intros [= <-]; [|exact Hs1].
  apply Forall_app. split; [exact Hs1|].
  constructor; [|constructor]. unfold reported. auto.
Qed.

Lemma collect_reported (arguments : list (gmap string pyval))
    (ws : list Weakness) :
  collect sents arguments = Ok ws -> Forall reported ws.
Proof.
  unfold collect. intros Hc.
  eapply (for_each_invariant (Forall reported)); [|constructor|exact Hc].
  intros s1 a s2 Hs1. unfold step.
  destruct (DataValidator.validate_argument a); [intros [= <-]; exact Hs1|].
  intros H.
  apply bind_Ok in H as (ev & Hev & H).
  apply bind_Ok in H as (lg & Hlg & H).
  apply bind_Ok in H as (pr & Hpr & H).
  injection H as <-.
  apply analyze_logic_Ok in Hlg as ->.
  rewrite !Forall_app.
  split; [split; [split; [exact Hs1|]|constructor]|];
    eauto using analyze_evidence_reported, analyze_precedents_reported.
Qed.

(** X3: every weakness in the result of [analyze] is one of three: the
    evidence gap (0.8), the evidence quality (0.7) or the distinguishable
    precedent (0.5); and the result is in descending order of severity. *)
Theorem analyze_reported_sorted (arguments : list (gmap string pyval)) :
  Forall reported (analyze sents arguments) /\
  StronglySorted severity_ge (analyze sents arguments).
Proof.
  unfold analyze.
  destruct (collect sents arguments) as [ws|e] eqn:Hc;
    [|split; constructor].
  split; [|apply prioritize_weaknesses_ordered].
  apply collect_reported in Hc.
  rewrite List.Forall_forall in Hc |- *. intros w Hw.
  apply Hc. eapply Permutation_in; [apply prioritize_weaknesses_perm|exact Hw].
Qed.

Lemma filter_ext_Forall {A : Type} (P : A -> Prop) (f g : A -> bool)
    (l : list A) :
  (forall x, P x -> f x = g x) -> Forall P l ->
  List.filter f l = List.filter g l.
Proof.
  intros Hfg. induction 1 as [|x l Hx Hl IH]; simpl; [reflexivity|].
  rewrite (Hfg x Hx), IH. reflexivity.
Qed.

(** X4: on a list of reported weaknesses, as [analyze] returns them, the
    summary counts as critical (severity over 0.7) the evidence gaps and no
    other weakness: the count is the size of the group "evidence_gap". *)
Theorem summary_critical_are_evidence_gaps (ws : list Weakness) :
  Forall reported ws ->
  total_weaknesses (get_summary ws) = List.length ws /\
  critical_weaknesses (get_summary ws)
  = List.length (default [] (by_type (get_summary ws) !! "evidence_gap")) /\
  (critical_weaknesses (get_summary ws) <= total_weaknesses (get_summary ws))%nat.
Proof.
  intros Hws. simpl. split; [reflexivity|].
  assert (E : List.filter (fun w => negb (Qle_bool (severity w) (7 # 10))) ws
              = List.filter (has_type "evidence_gap") ws).
  { apply (filter_ext_Forall reported); [|exact Hws].
    intros w [->|[->| ->]]; reflexivity. }
  split.
  - unfold _group_by_type. rewrite group_by_type_from, lookup_empty, E.
    destruct (List.filter (has_type "evidence_gap") ws); reflexivity.
  - rewrite E. apply List.filter_length_le.
Qed.

(** X5: when [precedents] is a list of dictionaries, [_analyze_precedents]
    returns one "precedent_weakness" for each precedent whose
    "distinguishable" is true, and nothing else. *)
Theorem analyze_precedents_count (a : gmap string pyval) (ps : list pyval) :
  a !! "precedents" = Some (PList ps) ->
  forallb DataValidator.is_dict ps = true ->
  _analyze_precedents a
  = Ok (repeat precedent_weakness
          (List.length (List.filter distinguishable ps))).
Proof.
  intros Ha Hps. unfold _analyze_precedents. rewrite Ha. simpl. clear Ha.
  assert (H : forall acc,
             for_each ps
               (fun weaknesses precedent =>
                  match precedent with
                  | PDict d =>
                      if truthy (default (PBool false) (d !! "distinguishable"))
                      then Ok (weaknesses ++ [precedent_weakness])
                      else Ok weaknesses
                  | _ => Raise AttributeError
                  end) acc
             = Ok (acc ++ repeat precedent_weakness
                            (List.length (List.filter distinguishable ps)))).
  { induction ps as [|p ps IH]; intros acc; simpl.
    - rewrite app_nil_r. reflexivity.
    - simpl in Hps. apply andb_true_iff in Hps as [Hp Hps].
      destruct p as [| | | | | |d]; try discriminate. simpl.
      destruct (truthy (default (PBool false) (d !! "distinguishable"))); simpl.
      + rewrite (IH Hps). rewrite <- app_assoc. reflexivity.
      + apply IH, Hps. }
  apply (H []).
Qed.

Lemma for_each_step_valid (arguments : list (gmap string pyval))
    (acc : list Weakness) :
  for_each arguments (step sents) acc
  = for_each (List.filter valid_argument arguments) (step sents) acc.
Proof.
  revert acc. induction arguments as [|a l IH]; intros acc; [reflexivity|].
  simpl. unfold valid_argument at 1.
  destruct (DataValidator.validate_argument a) eqn:Hv.
  - unfold step at 1. rewrite Hv. apply IH.
  - simpl. destruct (step sents acc a); [apply IH | reflexivity].
Qed.

(** X6: the arguments that do not pass the validation have no effect on
    the result of [analyze]: it is the result for the list of the valid
    arguments alone. *)
Theorem analyze_ignores_invalid (arguments : list (gmap string pyval)) :
  analyze sents arguments
  = analyze sents (List.filter valid_argument arguments).
Proof.
  unfold analyze, collect. rewrite for_each_step_valid. reflexivity.
Qed.

End WeaknessAnalysisFurther.

(** ** DataValidator *)

Section DataValidatorFurther.
Import DataValidator.

(** [validate_case_data] accepts a case exactly when it has the fields
    metadata, content and citations and its metadata is a dictionary. *)
Lemma validate_case_data_accepts (case_data : gmap string pyval) :
  validate_case_data case_data = None <->
  (exists md, case_data !! "metadata" = Some (PDict md)) /\
  is_Some (case_data !! "content") /\
  is_Some (case_data !! "citations").
Proof.
  unfold validate_case_data. simpl.
  destruct (case_data !! "metadata") as [m|];
    [|split; [discriminate | intros ((md & H) & _); discriminate]].
  destruct (case_data !! "content") as [c|];
    [|split; [discriminate | intros (_ & [x H] & _); discriminate]].
  destruct (case_data !! "citations") as [l|];
    [|split; [discriminate | intros (_ & _ & [x H]); discriminate]].
  destruct m; simpl; split; try discriminate; eauto;
    intros ((md & H) & _); discriminate.
Qed.

(** [validate_argument] accepts an argument exactly when it has the fields
    text, type and evidence, whatever their values. *)
Lemma validate_argument_accepts (argument : gmap string pyval) :
  validate_argument argument = None <->
  is_Some (argument !! "text") /\
  is_Some (argument !! "type") /\
  is_Some (argument !! "evidence").
Proof.
  unfold validate_argument. simpl.
  destruct (argument !! "text") as [t|];
    [|split; [discriminate | intros ([x H] & _); discriminate]].
  destruct (argument !! "type") as [ty|];
    [|split; [discriminate | intros (_ & [x H] & _); discriminate]].
  destruct (argument !! "evidence") as [e|];
    [|split; [discriminate | intros (_ & _ & [x H]); discriminate]].
  split; eauto.
Qed.

End DataValidatorFurther.

(** ** CaseAnalysis: time, citations, prediction, court level *)

Section CaseAnalysisFurther.
Import CaseAnalysis.
Local Open Scope Q_scope.

(** X7: the time weight is never under 0.1, is 0.1 from eighteen years of
    age on, is at most 1 for a year that is not in the future, and does not
    decrease when the year is more recent. *)
Theorem time_weight_monotone (now year1 year2 : Z) :
  (year1 <= year2)%Z ->
  1 # 10 <= _calculate_time_weight now year1 /\
  _calculate_time_weight now year1 <= _calculate_time_weight now year2 /\
  ((year2 <= now)%Z -> _calculate_time_weight now year2 <= 1) /\
  ((year1 <= now - 18)%Z -> _calculate_time_weight now year1 == 1 # 10).
Proof.
  intros H. unfold _calculate_time_weight.
  assert (Hq : inject_Z (now - year2) <= inject_Z (now - year1))
    by (rewrite <- Zle_Qle; lia).
  split; [apply Q.le_max_l|]. split; [|split].
  - apply Q.max_le_compat_l. lra.
  - intros Hy. apply Q.max_lub; [lra|].
    assert (inject_Z 0 <= inject_Z (now - year2)) by (rewrite <- Zle_Qle; lia).
    change (inject_Z 0) with 0 in *. lra.
  - intros Hy. apply Q.max_l.
    assert (inject_Z 18 <= inject_Z (now - year1)) by (rewrite <- Zle_Qle; lia).
    change (inject_Z 18) with 18 in *. lra.
Qed.

(** The score of a case record, by the three sub-scores. *)
Lemma relevance_of_case_record (now : Z) (case_data : gmap string pyval) :
  case_record case_data = true ->
  exists md score,
    case_data !! "metadata" = Some (PDict md) /\
    _calculate_relevance now case_data = Ok score /\
    score == Qmin ((time_weight now md + court_weight_of md
                    + citation_weight case_data) / 3) 1.
Proof.
  unfold case_record. intros H.
  destruct (case_data !! "metadata") as [[| | | | | |md]|] eqn:Hmd;
    try discriminate.
  apply andb_true_iff in H as [H Hcit].
  apply andb_true_iff in H as [Hdate Hcourt].
  exists md. rewrite court_weight_of_table.
  unfold _calculate_relevance, _calculate_time_weight, time_weight,
    citation_weight, citation_count.
  rewrite Hmd. simpl.
  destruct (md !! "date") as [[| | | |d| |]|]; try discriminate; simpl;
    (destruct (md !! "court") as [[| | | |s| |]|]; try discriminate; simpl);
    (destruct (case_data !! "citations") as [[| | | | |l|]|];
     try discriminate; simpl);
    try destruct (Strptime.strptime_year d); simpl;
    eexists; (split; [reflexivity|]); (split; [reflexivity|]);
    apply Qmin_1_compat; unfold Qdiv; lra.
Qed.

(** X8: a date that the format refuses counts as the current year: the
    case record gets the time weight 1, as a case of this year does. *)
Theorem malformed_date_is_current_year (now : Z)
    (case_data md : gmap string pyval) (d : string) :
  case_record case_data = true ->
  case_data !! "metadata" = Some (PDict md) ->
  md !! "date" = Some (PStr d) ->
  Strptime.strptime_year d = None ->
  _extract_year now (PStr d) = Ok now /\
  exists score,
    _calculate_relevance now case_data = Ok score /\
    score == Qmin ((1 + court_weight_of md + citation_weight case_data) / 3) 1.
Proof.
  intros Hrec Hmd Hd Hy. split; [simpl; rewrite Hy; reflexivity|].
  destruct (relevance_of_case_record now case_data Hrec)
    as (md' & score & Hmd' & Hok & Heq).
  assert (md' = md) as -> by congruence.
  exists score. split; [exact Hok|]. rewrite Heq.
  apply Qmin_1_compat.
  assert (Ht : time_weight now md == 1).
  { unfold time_weight. rewrite Hd, Hy. simpl.
    rewrite Z.sub_diag.
    change (inject_Z 0) with 0.
    rewrite Q.max_r by lra. lra. }
  rewrite Ht. reflexivity.
Qed.

Lemma citation_weight_mono (n m : nat) :
  (n <= m)%nat ->
  Qmin (inject_Z (Z.of_nat n) * (1 # 10)) 1
  <= Qmin (inject_Z (Z.of_nat m) * (1 # 10)) 1.
Proof.
  intros H. apply Q.min_le_compat_r.
  assert (inject_Z (Z.of_nat n) <= inject_Z (Z.of_nat m))
    by (rewrite <- Zle_Qle; lia).
  lra.
Qed.

Lemma citation_weight_saturated (n : nat) :
  (10 <= n)%nat -> Qmin (inject_Z (Z.of_nat n) * (1 # 10)) 1 == 1.
Proof.
  intros H. apply Q.min_r.
  assert (inject_Z 10 <= inject_Z (Z.of_nat n)) by (rewrite <- Zle_Qle; lia).
  change (inject_Z 10) with 10 in *. lra.
Qed.

(** X9: with more citations the relevance score of a case record does
    not decrease, and from ten citations on it does not change. *)
Theorem relevance_monotone_in_citations (now : Z)
    (case_data : gmap string pyval) (citations : list pyval) :
  case_record case_data = true ->
  (citation_count case_data <= List.length citations)%nat ->
  exists score score',
    _calculate_relevance now case_data = Ok score /\
    _calculate_relevance now (<["citations" := PList citations]> case_data)
    = Ok score' /\
    score <= score' /\
    ((10 <= citation_count case_data)%nat -> score == score').
Proof.
  intros Hrec Hlen.
  set (case_data' := <["citations" := PList citations]> case_data).
  assert (Hmeta : case_data' !! "metadata" = case_data !! "metadata").
  { unfold case_data'. apply lookup_insert_ne. discriminate. }
  assert (Hcit : case_data' !! "citations" = Some (PList citations)).
  { unfold case_data'. apply lookup_insert_eq. }
  assert (Hrec' : case_record case_data' = true).
  { unfold case_record in *. rewrite Hmeta, Hcit.
    apply andb_true_iff in Hrec as [H _]. rewrite H. reflexivity. }
  destruct (relevance_of_case_record now case_data Hrec)
    as (md & score & Hmd & Hok & Heq).
  destruct (relevance_of_case_record now case_data' Hrec')
    as (md' & score' & Hmd' & Hok' & Heq').
  assert (md' = md) as -> by congruence.
  exists score, score'. split; [exact Hok|]. split; [exact Hok'|].
  assert (Hc' : citation_count case_data' = List.length citations).
  { unfold citation_count. rewrite Hcit. reflexivity. }
  unfold citation_weight in Heq, Heq'. rewrite Hc' in Heq'.
  pose proof (citation_weight_mono _ _ Hlen) as Hmono.
  split.
  - rewrite Heq, Heq'. apply Q.min_le_compat_r. unfold Qdiv.
    apply Qmult_le_compat_r; [lra | apply Qinv_le_0_compat; lra].
  - intros H10. rewrite Heq, Heq'. apply Qmin_1_compat.
    rewrite (citation_weight_saturated _ H10).
    rewrite (citation_weight_saturated (List.length citations)) by lia.
    reflexivity.
Qed.

Lemma determine_court_level_Ok (case_data md : gmap string pyval) :
  case_data !! "metadata" = Some (PDict md) ->
  match md !! "court" with None => true | Some v => hashable v end = true ->
  exists level, _determine_court_level case_data = Ok level.
Proof.
  intros Hmd Hcourt. unfold _determine_court_level. rewrite Hmd. simpl.
  destruct (md !! "court") as [[| | | |s| |]|]; simpl in *;
    try discriminate; eauto;
    match goal with
    | |- context [precedent_weight !! ?k] =>
        destruct (precedent_weight !! k); eauto
    end.
Qed.

Lemma precedential_value_of_case_record (case_data : gmap string pyval) :
  case_record case_data = true ->
  exists value,
    _analyze_precedential_value case_data = Ok value /\
    n_citations value = citation_count case_data.
Proof.
  unfold case_record. intros H. apply andb_true_iff in H as [H Hcit].
  destruct (case_data !! "metadata") as [[| | | | | |md]|] eqn:Hmd;
    try discriminate.
  apply andb_true_iff in H as [_ Hcourt].
  destruct (determine_court_level_Ok case_data md Hmd Hcourt) as (level & Hl).
  unfold _analyze_precedential_value, citation_count. rewrite Hl. simpl.
  destruct (case_data !! "citations") as [[| | | | |l|]|]; try discriminate;
    simpl; eexists; split; reflexivity.
Qed.

Lemma relevance_nonneg (now : Z) (case_data md : gmap string pyval) :
  0 <= Qmin ((time_weight now md + court_weight_of md
              + citation_weight case_data) / 3) 1.
Proof.
  pose proof (time_weight_nonneg now md).
  pose proof (court_weight_of_nonneg md).
  pose proof (citation_weight_nonneg' case_data).
  apply Q.min_glb; [|lra]. unfold Qdiv.
  apply Qmult_le_0_compat; [lra | apply Qinv_le_0_compat; lra].
Qed.

(** The prediction for a case record, by the score and the number of
    citations. *)
Lemma predict_outcome_Ok (now : Z) (case_data : gmap string pyval) :
  case_record case_data = true ->
  exists score,
    _calculate_relevance now case_data = Ok score /\
    0 <= score /\
    ((10 <= citation_count case_data)%nat -> 1 # 3 <= score) /\
    let precedent := inject_Z (Z.of_nat (citation_count case_data)) / 100 in
    _predict_outcome now case_data
    = {| error := None;
         probability := (score + precedent) / 2;
         confidence := Qmin ((score + precedent) / 2 * (12 # 10)) 1;
         factors := Some (score, precedent) |}.
Proof.
  intros Hrec.
  destruct (relevance_of_case_record now case_data Hrec)
    as (md & score & Hmd & Hok & Heq).
  destruct (precedential_value_of_case_record case_data Hrec)
    as (value & Hval & Hn).
  exists score. split; [exact Hok|]. split; [|split].
  - rewrite Heq. apply relevance_nonneg.
  - intros H10. rewrite Heq. apply Q.min_glb; [|lra].
    unfold citation_weight. rewrite (citation_weight_saturated _ H10).
    pose proof (time_weight_nonneg now md).
    pose proof (court_weight_of_nonneg md).
    apply Qle_shift_div_l; lra.
  - unfold _predict_outcome. rewrite Hok. simpl. rewrite Hval. simpl.
    rewrite Hn. reflexivity.
Qed.

(** X10: for a case record [_predict_outcome] reports no error; the
    probability is the mean of the relevance score and a hundredth of the
    number of citations, it is not negative, and the confidence is in
    [0, 1]. *)
Theorem predict_outcome_of_case_record (now : Z)
    (case_data : gmap string pyval) :
  case_record case_data = true ->
  exists score,
    _calculate_relevance now case_data = Ok score /\
    error (_predict_outcome now case_data) = None /\
    probability (_predict_outcome now case_data)
    == (score + inject_Z (Z.of_nat (citation_count case_data)) / 100) / 2 /\
    0 <= probability (_predict_outcome now case_data) /\
    0 <= confidence (_predict_outcome now case_data) <= 1.
Proof.
  intros Hrec.
  destruct (predict_outcome_Ok now case_data Hrec)
    as (score & Hok & Hs & _ & Hp).
  simpl in Hp. exists score. rewrite Hp. simpl.
  assert (Hn : 0 <= inject_Z (Z.of_nat (citation_count case_data)) / 100).
  { unfold Qdiv. apply Qmult_le_0_compat; [|apply Qinv_le_0_compat; lra].
    change 0 with (inject_Z 0). rewrite <- Zle_Qle. lia. }
  assert (Hpos : 0 <= (score + inject_Z (Z.of_nat (citation_count case_data)) / 100) / 2).
  { unfold Qdiv at 1. apply Qmult_le_0_compat; [lra|].
    apply Qinv_le_0_compat; lra. }
  repeat split; try assumption; try reflexivity.
  - apply Q.min_glb; lra.
  - apply Q.le_min_r.
Qed.

(** X11: the probability is not capped: for a case record with two hundred
    citations or more it is over 1, and the confidence is 1. *)
Theorem predict_outcome_probability_over_one (now : Z)
    (case_data : gmap string pyval) :
  case_record case_data = true ->
  (200 <= citation_count case_data)%nat ->
  1 < probability (_predict_outcome now case_data) /\
  confidence (_predict_outcome now case_data) == 1.
Proof.
  intros Hrec H200.
  destruct (predict_outcome_Ok now case_data Hrec)
    as (score & Hok & _ & Hs & Hp).
  simpl in Hp. rewrite Hp. simpl.
  assert (Hs' : 1 # 3 <= score) by (apply Hs; lia).
  assert (Hn : 2 <= inject_Z (Z.of_nat (citation_count case_data)) / 100).
  { assert (inject_Z 200 <= inject_Z (Z.of_nat (citation_count case_data)))
      by (rewrite <- Zle_Qle; lia).
    change (inject_Z 200) with 200 in *. apply Qle_shift_div_l; lra. }
  assert (Hp1 : 1 < (score + inject_Z (Z.of_nat (citation_count case_data)) / 100) / 2).
  { apply Qlt_shift_div_l; lra. }
  split; [exact Hp1|]. apply Q.min_r. lra.
Qed.

(** X12: when the relevance score raises, [_predict_outcome] does not: it
    returns the error with the probability 0.5 and the confidence 0. *)
Theorem predict_outcome_degraded (now : Z) (case_data : gmap string pyval) :
  is_ok (_calculate_relevance now case_data) = false ->
  exists e,
    _predict_outcome now case_data
    = {| error := Some e; probability := 5 # 10; confidence := 0;
         factors := None |}.
Proof.
  intros H. unfold _predict_outcome.
  destruct (_calculate_relevance now case_data) as [score|e];
    [discriminate|].
  exists e. reflexivity.
Qed.

(** X13: [_determine_court_level] gives "Other" to a case without metadata
    and to a court that is not in the table, and gives no other level than
    the three courts of the table and "Other". *)
Theorem determine_court_level_values (case_data : gmap string pyval)
    (level : string) :
  _determine_court_level case_data = Ok level ->
  In level ["Supreme Court"; "Circuit Court"; "District Court"; "Other"] /\
  (level = "Other" \/
   4 # 10 < default (4 # 10) (precedent_weight !! level)).
Proof.
  unfold _determine_court_level.
  destruct (default (PDict ∅) (case_data !! "metadata")) as [| | | | | |md];
    try discriminate.
  simpl.
  destruct (default (PStr "") (md !! "court")) as [| | | |s| |];
    simpl; try discriminate;
    try (intros [= <-]; split; [simpl; tauto | left; reflexivity]).
  unfold precedent_weight.
  repeat (rewrite lookup_insert; case_decide;
          [subst s; simpl; intros [= <-];
           split; [simpl; tauto | right; vm_compute; reflexivity]|]).
  rewrite lookup_empty. intros [= <-]. split; [simpl; tauto | left; reflexivity].
Qed.

(** X14: [analyze] returns on no case: [_analyze_citations] calls a method
    that the class does not have, so every call raises, with that
    [AttributeError] when nothing raised before it. *)
Theorem analyze_always_raises (now : Z) (case_data : gmap string pyval) :
  is_ok (analyze now case_data) = false /\
  is_ok (_analyze_citations case_data) = false /\
  (case_record case_data = true ->
   is_Some (case_data !! "content") ->
   analyze now case_data = Raise AttributeError \/
   analyze now case_data = Raise TypeError).
Proof.
  assert (Hc : is_ok (_analyze_citations case_data) = false).
  { unfold _analyze_citations.
    destruct (len _); [|reflexivity]. simpl.
    destruct (iter _) as [l|]; [|reflexivity]. simpl.
    destruct (forallb hashable l); reflexivity. }
  assert (Ha : is_ok (analyze now case_data) = false).
  { unfold analyze.
    destruct (_calculate_relevance now case_data); [|reflexivity]. simpl.
    destruct (_analyze_precedential_value case_data); [|reflexivity]. simpl.
    destruct (_extract_key_points case_data); [|reflexivity]. simpl.
    destruct (_analyze_citations case_data); [discriminate | reflexivity]. }
  split; [exact Ha|]. split; [exact Hc|].
  intros Hrec [content Hcontent].
  destruct (relevance_of_case_record now case_data Hrec)
    as (md & score & _ & Hok & _).
  destruct (precedential_value_of_case_record case_data Hrec)
    as (value & Hval & _).
  unfold analyze. rewrite Hok. simpl. rewrite Hval. simpl.
  unfold _extract_key_points. rewrite Hcontent.
  destruct content; simpl; auto.
  unfold _analyze_citations. unfold case_record in Hrec.
  apply andb_true_iff in Hrec as [_ Hcit].
  destruct (case_data !! "citations") as [[| | | | |l|]|]; try discriminate;
    simpl; [destruct (forallb hashable l); simpl|]; auto.
Qed.

End CaseAnalysisFurther.

(** ** CaseAnalysis: key points *)

Section KeyPoints.
Import CaseAnalysis.

Lemma lower_ascii_stop (c : ascii) :
  lower_ascii c = "."%char -> c = "."%char.
Proof.
  destruct c as [[] [] [] [] [] [] [] []]; vm_compute; intros H;
    first [reflexivity | discriminate H].
Qed.

Lemma lower_ascii_newline (c : ascii) :
  lower_ascii c = "010"%char -> c = "010"%char.
Proof.
  destruct c as [[] [] [] [] [] [] [] []]; vm_compute; intros H;
    first [reflexivity | discriminate H].
Qed.

Lemma one_line_append (a b : string) :
  one_line (String.append a b) = one_line a && one_line b.
Proof.
  induction a as [|c a IH]; simpl; [reflexivity|].
  rewrite IH, !andb_assoc. reflexivity.
Qed.

Lemma lazy_to_stop_one_line (s m : string) :
  lazy_to_stop s = Some m -> one_line m = true.
Proof.
  revert m. induction s as [|c s IH]; intros m; simpl; [discriminate|].
  destruct (Ascii.eqb c ".") eqn:Hstop; [intros [= <-]; reflexivity|].
  destruct (Ascii.eqb c "010") eqn:Hnl; [discriminate|].
  destruct (lazy_to_stop s) as [m'|]; [|discriminate].
  intros [= <-]. simpl. rewrite Hstop, Hnl. simpl. apply IH. reflexivity.
Qed.

Lemma prefix_ignorecase_one_line (literal s : string) :
  prefix_ignorecase literal s = true -> one_line literal = true ->
  one_line (str_take (String.length literal) s) = true.
Proof.
  revert s. induction literal as [|a literal IH]; intros s; simpl;
    [reflexivity|].
  destruct s as [|b s]; [discriminate|].
  intros H Hl. apply andb_true_iff in H as [Hab H].
  apply andb_true_iff in Hl as [Ha Hl].
  apply andb_true_iff in Ha as [Hstop Hnl].
  apply Ascii.eqb_eq in Hab. simpl.
  rewrite (IH s H Hl), andb_true_r.
  apply andb_true_iff. split; apply negb_true_iff, Ascii.eqb_neq; intros ->.
  - apply lower_ascii_stop in Hab. subst a. discriminate.
  - apply lower_ascii_newline in Hab. subst a. discriminate.
Qed.

Lemma match_at_one_line (literal s m : string) :
  one_line literal = true -> match_at literal s = Some m -> one_line m = true.
Proof.
  intros Hl. unfold match_at.
  destruct (prefix_ignorecase literal s) eqn:Hp; [|discriminate].
  destruct (lazy_to_stop _) as [m'|] eqn:Hm; [|discriminate].
  intros [= <-]. rewrite one_line_append.
  rewrite (prefix_ignorecase_one_line _ _ Hp Hl).
  apply (lazy_to_stop_one_line _ _ Hm).
Qed.

Lemma finditer_one_line (literal : string) (skip : nat) (s : string) :
  one_line literal = true ->
  Forall (fun m => one_line m = true) (finditer literal skip s).
Proof.
  intros Hl. revert skip. induction s as [|c s IH]; intros skip; simpl;
    [constructor|].
  destruct skip as [|k]; [|apply IH].
  destruct (match_at literal (String c s)) as [m|] eqn:Hm; [|apply IH].
  constructor; [exact (match_at_one_line _ _ _ Hl Hm) | apply IH].
Qed.

Lemma no_stop_lazy (s : string) :
  contains "." s = false -> lazy_to_stop s = None.
Proof.
  induction s as [|c s IH]; simpl; [reflexivity|].
  intros H. apply orb_false_iff in H as [Hp Hc].
  destruct (Ascii.eqb_spec c ".") as [->|Hne].
  { simpl in Hp. destruct (ascii_dec "." ".") as [_|n];
      [destruct s; discriminate Hp | contradiction n; reflexivity]. }
  destruct (Ascii.eqb c "010"); [reflexivity|].
  rewrite (IH Hc). reflexivity.
Qed.

Lemma no_stop_drop (n : nat) (s : string) :
  contains "." s = false -> contains "." (str_drop n s) = false.
Proof.
  revert s. induction n as [|n IH]; intros s H; [destruct s; exact H|].
  destruct s as [|c s]; [exact H|]. simpl.
  apply IH. simpl in H. apply orb_false_iff in H as [_ H]. exact H.
Qed.

Lemma no_stop_finditer (literal : string) (skip : nat) (s : string) :
  contains "." s = false -> finditer literal skip s = [].
Proof.
  revert skip. induction s as [|c s IH]; intros skip H; [reflexivity|].
  assert (Hs : contains "." s = false).
  { simpl in H. apply orb_false_iff in H as [_ H]. exact H. }
  simpl finditer. destruct skip as [|k]; [|apply IH, Hs].
  unfold match_at. destruct (prefix_ignorecase literal (String c s));
    [|apply IH, Hs].
  rewrite (no_stop_lazy _ (no_stop_drop _ _ H)). apply IH, Hs.
Qed.

(** X15: the key points of a content each lie within one line and have no
    full stop; a content without a full stop has no key point. *)
Theorem key_points_one_line (case_data : gmap string pyval) (content : string) :
  case_data !! "content" = Some (PStr content) ->
  exists key_points,
    _extract_key_points case_data = Ok key_points /\
    Forall (fun kp => one_line kp = true) key_points /\
    (contains "." content = false -> key_points = []).
Proof.
  intros Hc. unfold _extract_key_points. rewrite Hc.
  eexists. split; [reflexivity|]. split.
  - unfold _find_holdings, _extract_reasoning, holding_patterns,
      reasoning_patterns. simpl.
    rewrite !app_nil_r, !Forall_app.
    repeat split; apply finditer_one_line; reflexivity.
  - intros H. unfold _find_holdings, _extract_reasoning, holding_patterns,
      reasoning_patterns. simpl.
    rewrite !(no_stop_finditer _ _ _ H). reflexivity.
Qed.

Example key_points_of_test_case :
  _extract_key_points test_case_data = Ok ["The Court holds that"].
Proof. vm_compute. reflexivity. Qed.

Example key_points_two_sentences :
  _find_holdings "First, we hold that A is B. WE HOLD THAT C
is D. It is hereby held that E." ++
  _extract_reasoning "This is so because X. Therefore Y"
  = ["we hold that A is B"; "It is hereby held that E"; "because X"].
Proof. vm_compute. reflexivity. Qed.

End KeyPoints.

(** ** PointWeighting: ranges, decay, proportions *)

Section PointWeightingFurther.
Import PointWeighting.
Local Open Scope Q_scope.

Lemma court_hierarchy_ceiling (s : string) :
  default (4 # 10) (court_hierarchy_weights !! s) <= 1.
Proof.
  unfold court_hierarchy_weights.
  repeat (rewrite lookup_insert; case_decide; [simpl; lra|]).
  rewrite lookup_empty. simpl. lra.
Qed.

Lemma hierarchy_weight_ceiling (case : gmap string pyval) (h : Q) :
  _calculate_hierarchy_weight case = Ok h -> h <= 1.
Proof.
  unfold _calculate_hierarchy_weight.
  destruct (default (PStr "District Court") (case !! "court_type"));
    simpl; intros [= <-]; try lra.
  apply court_hierarchy_ceiling.
Qed.

Lemma outcome_impact_ceiling (case : gmap string pyval) :
  _calculate_outcome_impact case <= 1.
Proof.
  unfold _calculate_outcome_impact, impact_factors. simpl.
  repeat match goal with
         | |- context [truthy ?v] => destruct (truthy v)
         end; lra.
Qed.

Lemma relevance_weight_ceiling (case : gmap string pyval) (r : Q) :
  _calculate_relevance_weight case = Ok r -> r <= 1.
Proof.
  unfold _calculate_relevance_weight. intros H.
  apply bind_Ok in H as (x & _ & H).
  apply bind_Ok in H as (y & _ & H).
  injection H as <-. apply Q.le_min_r.
Qed.

Lemma citation_weight_ceiling (case : gmap string pyval) (c : Q) :
  _calculate_citation_weight case = Ok c -> c <= 1.
Proof.
  unfold _calculate_citation_weight. intros H.
  apply bind_Ok in H as (x & _ & H).
  apply bind_Ok in H as (y & _ & H). injection H as <-. apply Q.le_min_r.
Qed.

(** X16: on a case of the domain the five raw scores are defined; the
    relevance, the citation frequency and the outcome impact are in [0, 1],
    the court hierarchy is in [0.4, 1], and the temporal relevance is
    positive. *)
Theorem raw_weights_ranges (now : Z) (case : gmap string pyval) :
  in_domain case = true ->
  exists r c h o t,
    raw_weights now case
    = Ok [("relevance", r); ("citation_frequency", c); ("court_hierarchy", h);
          ("case_outcome_impact", o); ("temporal_relevance", t)] /\
    (0 <= r <= 1) /\ (0 <= c <= 1) /\ (4 # 10 <= h <= 1) /\
    (0 <= o <= 1) /\ 0 < t.
Proof.
  unfold in_domain. rewrite !andb_true_iff.
  intros [[[[Hk Hcs] Hcc] Hct] Hd].
  destruct (relevance_weight_nonneg case Hk Hcs) as (r & Hr & Hr0).
  destruct (citation_weight_nonneg case Hcc) as (c & Hc & Hc0).
  destruct (hierarchy_weight_Ok case Hct) as (h & Hh).
  destruct (temporal_weight_Ok now case Hd) as (t & Ht).
  exists r, c, h, (_calculate_outcome_impact case), t.
  split; [unfold raw_weights; rewrite Hr, Hc, Hh, Ht; reflexivity|].
  repeat split;
    eauto using relevance_weight_ceiling, citation_weight_ceiling,
      hierarchy_weight_floor, hierarchy_weight_ceiling, outcome_impact_nonneg,
      outcome_impact_ceiling, temporal_weight_pos.
Qed.

Lemma decay_lt_1 (k : Z) : (0 < k)%Z -> time_decay_factor ^ k < 1.
Proof.
  intros Hk. unfold time_decay_factor.
  assert (E : 98 # 100 == / (100 # 98)) by reflexivity.
  rewrite E, Qinv_power.
  assert (H1 : 1 < (100 # 98) ^ k) by (apply Qpower_1_lt; [reflexivity | exact Hk]).
  apply Qlt_shift_inv_r; lra.
Qed.

(** The decay is strictly slower for the more recent year. *)
Lemma decay_strict (a b : Z) :
  (b < a)%Z -> time_decay_factor ^ a < time_decay_factor ^ b.
Proof.
  intros H. replace a with (b + (a - b))%Z by lia.
  rewrite Qpower_plus by (unfold time_decay_factor; discriminate).
  assert (Hb : 0 < time_decay_factor ^ b)
    by (apply Qpower_0_lt; reflexivity).
  assert (Hd : time_decay_factor ^ (a - b) < 1) by (apply decay_lt_1; lia).
  assert (Hd0 : 0 < time_decay_factor ^ (a - b))
    by (apply Qpower_0_lt; reflexivity).
  nra.
Qed.

(** X17: with a date in the format, the temporal relevance is 0.98 to the
    power of the age in years: it is 1 for a case of the current year, and
    of two cases the one of the more recent year has the strictly greater
    temporal relevance. *)
Theorem temporal_weight_decay (now : Z) (case1 case2 : gmap string pyval)
    (d1 d2 : string) (y1 y2 : Z) :
  case1 !! "date" = Some (PStr d1) -> Strptime.strptime_year d1 = Some y1 ->
  case2 !! "date" = Some (PStr d2) -> Strptime.strptime_year d2 = Some y2 ->
  (y1 < y2)%Z ->
  exists t1 t2,
    _calculate_temporal_weight now case1 = Ok t1 /\
    _calculate_temporal_weight now case2 = Ok t2 /\
    t1 < t2 /\
    (y2 = now -> t2 == 1).
Proof.
  intros H1 Hy1 H2 Hy2 Hlt. unfold _calculate_temporal_weight.
  rewrite H1, Hy1, H2, Hy2. eexists. eexists.
  split; [reflexivity|]. split; [reflexivity|]. split.
  - apply decay_strict. lia.
  - intros ->. rewrite Z.sub_diag. reflexivity.
Qed.

(** X18: when [weight_points] returns, the raw scores were defined and
    their sum was not 0, and the result has the keys of the raw scores, in
    their order, each with its raw score divided by the sum. *)
Theorem weight_points_proportional (now : Z) (case : gmap string pyval) :
  is_ok (weight_points now case) = true ->
  exists ws,
    raw_weights now case = Ok ws /\
    ~ sum_values ws == 0 /\
    weight_points now case
    = Ok (map (fun kv => (fst kv, snd kv / sum_values ws)) ws).
Proof.
  unfold weight_points. intros H.
  destruct (raw_weights now case) as [ws|e] eqn:Hws; [|discriminate].
  exists ws. split; [reflexivity|].
  change (is_ok (normalize (sum_values ws) ws) = true) in H.
  change (~ sum_values ws == 0 /\
          normalize (sum_values ws) ws
          = Ok (map (fun kv => (fst kv, snd kv / sum_values ws)) ws)).
  destruct (Qeq_dec (sum_values ws) 0) as [Hz|Hnz].
  - apply raw_weights_Ok in Hws as (r & c & h & t & _ & _ & _ & _ & ->).
    rewrite normalize_zero in H; [discriminate | exact Hz | discriminate].
  - split; [exact Hnz | apply normalize_nonzero, Hnz].
Qed.

End PointWeightingFurther.

(** ** StrategySuggestionEngine: decision table, inputs read, defaults *)

Section StrategySuggestionEngineFurther.
Import StrategySuggestionEngine.
Local Open Scope Q_scope.

Lemma gtb_true (x y : Q) : gtb x y = true <-> y < x.
Proof. unfold gtb. rewrite negb_true_iff. apply Qle_bool_false. Qed.

Lemma gtb_false (x y : Q) : gtb x y = false <-> x <= y.
Proof. unfold gtb. rewrite negb_false_iff. apply Qle_bool_iff. Qed.

Lemma ltb_true (x y : Q) : ltb x y = true <-> x < y.
Proof. unfold ltb. rewrite negb_true_iff. apply Qle_bool_false. Qed.

Lemma ltb_false (x y : Q) : ltb x y = false <-> y <= x.
Proof. unfold ltb. rewrite negb_false_iff. apply Qle_bool_iff. Qed.

(** X19: for strengths in [0, 1] the primary strategy has priority 1 and a
    success probability in [0, 1]; it is aggressive exactly when the case
    strength is over 0.7 and the opposition strength under 0.5, with a
    probability over 0.7, and defensive exactly when the opposition
    strength is over 0.7, with a probability under 0.3. *)
Theorem primary_strategy_table (case_strength opposition_strength : Q) :
  0 <= case_strength <= 1 ->
  0 <= opposition_strength <= 1 ->
  exists p,
    _generate_primary_strategy case_strength opposition_strength = Ok p /\
    priority p = 1%Z /\
    0 <= success_probability p <= 1 /\
    (type p = AGGRESSIVE <->
     7 # 10 < case_strength /\ opposition_strength < 5 # 10) /\
    (type p = DEFENSIVE <-> 7 # 10 < opposition_strength) /\
    (type p = AGGRESSIVE -> 7 # 10 < success_probability p) /\
    (type p = DEFENSIVE -> success_probability p < 3 # 10).
Proof.
  intros [Hc0 Hc1] [Ho0 Ho1]. unfold _generate_primary_strategy.
  destruct (gtb case_strength (7 # 10)) eqn:Hg;
    destruct (ltb opposition_strength (5 # 10)) eqn:Hl;
    destruct (gtb opposition_strength (7 # 10)) eqn:Hd; simpl;
    rewrite ?gtb_true, ?gtb_false, ?ltb_true, ?ltb_false in *;
    eexists; (split; [reflexivity|]); simpl;
    (split; [reflexivity|]);
    (split; [split; try lra;
             try (apply Qle_shift_div_l; lra);
             try (apply Qle_shift_div_r; lra)|]);
    repeat split; intros; try discriminate; try lra;
    try (exfalso; lra);
    repeat match goal with H : _ /\ _ |- _ => destruct H end;
    try (exfalso; lra).
Qed.

Lemma lookups_agree (a1 a2 : gmap string pyval) :
  Forall (fun k => a1 !! k = a2 !! k) score_keys ->
  a1 !! "evidence_score" = a2 !! "evidence_score" /\
  a1 !! "precedent_score" = a2 !! "precedent_score" /\
  a1 !! "coherence_score" = a2 !! "coherence_score" /\
  a1 !! "counter_argument_strength" = a2 !! "counter_argument_strength" /\
  a1 !! "opposing_evidence_strength" = a2 !! "opposing_evidence_strength".
Proof.
  unfold score_keys. intros H.
  repeat match goal with
         | H : Forall _ (_ :: _) |- _ => inversion_clear H
         end.
  auto.
Qed.

(** X20: [suggest] reads the five score keys of the analysis and nothing
    else: two analyses that agree on them get the same result, error
    included. *)
Theorem suggest_reads_scores_only (a1 a2 : gmap string pyval) :
  Forall (fun k => a1 !! k = a2 !! k) score_keys ->
  suggest a1 = suggest a2.
Proof.
  intros H. apply lookups_agree in H as (He & Hp & Hc & Hca & Hoe).
  unfold suggest, _evaluate_case_strength, _evaluate_opposition_strength,
    _generate_supplementary_strategies.
  rewrite He, Hp, Hc, Hca, Hoe. reflexivity.
Qed.

(** X21: an analysis with none of the five score keys, such as the case
    analysis that the integrator passes, gets one strategy only: the
    balanced one, with the success probability 0.5. *)
Theorem suggest_without_scores (analysis : gmap string pyval) :
  Forall (fun k => analysis !! k = None) score_keys ->
  exists p,
    suggest analysis = Ok [p] /\
    type p = BALANCED /\ priority p = 1%Z /\
    success_probability p == 5 # 10.
Proof.
  intros H.
  assert (E : suggest analysis = suggest ∅).
  { assert (H' : Forall (fun k => analysis !! k
                                 = (∅ : gmap string pyval) !! k) score_keys).
    { eapply Forall_impl; [exact H|]. simpl. intros k ->.
      rewrite lookup_empty. reflexivity. }
    apply lookups_agree in H' as (He & Hp & Hc & Hca & Hoe).
    unfold suggest, _evaluate_case_strength, _evaluate_opposition_strength,
      _generate_supplementary_strategies.
    rewrite He, Hp, Hc, Hca, Hoe. reflexivity. }
  rewrite E. eexists. split; [vm_compute; reflexivity|].
  repeat split.
Qed.

(** X22: on an analysis whose score fields are absent or numbers within
    the bound (of magnitude at most 2^1022), [suggest] returns two
    strategies when the precedent score is over 0.7, the precedent-focused
    one with the precedent score as its success probability and then the
    primary one, and the primary one alone otherwise. *)
Theorem suggest_supplementary_iff (analysis : gmap string pyval) :
  scores_numeric analysis = true ->
  exists l precedent_score,
    suggest analysis = Ok l /\
    as_num (default (PInt 0) (analysis !! "precedent_score"))
    = Ok precedent_score /\
    (7 # 10 < precedent_score ->
     exists s p,
       l = [s; p] /\ type s = PRECEDENT_FOCUSED /\
       success_probability s = precedent_score /\ priority p = 1%Z) /\
    (precedent_score <= 7 # 10 ->
     exists p, l = [p] /\ priority p = 1%Z).
Proof.
  intros H.
  destruct (suggest_Ok analysis H)
    as (cs & os & primary & supp & _ & _ & Hprim & Hsupp & Hsug).
  assert (Hp1 : priority primary = 1%Z).
  { destruct (primary_strategy_Ok cs os) as (p' & Hp' & Hpr). congruence. }
  assert (Hnum : numeric_or_absent (analysis !! "precedent_score") = true).
  { unfold scores_numeric in H. rewrite !andb_true_iff in H.
    apply bounded_numeric. tauto. }
  destruct (numeric_default _ (PInt 0) 0 eq_refl Hnum) as (ps & Hps).
  unfold _generate_supplementary_strategies in Hsupp.
  rewrite Hps in Hsupp. simpl in Hsupp.
  exists (sorted_desc (key_gt priority) (primary :: supp)), ps.
  split; [exact Hsug|]. split; [exact Hps|].
  destruct (gtb ps (7 # 10)) eqn:Hg; injection Hsupp as <-.
  - apply gtb_true in Hg. split.
    + intros _. simpl. unfold key_gt. simpl. rewrite Hp1. simpl.
      eexists. eexists. split; [reflexivity|]. auto.
    + intros Hle. exfalso. lra.
  - apply gtb_false in Hg. split.
    + intros Hlt. exfalso. lra.
    + intros _. exists primary. auto.
Qed.

Lemma unit_default (o : option pyval) :
  unit_or_absent o = true ->
  exists x, as_num (default (PNum (5 # 10)) o) = Ok x /\ 0 <= x <= 1.
Proof.
  destruct o as [v|]; simpl; [|exists (5 # 10); split; [reflexivity | lra]].
  destruct (as_num v) as [x|]; [|discriminate].
  intros H. apply andb_true_iff in H as [H0 H1].
  apply Qle_bool_iff in H0, H1. eauto.
Qed.

Lemma unit_bounded (x : Q) : 0 <= x <= 1 -> Qabs x <= inject_Z score_bound.
Proof.
  intros [H0 H1]. rewrite (Qabs_pos _ H0).
  eapply Qle_trans; [exact H1|]. vm_compute. discriminate.
Qed.

(** X23: when the scores are absent or numbers in [0, 1], the case strength
    and the opposition strength are defined and in [0, 1]. *)
Theorem strengths_in_unit_interval (analysis : gmap string pyval) :
  forallb (fun k => unit_or_absent (analysis !! k)) score_keys = true ->
  exists case_strength opposition_strength,
    _evaluate_case_strength analysis = Ok case_strength /\
    _evaluate_opposition_strength analysis = Ok opposition_strength /\
    0 <= case_strength <= 1 /\
    0 <= opposition_strength <= 1.
Proof.
  simpl. rewrite !andb_true_iff. intros (He & Hp & Hc & Hca & Hoe & _).
  destruct (unit_default _ He) as (e & He' & He1).
  destruct (unit_default _ Hp) as (p & Hp' & Hp1).
  destruct (unit_default _ Hc) as (c & Hc' & Hc1).
  destruct (unit_default _ Hca) as (ca & Hca' & Hca1).
  destruct (unit_default _ Hoe) as (oe & Hoe' & Hoe1).
  destruct (case_strength_Ok analysis e p c) as (cs & Hcs & Hcsv);
    try (split; [assumption | apply unit_bounded; assumption]).
  destruct (opposition_strength_Ok analysis ca oe) as (os & Hos & Hosv);
    try (split; [assumption | apply unit_bounded; assumption]).
  exists cs, os. split; [exact Hcs|]. split; [exact Hos|].
  rewrite Hcsv, Hosv.
  repeat split;
    first [apply Qle_shift_div_l; lra | apply Qle_shift_div_r; lra].
Qed.

End StrategySuggestionEngineFurther.

(** ** DualPerspectiveAnalysis: symmetry, store, strengths, summary *)

Section DualPerspectiveAnalysisFurther.
Import DualPerspectiveAnalysis.
Local Open Scope Q_scope.

Variable similarity : string -> string -> option Q.

Lemma existsb_pointwise {A : Type} (f g : A -> bool) (l : list A) :
  (forall x, f x = g x) -> existsb f l = existsb g l.
Proof.
  intros H. induction l as [|x l IH]; simpl; [reflexivity|].
  rewrite H, IH. reflexivity.
Qed.

(** X24: when the similarity of the two texts does not depend on their
    order, neither does the conflict of the two arguments. *)
Theorem arguments_conflict_symmetric (arg1 arg2 : Argument) :
  similarity (text arg1) (text arg2) = similarity (text arg2) (text arg1) ->
  _arguments_conflict similarity arg1 arg2
  = _arguments_conflict similarity arg2 arg1.
Proof.
  intros Hs. unfold _arguments_conflict. rewrite Hs.
  assert (Ht : bool_decide (type arg1 = type arg2)
               = bool_decide (type arg2 = type arg1)).
  { apply bool_decide_ext. split; congruence. }
  rewrite Ht.
  destruct (bool_decide (type arg2 = type arg1)); cbn [negb]; [|reflexivity].
  destruct (similarity (text arg2) (text arg1)) as [sim|]; [|reflexivity].
  destruct (Qle_bool sim (7 # 10)); cbn [negb]; [reflexivity|].
  apply existsb_pointwise. intros [pos neg].
  rewrite orb_comm.
  rewrite (andb_comm (contains neg (lower (text arg1)))).
  rewrite (andb_comm (contains pos (lower (text arg1)))).
  reflexivity.
Qed.

Lemma record_conflicts_extends (argument : Argument)
    (opposing : list Argument) (h : gmap loc (list string)) (l : loc)
    (xs : list string) :
  h !! l = Some xs ->
  exists ys,
    (record_conflicts similarity argument opposing h).1 !! l = Some (xs ++ ys).
Proof.
  revert h xs. induction opposing as [|o rest IH]; intros h xs Hl; simpl.
  - exists []. rewrite app_nil_r. exact Hl.
  - destruct (_arguments_conflict similarity argument o); [|apply IH, Hl].
    unfold append.
    destruct (h !! counter_arguments argument) as [old|] eqn:Hold;
      [|exists []; rewrite app_nil_r; exact Hl].
    destruct (decide (l = counter_arguments argument)) as [->|Hne].
    + assert (old = xs) as -> by congruence.
      destruct (IH (<[counter_arguments argument := xs ++ [text o]]> h)
                  (xs ++ [text o])) as (ys & Hys).
      { apply lookup_insert_eq. }
      exists ([text o] ++ ys). rewrite Hys, <- app_assoc. reflexivity.
    + apply IH. rewrite lookup_insert_ne by congruence. exact Hl.
Qed.

Lemma add_extends (st : state) (o : addition) (l : loc) (xs : list string) :
  lists st !! l = Some xs ->
  exists ys, lists (add similarity st o) !! l = Some (xs ++ ys).
Proof.
  intros Hl. destruct o as [argument|argument]; simpl.
  - unfold add_prosecution_argument.
    match goal with
    | |- context [_analyze_argument_conflicts _ ?s _ ?sd] =>
        destruct (analyze_argument_conflicts_fst similarity s argument sd)
          as (_ & _ & _ & _ & H & _)
    end.
    rewrite H. apply record_conflicts_extends, Hl.
  - unfold add_defense_argument.
    match goal with
    | |- context [_analyze_argument_conflicts _ ?s _ ?sd] =>
        destruct (analyze_argument_conflicts_fst similarity s argument sd)
          as (_ & _ & _ & _ & H & _)
    end.
    rewrite H. apply record_conflicts_extends, Hl.
Qed.

(** X25: the lists of the store are appended to and nothing else: after
    any sequence of additions each list starts with what it was. *)
Theorem add_all_append_only (st : state) (os : list addition) (l : loc)
    (xs : list string) :
  lists st !! l = Some xs ->
  exists ys, lists (add_all similarity st os) !! l = Some (xs ++ ys).
Proof.
  revert st xs. induction os as [|o os IH]; intros st xs Hl.
  - exists []. rewrite app_nil_r. exact Hl.
  - destruct (add_extends st o l xs Hl) as (ys & Hys).
    destruct (IH (add similarity st o) (xs ++ ys) Hys) as (zs & Hzs).
    exists (ys ++ zs). unfold add_all in *. simpl.
    rewrite Hzs, <- app_assoc. reflexivity.
Qed.

Lemma add_facts (st : state) (o : addition) :
  shared_facts (add similarity st o) = shared_facts st /\
  disputed_facts (add similarity st o) = disputed_facts st.
Proof.
  destruct o as [argument|argument]; simpl.
  - unfold add_prosecution_argument.
    match goal with
    | |- context [_analyze_argument_conflicts _ ?s _ ?sd] =>
        destruct (analyze_argument_conflicts_fst similarity s argument sd)
          as (_ & _ & Hs & Hd & _ & _)
    end.
    rewrite Hs, Hd. auto.
  - unfold add_defense_argument.
    match goal with
    | |- context [_analyze_argument_conflicts _ ?s _ ?sd] =>
        destruct (analyze_argument_conflicts_fst similarity s argument sd)
          as (_ & _ & Hs & Hd & _ & _)
    end.
    rewrite Hs, Hd. auto.
Qed.

Lemma add_all_tracks (st : state) (os : list addition) :
  prosecution_track (add_all similarity st os)
  = prosecution_track st ++ on_prosecution os /\
  defense_track (add_all similarity st os)
  = defense_track st ++ on_defense os /\
  shared_facts (add_all similarity st os) = shared_facts st /\
  disputed_facts (add_all similarity st os) = disputed_facts st.
Proof.
  revert st. induction os as [|o os IH]; intros st.
  - simpl. rewrite !app_nil_r. auto.
  - unfold add_all in *. simpl fold_left.
    destruct (IH (add similarity st o)) as (Hp & Hd & Hs & Hdf).
    destruct (add_frame similarity st o
                {| text := ""; type := FACTUAL; strength := 0;
                   supporting_citations := 1%positive;
                   counter_arguments := 1%positive |})
      as (Hp1 & Hd1 & _).
    destruct (add_facts st o) as (Hs1 & Hdf1).
    rewrite Hp, Hd, Hs, Hdf, Hp1, Hd1, Hs1, Hdf1.
    destruct o as [a|a]; simpl; rewrite <- ?app_assoc, ?app_nil_r; auto.
Qed.

Lemma on_lengths (os : list addition) :
  (List.length (on_prosecution os) + List.length (on_defense os))%nat
  = List.length os.
Proof.
  induction os as [|[a|a] os IH]; simpl; lia.
Qed.

(** X26: after a sequence of additions the summary counts, on each track,
    the arguments it had and the arguments added to it, each addition once
    (conflicting or not, raised or not); the counts of the shared and of
    the disputed facts are as before. *)
Theorem summary_after_additions (st : state) (os : list addition) :
  prosecution_arguments (get_summary (add_all similarity st os))
  = (prosecution_arguments (get_summary st)
     + List.length (on_prosecution os))%nat /\
  defense_arguments (get_summary (add_all similarity st os))
  = (defense_arguments (get_summary st) + List.length (on_defense os))%nat /\
  n_shared_facts (get_summary (add_all similarity st os))
  = n_shared_facts (get_summary st) /\
  n_disputed_facts (get_summary (add_all similarity st os))
  = n_disputed_facts (get_summary st) /\
  (prosecution_arguments (get_summary (add_all similarity st os))
   + defense_arguments (get_summary (add_all similarity st os))
   = prosecution_arguments (get_summary st)
     + defense_arguments (get_summary st) + List.length os)%nat.
Proof.
  destruct (add_all_tracks st os) as (Hp & Hd & Hs & Hdf).
  pose proof (on_lengths os) as Hlen.
  simpl. rewrite Hp, Hd, Hs, Hdf, !length_app.
  repeat split; lia.
Qed.

Lemma sum_strength_bounds (lo hi : Q) (arguments : list Argument) (acc : Q) :
  Forall (fun a => lo <= strength a <= hi) arguments ->
  acc + inject_Z (Z.of_nat (List.length arguments)) * lo
  <= fold_left (fun acc arg => acc + strength arg) arguments acc
  /\ fold_left (fun acc arg => acc + strength arg) arguments acc
     <= acc + inject_Z (Z.of_nat (List.length arguments)) * hi.
Proof.
  intros H. revert acc. induction H as [|a l [Ha1 Ha2] Hl IH]; intros acc.
  - simpl. change (inject_Z (Z.of_nat 0)) with 0. split; lra.
  - simpl fold_left. destruct (IH (acc + strength a)) as [IH1 IH2].
    assert (E : inject_Z (Z.of_nat (List.length (a :: l)))
                == 1 + inject_Z (Z.of_nat (List.length l))).
    { simpl List.length. rewrite Nat2Z.inj_succ, <- Z.add_1_l, inject_Z_plus.
      reflexivity. }
    rewrite E. split; nra.
Qed.

(** X27: the strength of an empty track is 0, and the strength of a track
    whose arguments have strengths in [0, 1] is in [0, 1]. *)
Theorem track_strength_range (arguments : list Argument) :
  Forall (fun a => 0 <= strength a <= 1) arguments ->
  _calculate_track_strength [] = 0 /\
  0 <= _calculate_track_strength arguments <= 1.
Proof.
  intros H. split; [reflexivity|].
  destruct arguments as [|a l]; [simpl; lra|].
  unfold _calculate_track_strength.
  destruct (sum_strength_bounds 0 1 (a :: l) 0 H) as [H1 H2].
  set (n := inject_Z (Z.of_nat (List.length (a :: l)))) in *.
  assert (Hn : 0 < n).
  { unfold n. change 0 with (inject_Z 0). rewrite <- Zlt_Qlt.
    simpl List.length. lia. }
  split; [apply Qle_shift_div_l | apply Qle_shift_div_r]; try exact Hn; lra.
Qed.

(** A disputed fact is stored under its text: adding it sets its two views
    and leaves the other facts; the count of the summary grows only when
    the fact is new, whereas a shared fact is counted each time it is
    added. *)
Lemma disputed_fact_count (st : state) (fact view1 view2 shared : string) :
  let st' := add_disputed_fact st fact view1 view2 in
  disputed_facts st' !! fact = Some (view1, view2) /\
  (forall other, other <> fact ->
     disputed_facts st' !! other = disputed_facts st !! other) /\
  n_disputed_facts (get_summary st')
  = match disputed_facts st !! fact with
    | Some _ => n_disputed_facts (get_summary st)
    | None => S (n_disputed_facts (get_summary st))
    end /\
  n_shared_facts (get_summary (add_shared_fact st shared))
  = S (n_shared_facts (get_summary st)).
Proof.
  simpl. split; [apply lookup_insert_eq|]. split; [|split].
  - intros other Hne. apply lookup_insert_ne. congruence.
  - rewrite map_size_insert. destruct (disputed_facts st !! fact); reflexivity.
  - rewrite length_app. simpl. lia.
Qed.

End DualPerspectiveAnalysisFurther.

(** ** CounterArgumentPredictor *)

Section CounterArgumentPredictorFurther.
Import CounterArgumentPredictor.
Local Open Scope Q_scope.

Variable tokens : string -> list string.

Lemma lower_ascii_space (c : ascii) :
  lower_ascii c = " "%char -> c = " "%char.
Proof.
  destruct c as [[] [] [] [] [] [] [] []]; vm_compute; intros H;
    first [reflexivity | discriminate H].
Qed.

Lemma has_space_lower (s : string) :
  has_char " " (lower s) = true -> has_char " " s = true.
Proof.
  induction s as [|c s IH]; simpl; [discriminate|].
  intros H. apply orb_true_iff in H as [H|H]; apply orb_true_iff.
  - left. apply Ascii.eqb_eq in H. apply lower_ascii_space in H.
    subst c. reflexivity.
  - right. apply IH, H.
Qed.

Lemma prefix_has_char (c : ascii) (p s : string) :
  String.prefix p s = true -> has_char c p = true -> has_char c s = true.
Proof.
  revert p. induction s as [|b s IH]; intros p; destruct p as [|a p]; simpl;
    try discriminate.
  destruct (ascii_dec a b) as [->|]; [|discriminate].
  intros Hp Hc. apply orb_true_iff in Hc as [Hc|Hc]; apply orb_true_iff.
  - left. exact Hc.
  - right. eapply IH; eassumption.
Qed.

Lemma contains_has_char (c : ascii) (p s : string) :
  contains p s = true -> has_char c p = true -> has_char c s = true.
Proof.
  induction s as [|b s IH]; intros H Hc.
  - destruct p; simpl in *; [discriminate Hc | discriminate H].
  - change (contains p (String b s))
      with (String.prefix p (String b s) || contains p s) in H.
    apply orb_true_iff in H as [H|H].
    + exact (prefix_has_char c _ _ H Hc).
    + simpl. apply orb_true_iff. right. apply IH; assumption.
Qed.

(** Every pattern is a phrase of several words. *)
Lemma patterns_have_space :
  forallb (fun '(_, patterns) => forallb (has_char " ") patterns)
    argument_patterns = true.
Proof. reflexivity. Qed.

Lemma token_matches_nothing (token : string)
    (type_scores : list (string * nat)) :
  has_char " " token = false ->
  fold_left
    (fun type_scores '(arg_type, patterns) =>
       if existsb (fun pattern => contains pattern (lower token)) patterns
       then increment arg_type type_scores
       else type_scores)
    argument_patterns type_scores
  = type_scores.
Proof.
  intros Ht.
  assert (Hno : forall pattern,
             has_char " " pattern = true ->
             contains pattern (lower token) = false).
  { intros pattern Hp.
    destruct (contains pattern (lower token)) eqn:Hc; [|reflexivity].
    apply (contains_has_char " " _ _ Hc) in Hp.
    apply has_space_lower in Hp. congruence. }
  unfold argument_patterns. simpl.
  rewrite !Hno by reflexivity. reflexivity.
Qed.

Lemma fold_left_fixed {A B : Type} (f : B -> A -> B) (l : list A) (acc : B) :
  Forall (fun x => forall b, f b x = b) l -> fold_left f l acc = acc.
Proof.
  induction 1 as [|x l Hx Hl IH]; simpl; [reflexivity|].
  rewrite Hx. exact IH.
Qed.

(** X28: the patterns of the four argument types are phrases of several
    words and are looked for inside single tokens: when no token has a
    space in it, the argument is of type "general", and [predict] returns
    the three general counter-arguments. *)
Theorem predict_general (argument : string) :
  spaceless (tokens argument) = true ->
  _identify_argument_type (tokens argument) = "general" /\
  map text (predict tokens argument) = _generate_general_counter.
Proof.
  intros Hs.
  assert (Hg : _identify_argument_type (tokens argument) = "general").
  { unfold _identify_argument_type.
    rewrite fold_left_fixed; [reflexivity|].
    revert Hs. generalize (tokens argument).
    induction l as [|tok doc IH]; intros Hd; constructor.
    - simpl in Hd. apply andb_true_iff in Hd as [Ht _].
      apply negb_true_iff in Ht.
      intros acc. exact (token_matches_nothing tok acc Ht).
    - apply IH. simpl in Hd. apply andb_true_iff in Hd as [_ Hd]. exact Hd. }
  split; [exact Hg|].
  unfold predict. rewrite Hg. reflexivity.
Qed.

(** X29: whatever the argument, [predict] returns the counter-arguments of
    the template of its type, three of them, in the order of the template,
    each with the strength 0.7. *)
Theorem predict_template_order (argument : string) :
  map text (predict tokens argument)
  = _generate_counter_arguments (_identify_argument_type (tokens argument)) /\
  List.length (predict tokens argument) = 3%nat /\
  Forall (fun c => strength c = 7 # 10) (predict tokens argument).
Proof.
  unfold predict, _generate_counter_arguments, counter_strategies.
  set (t := _identify_argument_type (tokens argument)).
  cbn [lookup_strategy].
  repeat match goal with
         | |- context [String.eqb ?a t] => destruct (String.eqb a t)
         end;
    (split; [reflexivity|]); (split; [reflexivity|]);
    repeat constructor.
Qed.

End CounterArgumentPredictorFurther.

(** ** The further properties on sample inputs *)

Lemma summary_critical_are_evidence_gaps_witness :
  WeaknessAnalysis.total_weaknesses (WeaknessAnalysis.get_summary reported_sample)
  = List.length reported_sample /\
  WeaknessAnalysis.critical_weaknesses
    (WeaknessAnalysis.get_summary reported_sample)
  = List.length
      (default []
         (WeaknessAnalysis.by_type (WeaknessAnalysis.get_summary reported_sample)
            !! "evidence_gap")) /\
  (WeaknessAnalysis.critical_weaknesses
     (WeaknessAnalysis.get_summary reported_sample)
   <= WeaknessAnalysis.total_weaknesses
        (WeaknessAnalysis.get_summary reported_sample))%nat.
Proof.
  apply (summary_critical_are_evidence_gaps reported_sample).
  unfold reported_sample, reported.
  repeat (constructor; [auto|]). constructor.
Defined.

Example summary_of_reported_sample :
  WeaknessAnalysis.critical_weaknesses
    (WeaknessAnalysis.get_summary reported_sample) = 2%nat.
Proof. reflexivity. Qed.

Lemma analyze_precedents_count_witness :
  WeaknessAnalysis._analyze_precedents precedents_argument
  = Ok (repeat WeaknessAnalysis.precedent_weakness
          (List.length (List.filter distinguishable sample_precedents))).
Proof.
  apply (analyze_precedents_count precedents_argument sample_precedents).
  - vm_compute. reflexivity.
  - vm_compute. reflexivity.
Defined.

Lemma time_weight_monotone_witness :
  (1 # 10 <= CaseAnalysis._calculate_time_weight 2026 2000 /\
   CaseAnalysis._calculate_time_weight 2026 2000
   <= CaseAnalysis._calculate_time_weight 2026 2020 /\
   ((2020 <= 2026)%Z -> CaseAnalysis._calculate_time_weight 2026 2020 <= 1) /\
   ((2000 <= 2026 - 18)%Z ->
    CaseAnalysis._calculate_time_weight 2026 2000 == 1 # 10))%Q.
Proof. apply (time_weight_monotone 2026 2000 2020). lia. Defined.

Lemma malformed_date_is_current_year_witness :
  CaseAnalysis._extract_year 2026 (PStr "01/02/2023") = Ok 2026%Z /\
  exists score,
    CaseAnalysis._calculate_relevance 2026 malformed_date_record = Ok score /\
    (score == Qmin ((1 + court_weight_of malformed_date_metadata
                     + citation_weight malformed_date_record) / 3) 1)%Q.
Proof.
  apply (malformed_date_is_current_year 2026 malformed_date_record
           malformed_date_metadata "01/02/2023").
  - vm_compute. reflexivity.
  - vm_compute. reflexivity.
  - vm_compute. reflexivity.
  - vm_compute. reflexivity.
Defined.

Lemma relevance_monotone_in_citations_witness :
  exists score score',
    CaseAnalysis._calculate_relevance 2026 test_case_data = Ok score /\
    CaseAnalysis._calculate_relevance 2026
      (<["citations" := PList three_citations]> test_case_data) = Ok score' /\
    (score <= score')%Q /\
    ((10 <= citation_count test_case_data)%nat -> (score == score')%Q).
Proof.
  apply (relevance_monotone_in_citations 2026 test_case_data three_citations).
  - vm_compute. reflexivity.
  - vm_compute. lia.
Defined.

Lemma predict_outcome_of_case_record_witness :
  exists score,
    CaseAnalysis._calculate_relevance 2026 test_case_data = Ok score /\
    CaseAnalysis.error (CaseAnalysis._predict_outcome 2026 test_case_data)
    = None /\
    (CaseAnalysis.probability (CaseAnalysis._predict_outcome 2026 test_case_data)
     == (score + inject_Z (Z.of_nat (citation_count test_case_data)) / 100) / 2)%Q /\
    (0 <= CaseAnalysis.probability
            (CaseAnalysis._predict_outcome 2026 test_case_data))%Q /\
    (0 <= CaseAnalysis.confidence
            (CaseAnalysis._predict_outcome 2026 test_case_data) <= 1)%Q.
Proof.
  apply (predict_outcome_of_case_record 2026 test_case_data).
  vm_compute. reflexivity.
Defined.

Lemma predict_outcome_probability_over_one_witness :
  (1 < CaseAnalysis.probability
         (CaseAnalysis._predict_outcome 2026 many_citations_record))%Q /\
  (CaseAnalysis.confidence
     (CaseAnalysis._predict_outcome 2026 many_citations_record) == 1)%Q.
Proof.
  apply (predict_outcome_probability_over_one 2026 many_citations_record).
  - vm_compute. reflexivity.
  - vm_compute. lia.
Defined.

Lemma predict_outcome_degraded_witness :
  exists e,
    CaseAnalysis._predict_outcome 2026 ∅
    = {| CaseAnalysis.error := Some e;
         CaseAnalysis.probability := 5 # 10;
         CaseAnalysis.confidence := 0;
         CaseAnalysis.factors := None |}.
Proof.
  apply (predict_outcome_degraded 2026 ∅). vm_compute. reflexivity.
Defined.

Lemma determine_court_level_values_witness :
  In "Supreme Court"
    ["Supreme Court"; "Circuit Court"; "District Court"; "Other"] /\
  ("Supreme Court" = "Other" \/
   (4 # 10 < default (4 # 10) (CaseAnalysis.precedent_weight !! "Supreme Court"))%Q).
Proof.
  apply (determine_court_level_values test_case_data "Supreme Court").
  vm_compute. reflexivity.
Defined.

Lemma key_points_one_line_witness :
  exists key_points,
    CaseAnalysis._extract_key_points test_case_data = Ok key_points /\
    Forall (fun kp => one_line kp = true) key_points /\
    (contains "." "The Court holds that..." = false -> key_points = []).
Proof.
  apply (key_points_one_line test_case_data "The Court holds that...").
  vm_compute. reflexivity.
Defined.

Lemma raw_weights_ranges_witness :
  exists r c h o t,
    PointWeighting.raw_weights 2026 sample_case
    = Ok [("relevance", r); ("citation_frequency", c); ("court_hierarchy", h);
          ("case_outcome_impact", o); ("temporal_relevance", t)] /\
    (0 <= r <= 1)%Q /\ (0 <= c <= 1)%Q /\ (4 # 10 <= h <= 1)%Q /\
    (0 <= o <= 1)%Q /\ (0 < t)%Q.
Proof.
  apply (raw_weights_ranges 2026 sample_case). vm_compute. reflexivity.
Defined.

Lemma temporal_weight_decay_witness :
  exists t1 t2,
    PointWeighting._calculate_temporal_weight 2026 old_case = Ok t1 /\
    PointWeighting._calculate_temporal_weight 2026 recent_case = Ok t2 /\
    (t1 < t2)%Q /\
    (2020%Z = 2026%Z -> (t2 == 1)%Q).
Proof.
  apply (temporal_weight_decay 2026 old_case recent_case
           "2010-05-05" "2020-01-01" 2010 2020).
  - vm_compute. reflexivity.
  - vm_compute. reflexivity.
  - vm_compute. reflexivity.
  - vm_compute. reflexivity.
  - lia.
Defined.

Lemma weight_points_proportional_witness :
  exists ws,
    PointWeighting.raw_weights 2026 sample_case = Ok ws /\
    ~ (PointWeighting.sum_values ws == 0)%Q /\
    PointWeighting.weight_points 2026 sample_case
    = Ok (map (fun kv => (fst kv, (snd kv / PointWeighting.sum_values ws)%Q)) ws).
Proof.
  apply (weight_points_proportional 2026 sample_case). vm_compute. reflexivity.
Defined.

Lemma primary_strategy_table_witness :
  exists p,
    StrategySuggestionEngine._generate_primary_strategy (8 # 10) (3 # 10) = Ok p /\
    StrategySuggestionEngine.priority p = 1%Z /\
    (0 <= StrategySuggestionEngine.success_probability p <= 1)%Q /\
    (StrategySuggestionEngine.type p = StrategySuggestionEngine.AGGRESSIVE <->
     (7 # 10 < 8 # 10)%Q /\ (3 # 10 < 5 # 10)%Q) /\
    (StrategySuggestionEngine.type p = StrategySuggestionEngine.DEFENSIVE <->
     (7 # 10 < 3 # 10)%Q) /\
    (StrategySuggestionEngine.type p = StrategySuggestionEngine.AGGRESSIVE ->
     (7 # 10 < StrategySuggestionEngine.success_probability p)%Q) /\
    (StrategySuggestionEngine.type p = StrategySuggestionEngine.DEFENSIVE ->
     (StrategySuggestionEngine.success_probability p < 3 # 10)%Q).
Proof.
  apply (primary_strategy_table (8 # 10) (3 # 10)); split; vm_compute;
    discriminate.
Defined.

Example primary_strategy_aggressive :
  exists p,
    StrategySuggestionEngine._generate_primary_strategy (8 # 10) (3 # 10) = Ok p /\
    StrategySuggestionEngine.type p = StrategySuggestionEngine.AGGRESSIVE /\
    StrategySuggestionEngine.success_probability p = 8 # 10.
Proof. eexists. split; [vm_compute; reflexivity|]. split; reflexivity. Qed.

Example primary_strategy_defensive :
  exists p,
    StrategySuggestionEngine._generate_primary_strategy (4 # 10) (8 # 10) = Ok p /\
    StrategySuggestionEngine.type p = StrategySuggestionEngine.DEFENSIVE /\
    (StrategySuggestionEngine.success_probability p == 2 # 10)%Q.
Proof. eexists. split; [vm_compute; reflexivity|]. split; reflexivity. Qed.

Lemma suggest_reads_scores_only_witness :
  StrategySuggestionEngine.suggest sample_analysis
  = StrategySuggestionEngine.suggest
      (<["weaknesses" := PList []]> sample_analysis).
Proof.
  apply (suggest_reads_scores_only sample_analysis
           (<["weaknesses" := PList []]> sample_analysis)).
  unfold score_keys. repeat (constructor; [vm_compute; reflexivity|]).
  constructor.
Defined.

Lemma suggest_without_scores_witness :
  exists p,
    StrategySuggestionEngine.suggest integrator_analysis = Ok [p] /\
    StrategySuggestionEngine.type p = StrategySuggestionEngine.BALANCED /\
    StrategySuggestionEngine.priority p = 1%Z /\
    (StrategySuggestionEngine.success_probability p == 5 # 10)%Q.
Proof.
  apply (suggest_without_scores integrator_analysis).
  unfold score_keys. repeat (constructor; [vm_compute; reflexivity|]).
  constructor.
Defined.

Lemma suggest_supplementary_iff_witness :
  exists l precedent_score,
    StrategySuggestionEngine.suggest strong_precedent_analysis = Ok l /\
    as_num (default (PInt 0) (strong_precedent_analysis !! "precedent_score"))
    = Ok precedent_score /\
    ((7 # 10 < precedent_score)%Q ->
     exists s p,
       l = [s; p] /\
       StrategySuggestionEngine.type s
       = StrategySuggestionEngine.PRECEDENT_FOCUSED /\
       StrategySuggestionEngine.success_probability s = precedent_score /\
       StrategySuggestionEngine.priority p = 1%Z) /\
    ((precedent_score <= 7 # 10)%Q ->
     exists p, l = [p] /\ StrategySuggestionEngine.priority p = 1%Z).
Proof.
  apply (suggest_supplementary_iff strong_precedent_analysis).
  vm_compute. reflexivity.
Defined.

Lemma strengths_in_unit_interval_witness :
  exists case_strength opposition_strength,
    StrategySuggestionEngine._evaluate_case_strength sample_analysis
    = Ok case_strength /\
    StrategySuggestionEngine._evaluate_opposition_strength sample_analysis
    = Ok opposition_strength /\
    (0 <= case_strength <= 1)%Q /\
    (0 <= opposition_strength <= 1)%Q.
Proof.
  apply (strengths_in_unit_interval sample_analysis). vm_compute. reflexivity.
Defined.

Lemma arguments_conflict_symmetric_witness :
  DualPerspectiveAnalysis._arguments_conflict sample_similarity
    defense_claim prosecution_claim
  = DualPerspectiveAnalysis._arguments_conflict sample_similarity
      prosecution_claim defense_claim.
Proof.
  apply (arguments_conflict_symmetric sample_similarity
           defense_claim prosecution_claim).
  vm_compute. reflexivity.
Defined.

Lemma add_all_append_only_witness :
  exists ys,
    DualPerspectiveAnalysis.lists
      (add_all sample_similarity after_defense_claim
         [Prosecution prosecution_claim; Defense mixed_claim]) !! 4%positive
    = Some ([] ++ ys).
Proof.
  apply (add_all_append_only sample_similarity after_defense_claim
           [Prosecution prosecution_claim; Defense mixed_claim] 4%positive []).
  vm_compute. reflexivity.
Defined.

Lemma track_strength_range_witness :
  DualPerspectiveAnalysis._calculate_track_strength [] = 0%Q /\
  (0 <= DualPerspectiveAnalysis._calculate_track_strength
          [defense_claim; prosecution_claim] <= 1)%Q.
Proof.
  apply (track_strength_range [defense_claim; prosecution_claim]).
  repeat (constructor; [split; vm_compute; discriminate|]). constructor.
Defined.

Example track_strength_of_two :
  (DualPerspectiveAnalysis._calculate_track_strength
     [defense_claim; prosecution_claim] == 65 # 100)%Q.
Proof. reflexivity. Qed.

Lemma predict_general_witness :
  CounterArgumentPredictor._identify_argument_type
    (split_words "The statute requires notice as the court held")
  = "general" /\
  map CounterArgumentPredictor.text
    (CounterArgumentPredictor.predict split_words
       "The statute requires notice as the court held")
  = CounterArgumentPredictor._generate_general_counter.
Proof.
  apply (predict_general split_words
           "The statute requires notice as the court held").
  vm_compute. reflexivity.
Defined.

(** A tokenizer that keeps a phrase in one token finds the type. *)
Example identify_statutory :
  CounterArgumentPredictor._identify_argument_type
    ["The"; "statute requires"; "notice"] = "statutory".
Proof. reflexivity. Qed.
